(** * terminal-portfolio: the navigation model and its content provider

    A shallow embedding of the Go package [tui] (model.go and content.go) and
    the properties of its navigation state machine.

    Conventions.
    - Go's [int] is a 64-bit two's-complement integer.  It is a [Z] here and
      every addition or subtraction whose operands come from outside (the
      terminal geometry, the viewport arithmetic) is written with the
      wrap-around [int_add] / [int_sub].  Page and selection counters are
      only incremented or decremented behind a comparison with a slice
      length, and a Go slice length fits in an [int], so these never wrap
      and are written with plain [+ 1] and [- 1].
    - A Go [string] is a byte string: [string] of the Standard Library.
    - A run-time panic (index or slice bounds out of range) is the result
      [None].
    - The libraries the package calls (lipgloss, glamour, the bubbles
      viewport, os, time, sort) are not part of the repository.  Pure
      renderers and the operating system are fields of the classes
      [Renderers] and [Env]; the viewport, whose scrolling state the
      navigation model drives, is modelled after the library's source in
      [Module viewport], with the slice expressions that make its methods
      panic in a viewport lower than its frame; the insertion sort that
      [sort.Slice] runs on short slices is in [Module sort]. *)

From Stdlib Require Import ZArith List String Ascii Bool Lia DecimalString.
From Stdlib Require Import Permutation Sorted.
Import ListNotations.

Open Scope string_scope.
Open Scope Z_scope.

Infix "==" := String.eqb (at level 70, no associativity).

(* ------------------------------------------------------------------ *)
(** ** Go integers *)

Definition int_min : Z := - 2 ^ 63.
Definition int_max : Z := 2 ^ 63 - 1.

(** Reduction of a mathematical integer to the [int] it is stored as. *)
Definition wrap (z : Z) : Z := (z + 2 ^ 63) mod 2 ^ 64 - 2 ^ 63.

Definition int_add (a b : Z) : Z := wrap (a + b).
Definition int_sub (a b : Z) : Z := wrap (a - b).
(** Go's [/] truncates toward zero. *)
Definition int_div (a b : Z) : Z := wrap (Z.quot a b).

Definition is_int (z : Z) : Prop := int_min <= z <= int_max.

(** [len] of a slice. *)
Definition len {A} (l : list A) : Z := Z.of_nat (List.length l).

(** [a[low:high]] of a slice whose capacity is its length (as the result of
    [strings.Split] is): [None] is the panic "slice bounds out of range". *)
Definition slice {A} (l : list A) (low high : Z) : option (list A) :=
  if (0 <=? low) && (low <=? high) && (high <=? len l)
  then Some (firstn (Z.to_nat (high - low)) (skipn (Z.to_nat low) l))
  else None.

(* ------------------------------------------------------------------ *)
(** ** The error monad of panics *)

Definition bind {A B} (x : option A) (f : A -> option B) : option B :=
  match x with
  | Some a => f a
  | None => None
  end.

Notation "x <- e ;; k" := (bind e (fun x => k))
  (at level 61, e at next level, right associativity).

(* ------------------------------------------------------------------ *)
(** ** Package strings (the functions content.go and the viewport call) *)

Module strings.

Definition LF : string := String "010"%char EmptyString.
Definition CR : string := String "013"%char EmptyString.
Definition quote : ascii := "034"%char.

(** [dropPrefix p s] is [Some r] when [s = p ++ r]. *)
Fixpoint dropPrefix (p s : string) : option string :=
  match p, s with
  | EmptyString, _ => Some s
  | String a p', String b s' => if Ascii.eqb a b then dropPrefix p' s' else None
  | String _ _, EmptyString => None
  end.

Definition HasPrefix (s p : string) : bool :=
  match dropPrefix p s with Some _ => true | None => false end.

Fixpoint rev_onto (s acc : string) : string :=
  match s with
  | EmptyString => acc
  | String c s' => rev_onto s' (String c acc)
  end.

Definition rev (s : string) : string := rev_onto s EmptyString.

Definition HasSuffix (s suffix : string) : bool :=
  HasPrefix (rev s) (rev suffix).

(** The splitting loop shared by [Split] and [SplitN], for a non-empty
    separator.  [limit] is the number of cuts still allowed ([None]: any
    number); [skip] counts the bytes of a separator just matched that are
    still to be passed over.  The result is the piece in progress and the
    pieces after it. *)
Fixpoint splitFrom (sep : string) (limit : option nat) (skip : nat) (s : string)
  : string * list string :=
  match s with
  | EmptyString => (EmptyString, [])
  | String c s' =>
      match skip with
      | S k => splitFrom sep limit k s'
      | O =>
          let cut_here :=
            match limit with
            | Some O => false
            | _ => HasPrefix s sep
            end in
          if cut_here then
            let limit' := match limit with Some (S n) => Some n | other => other end in
            let '(p, ps) := splitFrom sep limit' (Nat.pred (String.length sep)) s' in
            (EmptyString, p :: ps)
          else
            let '(p, ps) := splitFrom sep limit O s' in
            (String c p, ps)
      end
  end.

(** [strings.Split(s, sep)], [sep] not empty. *)
Definition Split (s sep : string) : list string :=
  let '(p, ps) := splitFrom sep None O s in p :: ps.

(** [strings.SplitN(s, sep, n)], [sep] not empty: at most [n] pieces, the
    last one the unsplit rest; [n = 0] gives the empty slice and [n < 0]
    every piece. *)
Definition SplitN (s sep : string) (n : Z) : list string :=
  if n =? 0 then []
  else if n <? 0 then Split s sep
  else let '(p, ps) := splitFrom sep (Some (Z.to_nat (n - 1))) O s in p :: ps.

Fixpoint Join (elems : list string) (sep : string) : string :=
  match elems with
  | [] => EmptyString
  | [e] => e
  | e :: rest => e ++ sep ++ Join rest sep
  end.

(** [strings.ReplaceAll(s, old, new)], [old] not empty. *)
Definition ReplaceAll (s old new : string) : string := Join (Split s old) new.

(** The UTF-8 encodings of the code points of [unicode.IsSpace]. *)
Definition utf8 (bytes : list Z) : string :=
  fold_right (fun b s => String (ascii_of_N (Z.to_N b)) s) EmptyString bytes.

Definition spaces : list string :=
  map utf8
    ([ [9]; [10]; [11]; [12]; [13]; [32];
       [194; 133]; [194; 160]; [225; 154; 128] ]
     ++ map (fun b => [226; 128; b])
            [128; 129; 130; 131; 132; 133; 134; 135; 136; 137; 138; 168; 169; 175]
     ++ [ [226; 129; 159]; [227; 128; 128] ])%list.

(** Byte length of the first of [pats] that [s] starts with, [0] if none. *)
Fixpoint matchLen (pats : list string) (s : string) : nat :=
  match pats with
  | [] => O
  | p :: rest => if HasPrefix s p then String.length p else matchLen rest s
  end.

(** Drops leading occurrences of the patterns. *)
Fixpoint trimLeftPats (pats : list string) (skip : nat) (s : string) : string :=
  match s with
  | EmptyString => EmptyString
  | String c s' =>
      match skip with
      | S k => trimLeftPats pats k s'
      | O =>
          match matchLen pats s with
          | O => s
          | S k => trimLeftPats pats k s'
          end
      end
  end.

Definition trimPats (pats : list string) (s : string) : string :=
  rev (trimLeftPats (map rev pats) O (rev (trimLeftPats pats O s))).

Definition TrimSpace (s : string) : string := trimPats spaces s.

(** [strings.Trim(s, cutset)] for a cutset of ASCII characters. *)
Definition Trim (s cutset : string) : string :=
  trimPats (map (fun c => String c EmptyString) (list_ascii_of_string cutset)) s.

(** [strings.TrimSuffix(s, suffix)]. *)
Definition TrimSuffix (s suffix : string) : string :=
  match dropPrefix (rev suffix) (rev s) with
  | Some r => rev r
  | None => s
  end.

End strings.

(** [fmt.Sprintf("%d", n)]. *)
Definition itoa (n : Z) : string := NilZero.string_of_int (Z.to_int n).

(* ------------------------------------------------------------------ *)
(** ** Package tea: the messages and commands of the event loop *)

Module tea.

(** A key press: the text of [msg.String()] and the slice [msg.Runes]. *)
Record KeyMsg := { KeyString : string; Runes : list Z }.

Inductive Msg :=
| WindowSizeMsg (Width Height : Z)
| Key (k : KeyMsg)
| MouseWheelUp
| MouseWheelDown
| Other.

(** The commands [Update] returns: [nil] or [tea.Quit]. *)
Inductive Cmd := nil | QuitCmd.

End tea.

(* ------------------------------------------------------------------ *)
(** ** Package viewport (github.com/charmbracelet/bubbles/viewport)

    The vertical scrolling state of the library's [Model] and the methods
    model.go calls.  [StyleFrame] is [m.Style.GetVerticalFrameSize()],
    which the library adds to the scrollable height; it is [0] for the zero
    style.  The key map is the default one of the vertical keys; the
    horizontal offset of later releases has no part in the navigation and
    is left out.

    The scrolling methods have pointer receivers and return the lines that
    come into view, a slice expression on [m.lines].  Every caller here
    drops these lines, but the expression is evaluated and panics when its
    bounds are out of range: a method is a function to [option Model], the
    receiver as the method leaves it, or [None] for the panic. *)

Module viewport.

Record Model := {
  Width : Z;
  Height : Z;
  YOffset : Z;
  StyleFrame : Z;
  lines : list string
}.

Definition set_Width (m : Model) (w : Z) : Model :=
  {| Width := w; Height := Height m; YOffset := YOffset m;
     StyleFrame := StyleFrame m; lines := lines m |}.
Definition set_Height (m : Model) (h : Z) : Model :=
  {| Width := Width m; Height := h; YOffset := YOffset m;
     StyleFrame := StyleFrame m; lines := lines m |}.
Definition set_YOffset (m : Model) (y : Z) : Model :=
  {| Width := Width m; Height := Height m; YOffset := y;
     StyleFrame := StyleFrame m; lines := lines m |}.
Definition set_StyleFrame (m : Model) (f : Z) : Model :=
  {| Width := Width m; Height := Height m; YOffset := YOffset m;
     StyleFrame := f; lines := lines m |}.
Definition set_lines (m : Model) (l : list string) : Model :=
  {| Width := Width m; Height := Height m; YOffset := YOffset m;
     StyleFrame := StyleFrame m; lines := l |}.

Definition New (width height : Z) : Model :=
  {| Width := width; Height := height; YOffset := 0; StyleFrame := 0; lines := [] |}.

Definition AtTop (m : Model) : bool := YOffset m <=? 0.

Definition maxYOffset (m : Model) : Z :=
  Z.max 0 (int_add (int_sub (len (lines m)) (Height m)) (StyleFrame m)).

Definition AtBottom (m : Model) : bool := maxYOffset m <=? YOffset m.

Definition clamp (v low high : Z) : Z :=
  let '(low, high) := if high <? low then (high, low) else (low, high) in
  Z.min high (Z.max low v).

Definition SetYOffset (m : Model) (n : Z) : Model :=
  set_YOffset m (clamp n 0 (maxYOffset m)).

(** The lines in view, before the padding and cropping of the frame. *)
Definition visibleLines (m : Model) : option (list string) :=
  let h := int_sub (Height m) (StyleFrame m) in
  if 0 <? len (lines m) then
    let top := Z.max 0 (YOffset m) in
    let bottom := clamp (int_add (YOffset m) h) top (len (lines m)) in
    slice (lines m) top bottom
  else Some [].

Definition GotoTop (m : Model) : option Model :=
  if AtTop m then Some m
  else
    let m := SetYOffset m 0 in
    _ <- visibleLines m ;; Some m.

Definition GotoBottom (m : Model) : option Model :=
  let m := SetYOffset m (maxYOffset m) in
  _ <- visibleLines m ;; Some m.

Definition SetContent (m : Model) (s : string) : option Model :=
  let s := strings.ReplaceAll s (strings.CR ++ strings.LF) strings.LF in
  let m := set_lines m (strings.Split s strings.LF) in
  if len (lines m) - 1 <? YOffset m then GotoBottom m else Some m.

Definition LineDown (m : Model) (n : Z) : option Model :=
  if AtBottom m || (n =? 0) || (len (lines m) =? 0) then Some m
  else
    let m := SetYOffset m (int_add (YOffset m) n) in
    let bottom := clamp (int_add (YOffset m) (Height m)) 0 (len (lines m)) in
    let top := clamp (int_sub (int_add (YOffset m) (Height m)) n) 0 bottom in
    _ <- slice (lines m) top bottom ;; Some m.

Definition LineUp (m : Model) (n : Z) : option Model :=
  if AtTop m || (n =? 0) || (len (lines m) =? 0) then Some m
  else
    let m := SetYOffset m (int_sub (YOffset m) n) in
    let top := Z.max 0 (YOffset m) in
    let bottom := clamp (int_add (YOffset m) n) 0 (maxYOffset m) in
    _ <- slice (lines m) top bottom ;; Some m.

Definition ViewDown (m : Model) : option Model :=
  if AtBottom m then Some m else LineDown m (Height m).

Definition ViewUp (m : Model) : option Model :=
  if AtTop m then Some m else LineUp m (Height m).

Definition HalfViewDown (m : Model) : option Model :=
  if AtBottom m then Some m else LineDown m (int_div (Height m) 2).

Definition HalfViewUp (m : Model) : option Model :=
  if AtTop m then Some m else LineUp m (int_div (Height m) 2).

Definition Matches (k : tea.KeyMsg) (keys : list string) : bool :=
  existsb (fun s => tea.KeyString k == s) keys.

(** [Update] with the default key map and the mouse wheel (three lines a
    notch); every other message leaves the viewport as it is. *)
Definition Update (m : Model) (msg : tea.Msg) : option Model :=
  match msg with
  | tea.Key k =>
      if Matches k ["pgdown"; " "; "f"] then ViewDown m
      else if Matches k ["pgup"; "b"] then ViewUp m
      else if Matches k ["d"; "ctrl+d"] then HalfViewDown m
      else if Matches k ["u"; "ctrl+u"] then HalfViewUp m
      else if Matches k ["down"; "j"] then LineDown m 1
      else if Matches k ["up"; "k"] then LineUp m 1
      else Some m
  | tea.MouseWheelUp => LineUp m 3
  | tea.MouseWheelDown => LineDown m 3
  | _ => Some m
  end.

End viewport.

(* ------------------------------------------------------------------ *)
(** ** Package sort: the insertion sort

    [sort.Slice] hands a slice of at most twelve elements to
    [insertionSortLessFunc] (Go 1.19 and later):
    [for i := a + 1; i < b; i++ { for j := i; j > a && less(j, j-1); j-- { swap(j, j-1) } }].
    The elements before position [i] are kept last element first. *)

Module sort.

(** The inner loop: [x], behind the elements [before], moves toward the
    front as long as it is less than the element in front of it. *)
Fixpoint sink {A : Type} (less : A -> A -> bool) (x : A) (before : list A) : list A :=
  match before with
  | [] => [x]
  | y :: rest => if less x y then y :: sink less x rest else x :: y :: rest
  end.

Definition insertionSort (A : Type) (less : A -> A -> bool) (l : list A) : list A :=
  List.rev (fold_left (fun before x => sink less x before) l []).

End sort.

(* ------------------------------------------------------------------ *)
(** ** The collaborators outside the repository *)

(** A directory entry as [ioutil.ReadDir] returns it. *)
Record FileInfo := { Name : string; IsDir : bool }.

(** The operating system, the clock and package sort, as content.go uses
    them.  An instant of [time.Time] is an integer (later is larger). *)
Class Env := {
  (** [os.Getwd()]: [None] when it returns an error. *)
  Getwd : option string;
  (** [os.IsNotExist(err)] for the error of [os.Stat(path)]. *)
  Stat_IsNotExist : string -> bool;
  (** [ioutil.ReadDir(dir)]: [None] when it returns an error. *)
  ReadDir : string -> option (list FileInfo);
  (** [ioutil.ReadFile(path)]: [None] when it returns an error. *)
  ReadFile : string -> option string;
  filepath_Join : list string -> string;
  filepath_Base : string -> string;
  filepath_Ext : string -> string;
  (** [time.Parse("2006-01-02", s)]: [None] when it returns an error. *)
  time_Parse : string -> option Z;
  (** [t.Format("2006-01-02")]. *)
  time_Format : Z -> string;
  (** [time.Now()] as read while the [i]-th directory entry is loaded. *)
  time_Now : nat -> Z;
  (** [sort.Slice(x, less)], [less] given on the elements. *)
  sort_Slice : forall A : Type, (A -> A -> bool) -> list A -> list A
}.

(** [t.After(u)]. *)
Definition After (t u : Z) : bool := u <? t.

(* ------------------------------------------------------------------ *)
(** ** content.go: front matter, posts and the fallback *)

Module FrontMatter.
Record t := {
  Title : string;
  Summary : string;
  Date : string;
  Tags : list string;
  ReadTime : string;
  Author : string;
  Published : bool
}.
(** The zero value of [var fm FrontMatter]. *)
Definition zero : t :=
  {| Title := ""; Summary := ""; Date := ""; Tags := []; ReadTime := "";
     Author := ""; Published := false |}.
End FrontMatter.

Module BlogPost.
Record t := {
  ID : string;
  Title : string;
  Summary : string;
  Content : string;
  Date : Z;
  Tags : list string;
  ReadTime : string;
  Author : string;
  Published : bool;
  FilePath : string
}.
End BlogPost.

(** [BlogEntry] of model.go. *)
Record BlogEntry := {
  Title : string;
  Summary : string;
  Content : string;
  Date : string
}.

(** [Project] of content.go. *)
Module Project.
Record t := {
  Name : string;
  Description : string;
  Tech : list string;
  Features : list string;
  Status : string;
  URL : string
}.
End Project.

(** One header line of the front matter: the body of the loop of
    [parseFrontMatter]. *)
Definition parseLine (fm : FrontMatter.t) (line : string) : FrontMatter.t :=
  let line := strings.TrimSpace line in
  if line == "" then fm
  else
    match strings.SplitN line ":" 2 with
    | [k; v] =>
        let key := strings.TrimSpace k in
        let value := strings.TrimSpace v in
        let value := strings.Trim value (String strings.quote "") in
        let '(FrontMatter.Build_t title summary date tags readTime author published) := fm in
        if key == "title" then
          FrontMatter.Build_t value summary date tags readTime author published
        else if key == "summary" then
          FrontMatter.Build_t title value date tags readTime author published
        else if key == "date" then
          FrontMatter.Build_t title summary value tags readTime author published
        else if key == "readTime" then
          FrontMatter.Build_t title summary date tags value author published
        else if key == "author" then
          FrontMatter.Build_t title summary date tags readTime value published
        else if key == "published" then
          FrontMatter.Build_t title summary date tags readTime author (value == "true")
        else if key == "tags" then
          let value := strings.Trim value "[]" in
          if negb (value == "") then
            let tags' :=
              map (fun tag => strings.Trim (strings.TrimSpace tag) (String strings.quote ""))
                  (strings.Split value ",") in
            FrontMatter.Build_t title summary date tags' readTime author published
          else fm
        else fm
    | _ => fm
    end.

(** [parseFrontMatter]: the front matter, the markdown after it and the
    error ([None] is Go's [nil]). *)
Definition parseFrontMatter (content : string)
  : FrontMatter.t * string * option string :=
  let fm := FrontMatter.zero in
  let delim := "---" ++ strings.LF in
  if negb (strings.HasPrefix content delim) then (fm, content, None)
  else
    match strings.SplitN content delim 3 with
    | [_; frontmatterContent; markdownContent] =>
        let lines := strings.Split frontmatterContent strings.LF in
        (fold_left parseLine lines fm, markdownContent, None)
    | _ => (fm, content, Some "invalid frontmatter format")
    end.

Definition getFallbackBlogPosts : list BlogEntry :=
  let fallbackContent1 := "# Building Terminal UIs with Bubble Tea

Bubble Tea is an amazing framework for building terminal user interfaces in Go. It follows the Elm architecture pattern, making it easy to reason about state management and updates.

## Key Features

- **Reactive programming model**: Based on the Elm Architecture
- **Built-in support**: Mouse and keyboard input handling
- **Flexible styling**: Integration with Lipgloss for beautiful UIs
- **Component-based**: Modular architecture for reusable components

## Getting Started

To get started with Bubble Tea, you need to understand three core concepts:

1. **Model**: Represents your application state
2. **Update**: Handles messages and updates the model  
3. **View**: Renders the model to the terminal

This is a fallback version of the blog post. Please check that your markdown files are properly configured in the `content/blog` directory." in
  let fallbackContent2 := "# Modern Web Development Trends

The web development landscape continues to evolve rapidly with new frameworks and tools emerging regularly.

## Key Trends

- **React Server Components**: Zero bundle impact rendering
- **Edge Computing**: Bringing computation closer to users
- **TypeScript Everywhere**: Type safety across the full stack
- **AI Integration**: Copilot and AI-powered development tools

## Popular Frameworks

- **Next.js**: React with server-side rendering
- **Nuxt**: Vue.js full-stack framework
- **SvelteKit**: Svelte's full-stack solution
- **Remix**: Web standards focused React framework

This is a fallback version of the blog post. Please check that your markdown files are properly configured in the `content/blog` directory." in
  let fallbackContent3 := "# Go vs Rust: A Developer's Perspective

Both Go and Rust have gained significant traction in the systems programming space.

## Go: Simplicity and Productivity

**Strengths:**
- Simple syntax and fast compilation
- Built-in concurrency with goroutines
- Excellent standard library
- Great for web services and microservices

## Rust: Safety and Performance  

**Strengths:**
- Memory safety without garbage collection
- Zero-cost abstractions
- Excellent performance
- Growing ecosystem with Cargo

## When to Choose What

**Choose Go** for rapid development and team productivity.
**Choose Rust** for maximum performance and memory safety.

This is a fallback version of the blog post. Please check that your markdown files are properly configured in the `content/blog` directory." in
  [ {| Title := "Building Terminal UIs with Bubble Tea";
       Summary := "A deep dive into creating beautiful terminal applications using Charm's Bubble Tea framework.";
       Content := fallbackContent1;
       Date := "2024-01-15" |};
    {| Title := "Modern Web Development Trends";
       Summary := "Exploring the latest trends and technologies shaping web development in 2024.";
       Content := fallbackContent2;
       Date := "2024-01-10" |};
    {| Title := "Go vs Rust: A Developer's Perspective";
       Summary := "Comparing two modern systems programming languages from a practical standpoint.";
       Content := fallbackContent3;
       Date := "2024-01-05" |} ].

Section Content.
Context {env : Env}.

(** [readMarkdownFile]; [now] is what [time.Now()] returns during the
    call.  [None] is the error result. *)
Definition readMarkdownFile (now : Z) (filePath : string) : option BlogPost.t :=
  match ReadFile filePath with
  | None => None
  | Some content =>
      match parseFrontMatter content with
      | (_, _, Some _) => None
      | (fm, markdownContent, None) =>
          let date :=
            match time_Parse (FrontMatter.Date fm) with
            | Some d => d
            | None => now
            end in
          let filename := filepath_Base filePath in
          let id := strings.TrimSuffix filename (filepath_Ext filename) in
          Some {| BlogPost.ID := id;
                  BlogPost.Title := FrontMatter.Title fm;
                  BlogPost.Summary := FrontMatter.Summary fm;
                  BlogPost.Content := markdownContent;
                  BlogPost.Date := date;
                  BlogPost.Tags := FrontMatter.Tags fm;
                  BlogPost.ReadTime := FrontMatter.ReadTime fm;
                  BlogPost.Author := FrontMatter.Author fm;
                  BlogPost.Published := FrontMatter.Published fm;
                  BlogPost.FilePath := filePath |}
      end
  end.

(** The loop of [GetBlogPosts] over the directory entries, from entry
    number [i]: the published posts of the markdown files that load, in
    directory order. *)
Fixpoint loadPosts (blogDir : string) (i : nat) (files : list FileInfo)
  : list BlogPost.t :=
  match files with
  | [] => []
  | file :: rest =>
      let tail := loadPosts blogDir (S i) rest in
      if IsDir file then tail
      else if strings.HasSuffix (Name file) ".md" then
        let filePath := filepath_Join [blogDir; Name file] in
        match readMarkdownFile (time_Now i) filePath with
        | None => tail
        | Some post => if BlogPost.Published post then post :: tail else tail
        end
      else tail
  end.

(** The comparison handed to [sort.Slice]. *)
Definition newer (a b : BlogPost.t) : bool :=
  After (BlogPost.Date a) (BlogPost.Date b).

(** The slice [posts] of [GetBlogPosts] once sorted. *)
Definition sortedPosts (blogDir : string) (files : list FileInfo) : list BlogPost.t :=
  sort_Slice BlogPost.t newer (loadPosts blogDir O files).

Definition toEntry (post : BlogPost.t) : BlogEntry :=
  {| Title := BlogPost.Title post;
     Summary := BlogPost.Summary post;
     Content := BlogPost.Content post;
     Date := time_Format (BlogPost.Date post) |}.

Definition GetBlogPosts : list BlogEntry :=
  match Getwd with
  | None => getFallbackBlogPosts
  | Some pwd =>
      let blogDir := filepath_Join [pwd; "content"; "blog"] in
      if Stat_IsNotExist blogDir then getFallbackBlogPosts
      else
        match ReadDir blogDir with
        | None => getFallbackBlogPosts
        | Some files =>
            let entries := map toEntry (sortedPosts blogDir files) in
            if len entries =? 0 then getFallbackBlogPosts else entries
        end
  end.

End Content.

Definition GetFeaturedProjects : list Project.t :=
  [ Project.Build_t "Terminal Portfolio"
      "A beautiful terminal-based portfolio built with Bubble Tea"
      ["Go"; "Bubble Tea"; "Lipgloss"; "SSH"]
      ["Responsive design"; "Keyboard navigation"; "Smooth scrolling"; "SSH server integration"]
      "Active" "https://github.com/Arpan-206/terminal-portfolio";
    Project.Build_t "Full-Stack Web Applications"
      "Modern web applications using cutting-edge frameworks"
      ["React"; "Next.js"; "Node.js"; "PostgreSQL"]
      ["Real-time updates"; "Responsive UI"; "RESTful APIs"; "Authentication"]
      "Active" "https://github.com/Arpan-206";
    Project.Build_t "DevOps Automation Tools"
      "Scripts and tools for automating development workflows"
      ["Python"; "Bash"; "Docker"; "GitHub Actions"]
      ["CI/CD pipelines"; "Automated testing"; "Deployment scripts"; "Infrastructure as Code"]
      "Active" "https://github.com/Arpan-206";
    Project.Build_t "Machine Learning Projects"
      "AI/ML applications solving real-world problems"
      ["Python"; "TensorFlow"; "PyTorch"; "scikit-learn"]
      ["Natural language processing"; "Computer vision"; "Data analysis"; "Model deployment"]
      "Active" "https://github.com/Arpan-206";
    Project.Build_t "Mobile Applications"
      "Cross-platform mobile apps with native performance"
      ["React Native"; "Flutter"; "Firebase"; "SQLite"]
      ["Offline-first"; "Real-time sync"; "Push notifications"; "Cross-platform UI"]
      "Active" "https://github.com/Arpan-206";
    Project.Build_t "Open Source Contributions"
      "Contributing to various open source projects in the community"
      ["Go"; "JavaScript"; "Python"; "Rust"]
      ["Bug fixes"; "New features"; "Documentation"; "Community support"]
      "Ongoing" "https://github.com/Arpan-206" ].

(* ------------------------------------------------------------------ *)
(** ** The renderers: lipgloss styles, glamour and the viewport's frame *)

Class Renderers := {
  (** [navbarStyle.Width(w).Render] and [footerStyle.Width(w).Render]. *)
  navbarStyle_Render : Z -> string -> string;
  footerStyle_Render : Z -> string -> string;
  activeNavStyle_Render : string -> string;
  inactiveNavStyle_Render : string -> string;
  contentStyle_Render : string -> string;
  cardStyle_Render : string -> string;
  selectedCardStyle_Render : string -> string;
  (** [lipgloss.JoinVertical(lipgloss.Left, ...)]. *)
  JoinVertical : list string -> string;
  (** [GetVerticalFrameSize()] of the hidden-border style given to the
      viewport. *)
  hiddenBorderFrame : Z;
  (** [viewport.Model.View()]. *)
  viewport_View : viewport.Model -> string;
  (** glamour: [NewTermRenderer(WithAutoStyle(), WithWordWrap(w))] and
      [r.Render(content)], [None] when they return an error. *)
  TermRenderer : Type;
  NewTermRenderer : Z -> option TermRenderer;
  Render : TermRenderer -> string -> option string
}.

Section Rendering.
Context {rd : Renderers}.

Definition renderMarkdown (content : string) (width : Z) : string :=
  match NewTermRenderer (int_sub width 4) with
  | None => content
  | Some r =>
      match Render r content with
      | None => content
      | Some rendered => rendered
      end
  end.

(** The local [displayWidth] of [renderMarkdownForDisplay]. *)
Definition displayWidth (width : Z) : Z :=
  let displayWidth := int_sub width 8 in
  if displayWidth <? 40 then 40 else displayWidth.

Definition renderMarkdownForDisplay (content : string) (width : Z) : string :=
  renderMarkdown content (displayWidth width).

End Rendering.

(* ------------------------------------------------------------------ *)
(** ** model.go *)

(** [PageType] is an [int]; its constants: *)
Definition HomePage : Z := 0.
Definition ProjectsPage : Z := 1.
Definition BlogPage : Z := 2.
Definition AboutPage : Z := 3.
Definition ContactPage : Z := 4.

Record Model := {
  width : Z;
  height : Z;
  currentPage : Z;
  pages : list string;
  blogEntries : list BlogEntry;
  selectedBlogEntry : Z;
  viewingBlogEntry : bool;
  viewport : viewport.Model;
  ready : bool;
  lastKey : string
}.

Definition set_width (m : Model) (w : Z) : Model :=
  Build_Model w (height m) (currentPage m) (pages m) (blogEntries m)
    (selectedBlogEntry m) (viewingBlogEntry m) (viewport m) (ready m) (lastKey m).
Definition set_height (m : Model) (h : Z) : Model :=
  Build_Model (width m) h (currentPage m) (pages m) (blogEntries m)
    (selectedBlogEntry m) (viewingBlogEntry m) (viewport m) (ready m) (lastKey m).
Definition set_currentPage (m : Model) (p : Z) : Model :=
  Build_Model (width m) (height m) p (pages m) (blogEntries m)
    (selectedBlogEntry m) (viewingBlogEntry m) (viewport m) (ready m) (lastKey m).
Definition set_selectedBlogEntry (m : Model) (i : Z) : Model :=
  Build_Model (width m) (height m) (currentPage m) (pages m) (blogEntries m)
    i (viewingBlogEntry m) (viewport m) (ready m) (lastKey m).
Definition set_viewingBlogEntry (m : Model) (b : bool) : Model :=
  Build_Model (width m) (height m) (currentPage m) (pages m) (blogEntries m)
    (selectedBlogEntry m) b (viewport m) (ready m) (lastKey m).
Definition set_viewport (m : Model) (vp : viewport.Model) : Model :=
  Build_Model (width m) (height m) (currentPage m) (pages m) (blogEntries m)
    (selectedBlogEntry m) (viewingBlogEntry m) vp (ready m) (lastKey m).
Definition set_ready (m : Model) (b : bool) : Model :=
  Build_Model (width m) (height m) (currentPage m) (pages m) (blogEntries m)
    (selectedBlogEntry m) (viewingBlogEntry m) (viewport m) b (lastKey m).
Definition set_lastKey (m : Model) (k : string) : Model :=
  Build_Model (width m) (height m) (currentPage m) (pages m) (blogEntries m)
    (selectedBlogEntry m) (viewingBlogEntry m) (viewport m) (ready m) k.

(** The package-level styles [navbarStyle] and [footerStyle] are mutable and
    shared by every session; what changes is their width. *)
Record Styles := { navbarWidth : Z; footerWidth : Z }.

Definition initialStyles : Styles := {| navbarWidth := 100; footerWidth := 100 |}.

(** The markdown of the static pages. *)
Definition homeMarkdown : string := "# 🚀 Welcome to Arpan's Terminal Portfolio!

Hi there! I'm **Arpan Pandey**, a passionate tech enthusiast and developer.

## 🔗 Connect with me

- **GitHub:** [https://github.com/Arpan-206](https://github.com/Arpan-206)
- **LinkedIn:** [https://www.linkedin.com/in/arpan-pandey/](https://www.linkedin.com/in/arpan-pandey/)

✨ Navigate using arrow keys to explore my projects and blog posts!

💡 This portfolio is built with **Go**, **Bubble Tea**, and lots of ❤️

## 🎯 What you'll find here

- My latest projects and open source contributions
- Technical blog posts and tutorials
- Information about my skills and experience  
- Ways to get in touch and collaborate

## 🌟 Features of this terminal portfolio

- **Fully keyboard navigable** interface
- **Responsive design** that adapts to your terminal size
- **Beautiful styling** with Lipgloss and Glamour
- **Smooth scrolling** for long content
- **Interactive blog post viewer** with markdown rendering

## ⚡ Quick navigation tips

- Use **← →** arrows to switch between main sections
- Use **↑ ↓** arrows to navigate within sections
- Press **Enter** to open blog posts
- Press **Backspace** to go back from blog posts
- Press **q** or **Ctrl+C** to quit

---

**Happy exploring!** 🎉".

Definition aboutMarkdown : string := "# 👋 About Arpan

I'm a passionate software developer and tech enthusiast with a love for creating beautiful, functional applications. My journey in technology spans across various domains, always driven by curiosity and the desire to solve complex problems.

## 🎓 Background & Education
- **Computer Science and Engineering**
- **Full-stack development** experience across multiple technologies
- **Continuous learner**, always exploring new technologies and methodologies
- **Active contributor** to open source projects and tech communities

## 💻 Technical Expertise

### 🌐 Frontend Development
- **React, Next.js, Vue.js** - Modern JavaScript frameworks
- **TypeScript** for type-safe development
- **HTML5, CSS3, Sass/SCSS** for styling
- **Responsive design** and accessibility best practices
- **State management** with Redux, Zustand, Context API

### ⚙️ Backend Development
- **Go** - Systems programming and web services
- **Node.js, Express.js** - JavaScript backend development
- **Python, Django, FastAPI** - Rapid development and data processing
- **RESTful APIs and GraphQL**
- **Microservices architecture** and distributed systems

### 🗄️ Database Technologies
- **PostgreSQL, MySQL** - Relational databases
- **MongoDB, Redis** - NoSQL solutions
- **Database design** and optimization
- **Data modeling** and migration strategies

### ☁️ Cloud & DevOps
- **AWS, Google Cloud Platform** - Cloud infrastructure
- **Docker, Kubernetes** - Containerization and orchestration
- **CI/CD pipelines** with GitHub Actions, GitLab CI
- **Infrastructure as Code** with Terraform
- **Monitoring and logging** solutions

### 🛠️ Development Tools & Practices
- **Git version control** and collaborative workflows
- **Test-driven development (TDD)** and automated testing
- **Code review processes** and pair programming
- **Agile methodologies** and project management
- **Performance optimization** and security best practices

## 🌟 Philosophy & Approach

I believe in writing clean, maintainable code that not only solves problems but is also a joy to work with. Every project, whether it's a complex enterprise application or a simple CLI tool, deserves attention to detail and thoughtful architecture.

**My approach emphasizes:**
- User-centered design and experience
- Scalable and maintainable code architecture
- Collaborative development and knowledge sharing
- Continuous learning and adaptation to new technologies
- Open source contribution and community building

## 🚀 Current Focus & Interests
- Building developer tools that improve productivity
- Exploring systems programming with Go and Rust
- Contributing to open source projects
- Terminal applications and command-line interfaces
- Modern web technologies and frameworks
- Machine learning and AI applications
- Mentoring junior developers and sharing knowledge

## 🎯 Goals & Aspirations
- Create impactful software that solves real-world problems
- Build and maintain high-quality open source projects
- Foster inclusive and collaborative development communities
- Continue learning and staying current with technology trends
- Share knowledge through writing, speaking, and mentoring

---

When I'm not coding, you might find me exploring new technologies, contributing to open source projects, writing technical blogs, or engaging with the developer community. I'm always excited to learn something new and share that knowledge with others.

**Let's build something amazing together!** 🎉".

Definition contactMarkdown : string := "# 📬 Get In Touch

I'm always excited to connect with fellow developers, potential collaborators, or anyone interested in technology! Whether you want to discuss a project, share ideas, or just have a friendly chat about development, I'd love to hear from you.

## 🔗 Find Me Online

### 🐙 GitHub
**[https://github.com/Arpan-206](https://github.com/Arpan-206)**
- Check out my repositories and contributions
- See my latest projects and code samples
- Contribute to open source projects together
- Star repositories you find interesting!

### 💼 LinkedIn
**[https://www.linkedin.com/in/arpan-pandey/](https://www.linkedin.com/in/arpan-pandey/)**
- Professional background and experience
- Connect for networking and opportunities
- Endorse skills and get recommendations
- Stay updated with my professional journey

### 📧 Email
**Best reached via LinkedIn**  
For direct communication, please connect with me on LinkedIn first. I'm responsive and check messages regularly!

---

## 💼 Professional Opportunities

### 🤝 Open to Collaboration
- Open source project contributions
- Technical writing and documentation
- Code reviews and pair programming sessions
- Speaking at tech events and conferences
- Mentoring and knowledge sharing

### 💻 Freelance & Contract Work
- Full-stack web application development
- API design and backend services
- Terminal applications and CLI tools
- Code audits and technical consulting
- DevOps and infrastructure setup

### 🏢 Full-time Positions
- Software Engineer / Senior Software Engineer
- Full-stack Developer positions
- Backend/Systems Engineer roles
- DevOps Engineer opportunities
- Technical Lead positions

---

## 🎯 Areas of Interest

### 🛠️ Technology Domains
- Go, Rust, and systems programming
- Modern JavaScript/TypeScript ecosystems
- Cloud-native applications and microservices
- Developer tooling and CLI applications
- Database design and optimization
- API development and integration

### 🌍 Industry Sectors
- Developer tools and productivity software
- Financial technology (FinTech)
- Healthcare technology solutions
- Educational technology platforms
- Open source and community-driven projects
- Startups and innovative tech companies

### 💡 Project Types
- Greenfield projects with modern tech stacks
- Legacy system modernization and migration
- Performance optimization and scalability improvements
- Integration projects and API development
- Automation and workflow improvement tools

---

## 🤔 What I'm Looking For

### 🎯 In Collaborations
- Passionate and skilled team members
- Projects that make a positive impact
- Opportunities to learn and grow
- Respectful and inclusive work environments
- Clear communication and shared goals

### 💪 In Roles
- Challenging technical problems to solve
- Opportunities for professional growth
- Mentorship and knowledge sharing culture
- Work-life balance and flexibility
- Competitive compensation and benefits

---

## 📅 Let's Connect!

Whether you're interested in:
- Discussing potential collaborations
- Exploring job opportunities
- Getting technical advice or mentorship
- Sharing ideas about technology and development
- Just having a friendly chat about coding

I'm always happy to connect! The best way to reach me is through LinkedIn, where I'm active and responsive. Let's build something amazing together!

🚀 **Looking forward to hearing from you!** 🎉

---

**P.S.** If you enjoyed this terminal portfolio, feel free to star it on GitHub or share it with others who might appreciate terminal-based applications. Your support means a lot! ⭐".

(** [for i, x := range l] collecting one value per element. *)
Fixpoint mapi_from {A B} (i : Z) (f : Z -> A -> B) (l : list A) : list B :=
  match l with
  | [] => []
  | x :: rest => f i x :: mapi_from (i + 1) f rest
  end.

Definition mapi {A B} (f : Z -> A -> B) (l : list A) : list B := mapi_from 0 f l.

(** [l[i]]: [None] is the panic "index out of range". *)
Definition index {A} (l : list A) (i : Z) : option A :=
  if i <? 0 then None else nth_error l (Z.to_nat i).

Section Navigation.
Context {rd : Renderers} {env : Env}.

Local Abbreviation LF := strings.LF.

(** [viewport.New] followed by the assignment of the hidden-border style. *)
Definition newViewport (width height : Z) : viewport.Model :=
  viewport.set_StyleFrame (viewport.New width height) hiddenBorderFrame.

Definition NewModel (width height : Z) : Model :=
  let blogEntries := GetBlogPosts in
  let vp := newViewport width (int_sub height 4) in
  {| width := width;
     height := height;
     currentPage := HomePage;
     pages := ["Home"; "Projects"; "Blog"; "About"; "Contact"];
     blogEntries := blogEntries;
     selectedBlogEntry := 0;
     viewingBlogEntry := false;
     viewport := vp;
     ready := false;
     lastKey := "" |}.

Definition getHomeContent (m : Model) : string :=
  contentStyle_Render (renderMarkdownForDisplay homeMarkdown (width m)).

Definition projectMarkdown (i : Z) (project : Project.t) : string :=
  "## " ++ itoa (i + 1) ++ ". " ++ Project.Name project ++ LF ++ LF
  ++ "**Description:** " ++ Project.Description project ++ LF ++ LF
  ++ "**Technologies:**" ++ LF
  ++ String.concat "" (map (fun tech => "- " ++ tech ++ LF) (Project.Tech project))
  ++ LF
  ++ (if 0 <? len (Project.Features project) then
        "**Key Features:**" ++ LF
        ++ String.concat "" (map (fun feature => "- " ++ feature ++ LF) (Project.Features project))
        ++ LF
      else "")
  ++ "**Status:** " ++ Project.Status project ++ LF
  ++ (if negb (Project.URL project == "") then
        "**Repository:** [" ++ Project.URL project ++ "](" ++ Project.URL project ++ ")" ++ LF
      else "")
  ++ LF ++ "---" ++ LF ++ LF.

Definition getProjectsContent (m : Model) : string :=
  let projects := GetFeaturedProjects in
  let markdownContent :=
    "# 🛠️ Featured Projects" ++ LF ++ LF
    ++ "Here are some of my notable projects and contributions:" ++ LF ++ LF
    ++ String.concat "" (mapi projectMarkdown projects)
    ++ "## 🔗 Links" ++ LF ++ LF
    ++ "Check out my GitHub profile for complete project listings, source code, and detailed documentation:" ++ LF ++ LF
    ++ "**GitHub:** [https://github.com/Arpan-206](https://github.com/Arpan-206)" ++ LF ++ LF
    ++ "🚀 Always working on something new and exciting!" ++ LF in
  contentStyle_Render (renderMarkdownForDisplay markdownContent (width m)).

Definition getBlogContent (m : Model) : string :=
  let cards :=
    mapi (fun i entry =>
            let cardContent :=
              "📝 " ++ Title entry ++ LF ++ LF ++ Summary entry ++ LF ++ LF
              ++ "📅 " ++ Date entry in
            if i =? selectedBlogEntry m then selectedCardStyle_Render cardContent
            else cardStyle_Render cardContent)
         (blogEntries m) in
  let header :=
    contentStyle_Render
      ("📚 Blog Posts" ++ LF ++ LF
       ++ "Use ↑/↓ to navigate posts, Enter to read, scroll within posts" ++ LF) in
  header ++ LF ++ strings.Join cards LF.

Definition getBlogEntryContent (m : Model) : option string :=
  if len (blogEntries m) <=? selectedBlogEntry m then
    Some (contentStyle_Render "Blog entry not found")
  else
    entry <- index (blogEntries m) (selectedBlogEntry m) ;;
    let renderedContent := renderMarkdownForDisplay (Content entry) (width m) in
    let header := "📝 " ++ Title entry ++ LF ++ "📅 " ++ Date entry ++ LF ++ LF in
    Some (contentStyle_Render (header ++ renderedContent)).

Definition getAboutContent (m : Model) : string :=
  contentStyle_Render (renderMarkdownForDisplay aboutMarkdown (width m)).

Definition getContactContent (m : Model) : string :=
  contentStyle_Render (renderMarkdownForDisplay contactMarkdown (width m)).

Definition getPageContent (m : Model) : option string :=
  if currentPage m =? HomePage then Some (getHomeContent m)
  else if currentPage m =? ProjectsPage then Some (getProjectsContent m)
  else if currentPage m =? BlogPage then
    if viewingBlogEntry m then getBlogEntryContent m
    else Some (getBlogContent m)
  else if currentPage m =? AboutPage then Some (getAboutContent m)
  else if currentPage m =? ContactPage then Some (getContactContent m)
  else Some "Page not found".

Definition updateViewportContent (m : Model) : option Model :=
  content <- getPageContent m ;;
  vp <- viewport.SetContent (viewport m) content ;;
  vp <- viewport.GotoTop vp ;;
  Some (set_viewport m vp).

(** The last two lines of [Update]: the message goes to the viewport.  The
    viewport's command is [nil] (it only differs in high-performance
    rendering, which the model does not turn on). *)
Definition delegate (m : Model) (msg : tea.Msg) : option (Model * tea.Cmd) :=
  vp <- viewport.Update (viewport m) msg ;;
  Some (set_viewport m vp, tea.nil).

Definition onBlogIndex (m : Model) : bool :=
  (currentPage m =? BlogPage) && negb (viewingBlogEntry m).

(** [Update].  The call [fmt.Println(shifted)] of the key branch writes to
    the standard output and has no part in the state. *)
Definition Update (m : Model) (msg : tea.Msg) : option (Model * tea.Cmd) :=
  match msg with
  | tea.WindowSizeMsg msgWidth msgHeight =>
      let m :=
        if negb (ready m) then
          set_ready (set_viewport m (newViewport msgWidth (int_sub msgHeight 4))) true
        else
          set_viewport m
            (viewport.set_Height (viewport.set_Width (viewport m) msgWidth)
                                 (int_sub msgHeight 4)) in
      let m := set_height (set_width m msgWidth) msgHeight in
      m <- updateViewportContent m ;;
      delegate m msg
  | tea.Key k =>
      let key := tea.KeyString k in
      let shifted := match tea.Runes k with [r] => r | _ => 0 end in
      if (key == "ctrl+c") || (key == "q") then Some (m, tea.QuitCmd)
      else
        m <- (if (key == "left") || (key == "h") then
                if negb (viewingBlogEntry m) && (0 <? currentPage m) then
                  updateViewportContent (set_currentPage m (currentPage m - 1))
                else Some m
              else if (key == "right") || (key == "l") then
                if negb (viewingBlogEntry m) && (currentPage m <? len (pages m) - 1) then
                  updateViewportContent (set_currentPage m (currentPage m + 1))
                else Some m
              else Some m) ;;
        if shifted =? 71 (* 'G' *) then
          let m :=
            if onBlogIndex m then set_selectedBlogEntry m (len (blogEntries m) - 1)
            else m in
          vp <- viewport.GotoBottom (viewport m) ;;
          let m := set_viewport m vp in
          content <- getPageContent m ;;
          vp <- viewport.SetContent (viewport m) content ;;
          Some (set_viewport m vp, tea.nil)
        else if key == "g" then
          if lastKey m == "g" then
            vp <- viewport.GotoTop (viewport m) ;;
            let m := set_viewport m vp in
            let m := if onBlogIndex m then set_selectedBlogEntry m 0 else m in
            m <- updateViewportContent m ;;
            Some (set_lastKey m "", tea.nil)
          else Some (set_lastKey m "g", tea.nil)
        else
          let m := set_lastKey m "" in
          if key == "ctrl+u" then
            vp <- viewport.LineUp (viewport m) 10 ;;
            Some (set_viewport m vp, tea.nil)
          else if key == "ctrl+d" then
            vp <- viewport.LineDown (viewport m) 10 ;;
            Some (set_viewport m vp, tea.nil)
          else if (key == "up") || (key == "k") then
            if onBlogIndex m then
              if 0 <? selectedBlogEntry m then
                m <- updateViewportContent (set_selectedBlogEntry m (selectedBlogEntry m - 1)) ;;
                Some (m, tea.nil)
              else Some (m, tea.nil)
            else if viewingBlogEntry m || negb (currentPage m =? BlogPage) then
              delegate m msg
            else Some (m, tea.nil)
          else if (key == "down") || (key == "j") then
            if onBlogIndex m then
              if selectedBlogEntry m <? len (blogEntries m) - 1 then
                m <- updateViewportContent (set_selectedBlogEntry m (selectedBlogEntry m + 1)) ;;
                Some (m, tea.nil)
              else Some (m, tea.nil)
            else if viewingBlogEntry m || negb (currentPage m =? BlogPage) then
              delegate m msg
            else Some (m, tea.nil)
          else if key == "enter" then
            if onBlogIndex m then
              m <- updateViewportContent (set_viewingBlogEntry m true) ;;
              Some (m, tea.nil)
            else Some (m, tea.nil)
          else if key == "backspace" then
            if viewingBlogEntry m then
              m <- updateViewportContent (set_viewingBlogEntry m false) ;;
              Some (m, tea.nil)
            else Some (m, tea.nil)
          else delegate m msg
  | _ => delegate m msg
  end.

(** The assignments of [Update] to the package-level styles. *)
Definition UpdateStyles (st : Styles) (msg : tea.Msg) : Styles :=
  match msg with
  | tea.WindowSizeMsg msgWidth _ => {| navbarWidth := msgWidth; footerWidth := msgWidth |}
  | _ => st
  end.

Definition renderNavbar (st : Styles) (m : Model) : string :=
  let navItems :=
    mapi (fun i page =>
            if i =? currentPage m then activeNavStyle_Render page
            else inactiveNavStyle_Render page)
         (pages m) in
  let navbar := strings.Join navItems " " in
  navbarStyle_Render (navbarWidth st) ("📍 Arpan's Portfolio  |  " ++ navbar).

Definition renderFooter (st : Styles) (m : Model) : string :=
  let helpText :=
    if viewingBlogEntry m then
      "📖 Reading blog post • ↑/↓ PgUp/PgDn to scroll • Backspace to return • q/Ctrl+C to quit"
    else if currentPage m =? BlogPage then
      "📚 Blog posts • ↑/↓ navigate • Enter to read • ←/→ change page • q/Ctrl+C to quit"
    else
      "🧭 Portfolio navigation • ←/→ navigate pages • ↑/↓ scroll content • q/Ctrl+C to quit" in
  footerStyle_Render (footerWidth st) helpText.

Definition View (st : Styles) (m : Model) : string :=
  if negb (ready m) then "Loading..."
  else
    let navbar := renderNavbar st m in
    let footer := renderFooter st m in
    JoinVertical [navbar; viewport_View (viewport m); footer].

End Navigation.

(* ------------------------------------------------------------------ *)
(** ** The status screen

    The first model of package tui: the terminal's name, its size and a
    clock that the SSH middleware feeds once a second.  [View] formats these
    with [fmt.Sprintf] and [time.RFC1123] and is not embedded. *)

Module status.

Record Model := {
  term : string;
  width : Z;
  height : Z;
  time : Z
}.

(** The messages of the type switch of [Update]: a [TimeMsg], or a message
    of Bubble Tea. *)
Inductive Msg :=
| TimeMsg (t : Z)
| Tea (msg : tea.Msg).

(** [NewModel]; [now] is what [time.Now()] returns. *)
Definition NewModel (now : Z) (term : string) (width height : Z) : Model :=
  {| term := term; width := width; height := height; time := now |}.

Definition Init (m : Model) : tea.Cmd := tea.nil.

Definition Update (m : Model) (msg : Msg) : Model * tea.Cmd :=
  match msg with
  | TimeMsg t =>
      ({| term := term m; width := width m; height := height m; time := t |}, tea.nil)
  | Tea (tea.WindowSizeMsg w h) =>
      ({| term := term m; width := w; height := h; time := time m |}, tea.nil)
  | Tea (tea.Key k) =>
      if (tea.KeyString k == "q") || (tea.KeyString k == "ctrl+c")
      then (m, tea.QuitCmd)
      else (m, tea.nil)
  | Tea _ => (m, tea.nil)
  end.

(** The model after the messages of [msgs], in order. *)
Definition run (m : Model) (msgs : list Msg) : Model :=
  fold_left (fun m msg => fst (Update m msg)) msgs m.

Definition isSizeReport (msg : Msg) : bool :=
  match msg with Tea (tea.WindowSizeMsg _ _) => true | _ => false end.

Definition isTick (msg : Msg) : bool :=
  match msg with TimeMsg _ => true | _ => false end.

End status.

(* ------------------------------------------------------------------ *)
(** ** Reference instances of the collaborators

    Plain renderers and an in-memory directory, on which the model is run in
    the examples below. *)

Module Sample.

(** Renderers that add no styling; the markdown renderer returns its input. *)
#[export] Instance plain : Renderers :=
  {| navbarStyle_Render := fun _ s => s;
     footerStyle_Render := fun _ s => s;
     activeNavStyle_Render := fun s => "[" ++ s ++ "]";
     inactiveNavStyle_Render := fun s => s;
     contentStyle_Render := fun s => s;
     cardStyle_Render := fun s => s;
     selectedCardStyle_Render := fun s => "> " ++ s;
     JoinVertical := fun l => strings.Join l strings.LF;
     hiddenBorderFrame := 2;
     viewport_View := fun vp =>
       strings.Join (firstn (Z.to_nat (viewport.Height vp))
                            (skipn (Z.to_nat (viewport.YOffset vp)) (viewport.lines vp)))
                    strings.LF;
     TermRenderer := Z;
     NewTermRenderer := fun w => Some w;
     Render := fun _ s => Some s |}.

(** Calendar dates: days since 1970-01-01 of a proleptic Gregorian date. *)
Definition days_from_civil (y m d : Z) : Z :=
  let y := if m <=? 2 then y - 1 else y in
  let era := y / 400 in
  let yoe := y - era * 400 in
  let doy := (153 * (if 2 <? m then m - 3 else m + 9) + 2) / 5 + d - 1 in
  let doe := yoe * 365 + yoe / 4 - yoe / 100 + doy in
  era * 146097 + doe - 719468.

Definition civil_from_days (z : Z) : Z * Z * Z :=
  let z := z + 719468 in
  let era := z / 146097 in
  let doe := z - era * 146097 in
  let yoe := (doe - doe / 1460 + doe / 36524 - doe / 146096) / 365 in
  let doy := doe - (365 * yoe + yoe / 4 - yoe / 100) in
  let mp := (5 * doy + 2) / 153 in
  let d := doy - (153 * mp + 2) / 5 + 1 in
  let m := if mp <? 10 then mp + 3 else mp - 9 in
  (yoe + era * 400 + (if m <=? 2 then 1 else 0), m, d).

Definition digit (c : ascii) : option Z :=
  let n := Z.of_N (N_of_ascii c) in
  if (48 <=? n) && (n <=? 57) then Some (n - 48) else None.

Fixpoint number (acc : Z) (cs : list ascii) : option Z :=
  match cs with
  | [] => Some acc
  | c :: rest =>
      match digit c with
      | Some d => number (10 * acc + d) rest
      | None => None
      end
  end.

Definition daysIn (y m : Z) : Z :=
  if m =? 2 then
    if (y mod 4 =? 0) && (negb (y mod 100 =? 0) || (y mod 400 =? 0)) then 29 else 28
  else if (m =? 4) || (m =? 6) || (m =? 9) || (m =? 11) then 30
  else 31.

(** [time.Parse("2006-01-02", s)], in seconds since 1970-01-01 UTC. *)
Definition Parse (s : string) : option Z :=
  match list_ascii_of_string s with
  | [y1; y2; y3; y4; s1; m1; m2; s2; d1; d2] =>
      if Ascii.eqb s1 "-" && Ascii.eqb s2 "-" then
        match number 0 [y1; y2; y3; y4], number 0 [m1; m2], number 0 [d1; d2] with
        | Some y, Some m, Some d =>
            if (1 <=? m) && (m <=? 12) && (1 <=? d) && (d <=? daysIn y m)
            then Some (86400 * days_from_civil y m d)
            else None
        | _, _, _ => None
        end
      else None
  | _ => None
  end.

Definition pad (n : nat) (s : string) : string :=
  string_of_list_ascii (repeat "0"%char (n - String.length s)) ++ s.

(** [t.Format("2006-01-02")] for an instant in seconds (years 0 to 9999). *)
Definition Format (t : Z) : string :=
  let '(y, m, d) := civil_from_days (t / 86400) in
  pad 4 (itoa y) ++ "-" ++ pad 2 (itoa m) ++ "-" ++ pad 2 (itoa d).

Fixpoint lastSegment (cur : string) (s : string) : string :=
  match s with
  | EmptyString => cur
  | String c rest =>
      if Ascii.eqb c "/" then lastSegment EmptyString rest
      else lastSegment (cur ++ String c EmptyString) rest
  end.

Fixpoint extension (cur : string) (s : string) : string :=
  match s with
  | EmptyString => cur
  | String c rest =>
      if Ascii.eqb c "." then extension (String c EmptyString) rest
      else extension (if cur == "" then cur else cur ++ String c EmptyString) rest
  end.

Fixpoint lookup (path : string) (fs : list (string * string)) : option string :=
  match fs with
  | [] => None
  | (name, content) :: rest => if path == name then Some content else lookup path rest
  end.

(** The process runs in /app; content/blog holds the regular files [files]
    (name and content, in directory order); the clock reads 2026-01-01 plus
    one second per entry. *)
Definition directory
  (sort : forall A : Type, (A -> A -> bool) -> list A -> list A)
  (files : list (string * string)) : Env :=
  {| Getwd := Some "/app";
     Stat_IsNotExist := fun path => negb (path == "/app/content/blog");
     ReadDir := fun path =>
       if path == "/app/content/blog"
       then Some (map (fun f => {| Name := fst f; IsDir := false |}) files)
       else None;
     ReadFile := fun path =>
       lookup path (map (fun f => ("/app/content/blog/" ++ fst f, snd f)) files);
     filepath_Join := fun elems => strings.Join elems "/";
     filepath_Base := lastSegment "";
     filepath_Ext := extension "";
     time_Parse := Parse;
     time_Format := Format;
     time_Now := fun i => 1767225600 + Z.of_nat i;
     sort_Slice := sort |}.

(** A working directory that cannot be determined. *)
Definition nowhere : Env :=
  {| Getwd := None;
     Stat_IsNotExist := fun _ => true;
     ReadDir := fun _ => None;
     ReadFile := fun _ => None;
     filepath_Join := fun elems => strings.Join elems "/";
     filepath_Base := lastSegment "";
     filepath_Ext := extension "";
     time_Parse := Parse;
     time_Format := Format;
     time_Now := fun i => 1767225600 + Z.of_nat i;
     sort_Slice := sort.insertionSort |}.

(** A post file with the given title, date and publication flag. *)
Definition post (title date published : string) : string :=
  "---" ++ strings.LF
  ++ "title: " ++ String strings.quote title ++ String strings.quote strings.LF
  ++ "summary: " ++ String strings.quote ("About " ++ title) ++ String strings.quote strings.LF
  ++ "date: " ++ String strings.quote date ++ String strings.quote strings.LF
  ++ "published: " ++ published ++ strings.LF
  ++ "---" ++ strings.LF
  ++ strings.LF ++ "# " ++ title ++ strings.LF.

End Sample.

(* ================================================================== *)
(** * Properties *)

(* ------------------------------------------------------------------ *)
(** ** Key bindings, runs and reachable states *)

(** A key with a name of its own (arrows, enter, control chords): it
    carries no rune. *)
Definition named (s : string) : tea.Msg :=
  tea.Key {| tea.KeyString := s; tea.Runes := [] |}.

(** A typed character: its text is the character, its one rune the code. *)
Definition letter (c : ascii) : tea.Msg :=
  tea.Key {| tea.KeyString := String c ""; tea.Runes := [Z.of_N (N_of_ascii c)] |}.

(** The logical actions and the keys bound to each. *)
Definition moveLeft : list tea.Msg := [named "left"; letter "h"].
Definition moveRight : list tea.Msg := [named "right"; letter "l"].
Definition moveUp : list tea.Msg := [named "up"; letter "k"].
Definition moveDown : list tea.Msg := [named "down"; letter "j"].
Definition confirm : tea.Msg := named "enter".
Definition back : tea.Msg := named "backspace".
Definition halfPageUp : tea.Msg := named "ctrl+u".
Definition halfPageDown : tea.Msg := named "ctrl+d".
Definition chordKey : tea.Msg := letter "g".
Definition goToBottom : tea.Msg := letter "G".

Definition pageNames : list string := ["Home"; "Projects"; "Blog"; "About"; "Contact"].

Section Runs.
Context {rd : Renderers}.

(** The event loop on a list of messages: it ends with the list, with a
    panic ([None]) or when [Update] returns [tea.Quit]. *)
Fixpoint run (m : Model) (msgs : list tea.Msg) : option Model :=
  match msgs with
  | [] => Some m
  | msg :: rest =>
      match Update m msg with
      | None => None
      | Some (m', tea.QuitCmd) => Some m'
      | Some (m', tea.nil) => run m' rest
      end
  end.

(** The state a run ends in (the starting state, had it panicked). *)
Definition session (m : Model) (msgs : list tea.Msg) : Model :=
  match run m msgs with
  | Some m' => m'
  | None => m
  end.

(** What every state of a session satisfies. *)
Record Inv (m : Model) : Prop := {
  inv_pages : pages m = pageNames;
  inv_page : HomePage <= currentPage m <= ContactPage;
  inv_selected : 0 <= selectedBlogEntry m < len (blogEntries m);
  inv_detail : viewingBlogEntry m = true -> currentPage m = BlogPage;
  inv_offset : 0 <= viewport.YOffset (viewport m);
  inv_int : viewport.YOffset (viewport m) <= int_max;
  inv_frame : viewport.StyleFrame (viewport m) = hiddenBorderFrame
}.

Context {env : Env}.

(** The states of a session: [NewModel] and what [Update] makes of them. *)
Inductive Reachable : Model -> Prop :=
| Reachable_new (width height : Z) : Reachable (NewModel width height)
| Reachable_step (m : Model) (msg : tea.Msg) (m' : Model) (cmd : tea.Cmd) :
    Reachable m -> Update m msg = Some (m', cmd) -> Reachable m'.

End Runs.

(* ------------------------------------------------------------------ *)
(** ** Notions the statements use *)

(** The recognized actions other than the chord key, go-to-bottom and quit. *)
Definition otherActions : list tea.Msg :=
  (moveLeft ++ moveRight ++ moveUp ++ moveDown
   ++ [confirm; back; halfPageUp; halfPageDown])%list.

(** The viewport a scrolling method leaves when it returns: the method
    without the lines it hands back. *)
Module scrolled.
Import viewport.

Definition GotoTop (m : Model) : Model :=
  if AtTop m then m else SetYOffset m 0.

Definition GotoBottom (m : Model) : Model :=
  SetYOffset m (maxYOffset m).

Definition SetContent (m : Model) (s : string) : Model :=
  let s := strings.ReplaceAll s (strings.CR ++ strings.LF) strings.LF in
  let m := set_lines m (strings.Split s strings.LF) in
  if len (lines m) - 1 <? YOffset m then GotoBottom m else m.

Definition LineDown (m : Model) (n : Z) : Model :=
  if AtBottom m || (n =? 0) || (len (lines m) =? 0) then m
  else SetYOffset m (int_add (YOffset m) n).

Definition LineUp (m : Model) (n : Z) : Model :=
  if AtTop m || (n =? 0) || (len (lines m) =? 0) then m
  else SetYOffset m (int_sub (YOffset m) n).

Definition ViewDown (m : Model) : Model :=
  if AtBottom m then m else LineDown m (Height m).

Definition ViewUp (m : Model) : Model :=
  if AtTop m then m else LineUp m (Height m).

Definition HalfViewDown (m : Model) : Model :=
  if AtBottom m then m else LineDown m (int_div (Height m) 2).

Definition HalfViewUp (m : Model) : Model :=
  if AtTop m then m else LineUp m (int_div (Height m) 2).

Definition Update (m : Model) (msg : tea.Msg) : Model :=
  match msg with
  | tea.Key k =>
      if Matches k ["pgdown"; " "; "f"] then ViewDown m
      else if Matches k ["pgup"; "b"] then ViewUp m
      else if Matches k ["d"; "ctrl+d"] then HalfViewDown m
      else if Matches k ["u"; "ctrl+u"] then HalfViewUp m
      else if Matches k ["down"; "j"] then LineDown m 1
      else if Matches k ["up"; "k"] then LineUp m 1
      else m
  | tea.MouseWheelUp => LineUp m 3
  | tea.MouseWheelDown => LineDown m 3
  | _ => m
  end.

End scrolled.

(** Two viewports of one geometry. *)
Definition sameFrame (a b : viewport.Model) : Prop :=
  viewport.Width a = viewport.Width b /\ viewport.Height a = viewport.Height b
  /\ viewport.StyleFrame a = viewport.StyleFrame b.

(** A viewport at least as high as the frame of its style: its lowest
    offset then lies inside the content.  Under the hidden border, whose
    frame is two rows, this is a terminal of six rows or more. *)
Definition Roomy (vp : viewport.Model) : Prop :=
  0 <= viewport.StyleFrame vp <= viewport.Height vp /\ viewport.Height vp <= int_max.

Section Rows.
Context {rd : Renderers}.

(** A terminal height that leaves the viewport at least its frame. *)
Definition tallEnough (height : Z) : Prop :=
  0 <= hiddenBorderFrame <= int_sub height 4.

(** A message that, if it is a geometry report, reports such a height. *)
Definition fits (msg : tea.Msg) : Prop :=
  match msg with
  | tea.WindowSizeMsg _ msgHeight => tallEnough msgHeight
  | _ => True
  end.

End Rows.

(** The state when the chord is detected, before the reload: the viewport
    at its top and, on the Blog index, the first post selected. *)
Definition atTop (m : Model) : Model :=
  let m := set_viewport m (scrolled.GotoTop (viewport m)) in
  if onBlogIndex m then set_selectedBlogEntry m 0 else m.

(** The state the completed chord returns, [c] being the page content. *)
Definition completed (m : Model) (c : string) : Model :=
  set_lastKey
    (set_viewport (atTop m)
       (scrolled.GotoTop (scrolled.SetContent (viewport (atTop m)) c)))
    "".

(** What package sort promises of [sort.Slice]: the slice is rearranged
    and, for a comparison that is a strict weak order, ends up in order.
    Nothing is promised about elements that compare equal ("The sort is not
    guaranteed to be stable", as the package documents it). *)
Definition SortContract
  (sort : forall A : Type, (A -> A -> bool) -> list A -> list A) : Prop :=
  forall (A : Type) (less : A -> A -> bool) (l : list A),
    Permutation l (sort A less l)
    /\ ((forall a b, less a b = true -> less b a = false) ->
        (forall a b c, less a b = false -> less b c = false -> less a c = false) ->
        StronglySorted (fun a b => less b a = false) (sort A less l)).


Section Directory.
Context {env : Env}.

(** The directory this process reads. *)
Definition blogDirOf (pwd : string) : string := filepath_Join [pwd; "content"; "blog"].

End Directory.

(** Posts A (2024-02-01) and B (2024-01-01), a terminal of 80 by 24, the
    geometry reported, and two move-rights to the Blog index. *)
Definition twoPosts : Env :=
  Sample.directory sort.insertionSort
    [("a.md", Sample.post "A" "2024-02-01" "true");
     ("b.md", Sample.post "B" "2024-01-01" "true")].

Definition toBlogIndex : list tea.Msg :=
  [tea.WindowSizeMsg 80 24; named "right"; named "right"].

Definition onBlog : Model :=
  session (rd := Sample.plain) (NewModel (rd := Sample.plain) (env := twoPosts) 80 24)
    toBlogIndex.


(* ------------------------------------------------------------------ *)
(** ** Notions of the further properties *)

(** The lines [viewport.SetContent] stores for a content. *)
Definition contentLines (c : string) : list string :=
  strings.Split (strings.ReplaceAll c (strings.CR ++ strings.LF) strings.LF) strings.LF.

Section Shown.
Context {rd : Renderers}.

(** The viewport holds the content of the page, selection and width the
    model is at. *)
Definition InSync (m : Model) : Prop :=
  exists c, getPageContent m = Some c /\ viewport.lines (viewport m) = contentLines c.

End Shown.

(** The card of a post on the Blog index: title, summary and date. *)
Definition cardContent (entry : BlogEntry) : string :=
  "📝 " ++ Title entry ++ strings.LF ++ strings.LF ++ Summary entry
  ++ strings.LF ++ strings.LF ++ "📅 " ++ Date entry.

(** A renderer that cannot be created. *)
Definition noGlamour : Renderers :=
  {| navbarStyle_Render := fun _ s => s;
     footerStyle_Render := fun _ s => s;
     activeNavStyle_Render := fun s => s;
     inactiveNavStyle_Render := fun s => s;
     contentStyle_Render := fun s => s;
     cardStyle_Render := fun s => s;
     selectedCardStyle_Render := fun s => s;
     JoinVertical := fun l => strings.Join l strings.LF;
     hiddenBorderFrame := 0;
     viewport_View := fun vp => strings.Join (viewport.lines vp) strings.LF;
     TermRenderer := unit;
     NewTermRenderer := fun _ => None;
     Render := fun _ _ => None |}.

(** [sep] starts at no position of [s] in the text [s ++ after]. *)
Fixpoint cutFree (sep s after : string) : bool :=
  match s with
  | EmptyString => true
  | String c s' => negb (strings.HasPrefix (s ++ after) sep) && cutFree sep s' after
  end.

(** The delimiter line of the front matter. *)
Definition delimiter : string := "---" ++ strings.LF.

(** The cutset of the quotes around a header value. *)
Definition quoteMark : string := String strings.quote "".

(** The line [key: "value"]. *)
Definition quotedLine (key value : string) : string :=
  key ++ ": " ++ String strings.quote (value ++ quoteMark).

(* ------------------------------------------------------------------ *)
(** ** Go integers and slices *)

Lemma wrap_range z : int_min <= wrap z <= int_max.
Proof.
  unfold wrap, int_min, int_max.
  pose proof (Z.mod_pos_bound (z + 2 ^ 63) (2 ^ 64) ltac:(lia)). lia.
Qed.

Lemma wrap_small z : int_min <= z <= int_max -> wrap z = z.
Proof.
  unfold wrap, int_min, int_max. intros H.
  rewrite Z.mod_small by lia. lia.
Qed.

(** Wrapping never raises a value that is not below the least [int]. *)
Lemma wrap_le z : int_min <= z -> wrap z <= z.
Proof.
  unfold wrap, int_min. intros H.
  pose proof (Z.mod_le (z + 2 ^ 63) (2 ^ 64) ltac:(lia) ltac:(lia)). lia.
Qed.

Lemma len_nonneg {A} (l : list A) : 0 <= len l.
Proof. unfold len. lia. Qed.

Lemma slice_some {A} (l : list A) low high :
  0 <= low <= high -> high <= len l -> exists r, slice l low high = Some r.
Proof.
  intros [H0 H1] H2. unfold slice.
  destruct (0 <=? low) eqn:E0; [|apply Z.leb_gt in E0; lia].
  destruct (low <=? high) eqn:E1; [|apply Z.leb_gt in E1; lia].
  destruct (high <=? len l) eqn:E2; [|apply Z.leb_gt in E2; lia].
  cbn. eauto.
Qed.

Lemma slice_bounds {A} (l : list A) low high r :
  slice l low high = Some r -> 0 <= low <= high /\ high <= len l.
Proof.
  unfold slice.
  destruct (0 <=? low) eqn:E0; [|discriminate].
  destruct (low <=? high) eqn:E1; [|discriminate].
  destruct (high <=? len l) eqn:E2; [|discriminate].
  intros _. apply Z.leb_le in E0, E1, E2. lia.
Qed.

(* ------------------------------------------------------------------ *)
(** ** The viewport: where its methods return, and what they leave *)

Module viewportFacts.
Import viewport.

Lemma maxYOffset_nonneg m : 0 <= maxYOffset m.
Proof. unfold maxYOffset. lia. Qed.

Lemma maxYOffset_int m : 0 <= maxYOffset m <= int_max.
Proof.
  unfold maxYOffset, int_add.
  pose proof (wrap_range (int_sub (len (lines m)) (Height m) + StyleFrame m)).
  unfold int_min, int_max in *. lia.
Qed.

(** In a roomy viewport the lowest offset is inside the content. *)
Lemma maxYOffset_inside m : Roomy m -> maxYOffset m <= len (lines m).
Proof.
  intros [[Hf Hh] Hi]. unfold maxYOffset, int_add, int_sub.
  pose proof (len_nonneg (lines m)) as Hl.
  assert (H1 : wrap (len (lines m) - Height m) <= len (lines m) - Height m)
    by (apply wrap_le; unfold int_min, int_max in *; lia).
  pose proof (wrap_range (len (lines m) - Height m)) as H2.
  assert (H3 : wrap (wrap (len (lines m) - Height m) + StyleFrame m)
               <= wrap (len (lines m) - Height m) + StyleFrame m)
    by (apply wrap_le; lia).
  lia.
Qed.

Lemma clamp_range v high : 0 <= high -> 0 <= clamp v 0 high <= high.
Proof. intros H. unfold clamp. destruct (high <? 0) eqn:E; lia. Qed.

Lemma clamp_between v low high : low <= high -> low <= clamp v low high <= high.
Proof.
  intros H. unfold clamp. destruct (high <? low) eqn:E; [apply Z.ltb_lt in E|]; lia.
Qed.

Lemma clamp_zero high : 0 <= high -> clamp 0 0 high = 0.
Proof. intros H. unfold clamp. destruct (high <? 0) eqn:E; lia. Qed.

Lemma SetYOffset_range m n : 0 <= YOffset (SetYOffset m n) <= maxYOffset m.
Proof. unfold SetYOffset. cbn. apply clamp_range, maxYOffset_nonneg. Qed.

(** *** The states the methods leave *)

Lemma GotoTop_offset m : 0 <= YOffset m -> YOffset (scrolled.GotoTop m) = 0.
Proof.
  intros H. unfold scrolled.GotoTop, AtTop.
  destruct (YOffset m <=? 0) eqn:E; [apply Z.leb_le in E; lia|].
  cbn. apply clamp_zero, maxYOffset_nonneg.
Qed.

Lemma GotoTop_at_top m : YOffset m = 0 -> scrolled.GotoTop m = m.
Proof. intros H. unfold scrolled.GotoTop, AtTop. rewrite H. reflexivity. Qed.

Lemma GotoTop_nonneg m : 0 <= YOffset m -> 0 <= YOffset (scrolled.GotoTop m).
Proof. intros H. rewrite GotoTop_offset by exact H. lia. Qed.

Lemma GotoBottom_nonneg m : 0 <= YOffset (scrolled.GotoBottom m).
Proof. unfold scrolled.GotoBottom. apply SetYOffset_range. Qed.

Lemma SetContent_nonneg m s : 0 <= YOffset m -> 0 <= YOffset (scrolled.SetContent m s).
Proof.
  intros H. unfold scrolled.SetContent. cbv zeta.
  match goal with |- context [if ?c then _ else _] => destruct c end.
  - apply GotoBottom_nonneg.
  - exact H.
Qed.

Lemma LineDown_nonneg m n : 0 <= YOffset m -> 0 <= YOffset (scrolled.LineDown m n).
Proof.
  intros H. unfold scrolled.LineDown.
  match goal with |- context [if ?c then _ else _] => destruct c end; [exact H|].
  apply SetYOffset_range.
Qed.

Lemma LineUp_nonneg m n : 0 <= YOffset m -> 0 <= YOffset (scrolled.LineUp m n).
Proof.
  intros H. unfold scrolled.LineUp.
  match goal with |- context [if ?c then _ else _] => destruct c end; [exact H|].
  apply SetYOffset_range.
Qed.

Lemma Update_nonneg m msg : 0 <= YOffset m -> 0 <= YOffset (scrolled.Update m msg).
Proof.
  intros H. unfold scrolled.Update, scrolled.ViewDown, scrolled.ViewUp,
    scrolled.HalfViewDown, scrolled.HalfViewUp.
  destruct msg; auto using LineDown_nonneg, LineUp_nonneg.
  repeat match goal with |- context [if ?c then _ else _] => destruct c end;
    auto using LineDown_nonneg, LineUp_nonneg.
Qed.

(** The content is at least one line: [strings.Split] never returns an
    empty slice. *)
Lemma SetContent_lines m s : 1 <= len (lines (scrolled.SetContent m s)).
Proof.
  unfold scrolled.SetContent, scrolled.GotoBottom, SetYOffset, strings.Split. cbv zeta.
  destruct (strings.splitFrom _ _ _ _) as [p ps].
  match goal with |- context [if ?c then _ else _] => destruct c end;
    cbn [lines set_lines set_YOffset]; unfold len; cbn [List.length]; lia.
Qed.

(** No method changes the geometry. *)
Lemma GotoTop_frame m : sameFrame (scrolled.GotoTop m) m.
Proof. unfold scrolled.GotoTop. destruct (AtTop m); repeat split. Qed.

Lemma GotoBottom_frame m : sameFrame (scrolled.GotoBottom m) m.
Proof. repeat split. Qed.

Lemma SetContent_frame m s : sameFrame (scrolled.SetContent m s) m.
Proof.
  unfold scrolled.SetContent. cbv zeta.
  match goal with |- context [if ?c then _ else _] => destruct c end; repeat split.
Qed.

Lemma LineDown_frame m n : sameFrame (scrolled.LineDown m n) m.
Proof.
  unfold scrolled.LineDown.
  match goal with |- context [if ?c then _ else _] => destruct c end; repeat split.
Qed.

Lemma LineUp_frame m n : sameFrame (scrolled.LineUp m n) m.
Proof.
  unfold scrolled.LineUp.
  match goal with |- context [if ?c then _ else _] => destruct c end; repeat split.
Qed.

Lemma Update_frame m msg : sameFrame (scrolled.Update m msg) m.
Proof.
  unfold scrolled.Update, scrolled.ViewDown, scrolled.ViewUp,
    scrolled.HalfViewDown, scrolled.HalfViewUp.
  destruct msg; try (repeat split; fail);
    repeat match goal with |- context [if ?c then _ else _] => destruct c end;
    first [apply LineDown_frame | apply LineUp_frame | repeat split].
Qed.

Lemma sameFrame_Roomy a b : sameFrame a b -> Roomy b -> Roomy a.
Proof. intros (_ & Hh & Hf) H. unfold Roomy in *. rewrite Hh, Hf. exact H. Qed.

(** An offset stays an [int]. *)
Lemma SetYOffset_int m n : YOffset (SetYOffset m n) <= int_max.
Proof.
  pose proof (SetYOffset_range m n). pose proof (maxYOffset_int m). lia.
Qed.

Lemma GotoTop_int m : YOffset m <= int_max -> YOffset (scrolled.GotoTop m) <= int_max.
Proof.
  intros H. unfold scrolled.GotoTop. destruct (AtTop m); [exact H|apply SetYOffset_int].
Qed.

Lemma GotoBottom_int m : YOffset (scrolled.GotoBottom m) <= int_max.
Proof. apply SetYOffset_int. Qed.

Lemma SetContent_int m s :
  YOffset m <= int_max -> YOffset (scrolled.SetContent m s) <= int_max.
Proof.
  intros H. unfold scrolled.SetContent. cbv zeta.
  match goal with |- context [if ?c then _ else _] => destruct c end;
    [apply GotoBottom_int|exact H].
Qed.

Lemma LineDown_int m n :
  YOffset m <= int_max -> YOffset (scrolled.LineDown m n) <= int_max.
Proof.
  intros H. unfold scrolled.LineDown.
  match goal with |- context [if ?c then _ else _] => destruct c end;
    [exact H|apply SetYOffset_int].
Qed.

Lemma LineUp_int m n :
  YOffset m <= int_max -> YOffset (scrolled.LineUp m n) <= int_max.
Proof.
  intros H. unfold scrolled.LineUp.
  match goal with |- context [if ?c then _ else _] => destruct c end;
    [exact H|apply SetYOffset_int].
Qed.

Lemma Update_int m msg :
  YOffset m <= int_max -> YOffset (scrolled.Update m msg) <= int_max.
Proof.
  intros H. unfold scrolled.Update, scrolled.ViewDown, scrolled.ViewUp,
    scrolled.HalfViewDown, scrolled.HalfViewUp.
  destruct msg; auto using LineDown_int, LineUp_int.
  repeat match goal with |- context [if ?c then _ else _] => destruct c end;
    auto using LineDown_int, LineUp_int.
Qed.

(** *** Where the methods return *)

(** The lines in view exist as long as the offset is not beyond the
    content. *)
Lemma visibleLines_some m :
  Z.max 0 (YOffset m) <= len (lines m) -> exists r, visibleLines m = Some r.
Proof.
  intros H. unfold visibleLines. cbv zeta.
  destruct (0 <? len (lines m)); [|eauto].
  pose proof (clamp_between (int_add (YOffset m) (int_sub (Height m) (StyleFrame m)))
                (Z.max 0 (YOffset m)) (len (lines m)) H).
  apply slice_some; lia.
Qed.

(** Beyond a content that is not empty they do not. *)
Lemma visibleLines_none m :
  0 < len (lines m) -> len (lines m) < YOffset m -> visibleLines m = None.
Proof.
  intros Hl Hy. unfold visibleLines. cbv zeta.
  destruct (0 <? len (lines m)) eqn:E; [|apply Z.ltb_ge in E; lia].
  destruct (slice _ _ _) as [r|] eqn:Es; [|reflexivity].
  apply slice_bounds in Es. lia.
Qed.

(** [GotoTop] always returns. *)
Lemma GotoTop_eq m : GotoTop m = Some (scrolled.GotoTop m).
Proof.
  unfold GotoTop, scrolled.GotoTop. destruct (AtTop m); [reflexivity|]. cbv zeta.
  destruct (visibleLines_some (SetYOffset m 0)) as [r ->]; [|reflexivity].
  unfold SetYOffset. cbn [YOffset set_YOffset lines].
  rewrite clamp_zero by apply maxYOffset_nonneg.
  pose proof (len_nonneg (lines m)). lia.
Qed.

(** So does [LineDown]: its slice is cut to the content. *)
Lemma LineDown_eq m n : LineDown m n = Some (scrolled.LineDown m n).
Proof.
  unfold LineDown, scrolled.LineDown.
  match goal with |- context [if ?c then _ else _] => destruct c end; [reflexivity|].
  cbv zeta.
  set (m1 := SetYOffset m (int_add (YOffset m) n)).
  pose proof (len_nonneg (lines m1)) as Hl.
  pose proof (clamp_range (int_add (YOffset m1) (Height m1)) (len (lines m1)) Hl) as Hb.
  pose proof (clamp_range (int_sub (int_add (YOffset m1) (Height m1)) n)
                (clamp (int_add (YOffset m1) (Height m1)) 0 (len (lines m1)))
                ltac:(lia)) as Ht.
  destruct (slice_some (lines m1)
              (clamp (int_sub (int_add (YOffset m1) (Height m1)) n) 0
                 (clamp (int_add (YOffset m1) (Height m1)) 0 (len (lines m1))))
              (clamp (int_add (YOffset m1) (Height m1)) 0 (len (lines m1))))
    as [r ->]; [lia|lia|reflexivity].
Qed.

(** The other methods leave the same states when they return. *)
Lemma GotoBottom_inv m m' : GotoBottom m = Some m' -> m' = scrolled.GotoBottom m.
Proof.
  unfold GotoBottom, scrolled.GotoBottom. cbv zeta.
  destruct (visibleLines _); [|discriminate]. cbn. congruence.
Qed.

Lemma SetContent_inv m s m' : SetContent m s = Some m' -> m' = scrolled.SetContent m s.
Proof.
  unfold SetContent, scrolled.SetContent. cbv zeta.
  match goal with |- context [if ?c then _ else _] => destruct c end.
  - apply GotoBottom_inv.
  - congruence.
Qed.

Lemma LineUp_inv m n m' : LineUp m n = Some m' -> m' = scrolled.LineUp m n.
Proof.
  unfold LineUp, scrolled.LineUp.
  match goal with |- context [if ?c then _ else _] => destruct c end; [congruence|].
  cbv zeta. destruct (slice _ _ _); [|discriminate]. cbn. congruence.
Qed.

Lemma Update_inv m msg m' : Update m msg = Some m' -> m' = scrolled.Update m msg.
Proof.
  unfold Update, scrolled.Update, ViewDown, ViewUp, HalfViewDown, HalfViewUp,
    scrolled.ViewDown, scrolled.ViewUp, scrolled.HalfViewDown, scrolled.HalfViewUp.
  destruct msg; try congruence;
    repeat match goal with |- context [if ?c then _ else _] => destruct c end;
    rewrite ?LineDown_eq; try congruence; apply LineUp_inv.
Qed.

(** In a roomy viewport they all return. *)
Lemma GotoBottom_roomy m : Roomy m -> GotoBottom m = Some (scrolled.GotoBottom m).
Proof.
  intros H. unfold GotoBottom, scrolled.GotoBottom. cbv zeta.
  destruct (visibleLines_some (SetYOffset m (maxYOffset m))) as [r ->]; [|reflexivity].
  pose proof (SetYOffset_range m (maxYOffset m)).
  pose proof (maxYOffset_inside m H).
  change (lines (SetYOffset m (maxYOffset m))) with (lines m). lia.
Qed.

(** Below its frame a viewport with content has its lowest offset beyond
    the content, and [GotoBottom] panics. *)
Lemma GotoBottom_none m :
  0 < len (lines m) ->
  Height m < StyleFrame m -> 0 <= StyleFrame m ->
  int_min <= Height m <= int_max ->
  len (lines m) - Height m + StyleFrame m <= int_max ->
  GotoBottom m = None.
Proof.
  intros Hl Hlow Hf Hh Hfit. unfold GotoBottom. cbv zeta.
  rewrite visibleLines_none; [reflexivity|exact Hl|].
  change (lines (SetYOffset m (maxYOffset m))) with (lines m).
  assert (Hmax : maxYOffset m = len (lines m) - Height m + StyleFrame m).
  { unfold maxYOffset, int_add, int_sub.
    rewrite (wrap_small (len (lines m) - Height m))
      by (unfold int_min, int_max in *; lia).
    rewrite wrap_small by (unfold int_min, int_max in *; lia). lia. }
  unfold SetYOffset. cbn [YOffset set_YOffset]. rewrite Hmax.
  unfold clamp.
  destruct (len (lines m) - Height m + StyleFrame m <? 0) eqn:E;
    [apply Z.ltb_lt in E|apply Z.ltb_ge in E]; lia.
Qed.

Lemma SetContent_roomy m s : Roomy m -> SetContent m s = Some (scrolled.SetContent m s).
Proof.
  intros H. unfold SetContent, scrolled.SetContent. cbv zeta.
  match goal with |- context [if ?c then _ else _] => destruct c end; [|reflexivity].
  apply GotoBottom_roomy. exact H.
Qed.

(** At its top a viewport takes any content, in any geometry. *)
Lemma SetContent_top m s : YOffset m <= 0 -> SetContent m s = Some (scrolled.SetContent m s).
Proof.
  intros H. unfold SetContent, scrolled.SetContent. cbv zeta.
  match goal with |- context [if ?c then _ else _] => destruct c eqn:E end; [|reflexivity].
  apply Z.ltb_lt in E.
  unfold strings.Split in E. destruct (strings.splitFrom _ _ _ _) as [p ps].
  cbn [lines set_lines YOffset] in E. unfold len in E. cbn [List.length] in E. lia.
Qed.

Lemma LineUp_roomy m n :
  Roomy m -> YOffset m <= int_max -> 0 <= n <= int_max ->
  LineUp m n = Some (scrolled.LineUp m n).
Proof.
  intros HR Hy Hn. unfold LineUp, scrolled.LineUp.
  destruct (AtTop m || (n =? 0) || (len (lines m) =? 0)) eqn:E; [reflexivity|].
  apply orb_false_iff in E. destruct E as [E _].
  apply orb_false_iff in E. destruct E as [Etop _].
  unfold AtTop in Etop. apply Z.leb_gt in Etop.
  cbv zeta.
  set (m1 := SetYOffset m (int_sub (YOffset m) n)).
  pose proof (SetYOffset_range m (int_sub (YOffset m) n)) as Hr. fold m1 in Hr.
  pose proof (maxYOffset_inside m HR) as Hin.
  change (maxYOffset m1) with (maxYOffset m).
  change (lines m1) with (lines m).
  pose proof (clamp_range (int_add (YOffset m1) n) (maxYOffset m) (maxYOffset_nonneg m)) as Hb.
  assert (Hle : YOffset m1 <= clamp (int_add (YOffset m1) n) 0 (maxYOffset m)).
  { assert (Hsub : int_sub (YOffset m) n = YOffset m - n)
      by (apply wrap_small; unfold int_min, int_max in *; lia).
    assert (Hy1 : YOffset m1 = 0 \/ (0 < YOffset m1 /\ YOffset m1 <= YOffset m - n)).
    { unfold m1, SetYOffset. cbn [YOffset set_YOffset]. rewrite Hsub.
      unfold clamp. pose proof (maxYOffset_nonneg m).
      destruct (maxYOffset m <? 0) eqn:E0; [apply Z.ltb_lt in E0; lia|]. lia. }
    destruct Hy1 as [E1|[Hpos Hup]]; [lia|].
    assert (Hadd : int_add (YOffset m1) n = YOffset m1 + n)
      by (apply wrap_small; unfold int_min, int_max in *; lia).
    rewrite Hadd. unfold clamp. pose proof (maxYOffset_nonneg m).
    destruct (maxYOffset m <? 0) eqn:E0; [apply Z.ltb_lt in E0; lia|]. lia. }
  destruct (slice_some (lines m) (Z.max 0 (YOffset m1))
              (clamp (int_add (YOffset m1) n) 0 (maxYOffset m)))
    as [r ->]; [lia|lia|reflexivity].
Qed.

Lemma Update_roomy m msg :
  Roomy m -> YOffset m <= int_max -> Update m msg = Some (scrolled.Update m msg).
Proof.
  intros HR Hy. pose proof HR as [[Hf Hh] Hi].
  assert (Hhalf : 0 <= int_div (Height m) 2 <= int_max).
  { unfold int_div.
    assert (0 <= Z.quot (Height m) 2 <= Height m).
    { split; [apply Z.quot_pos; lia|].
      apply Z.quot_le_upper_bound; lia. }
    rewrite wrap_small; unfold int_min, int_max in *; lia. }
  unfold Update, scrolled.Update, ViewDown, ViewUp, HalfViewDown, HalfViewUp,
    scrolled.ViewDown, scrolled.ViewUp, scrolled.HalfViewDown, scrolled.HalfViewUp.
  destruct msg; try reflexivity;
    repeat match goal with |- context [if ?c then _ else _] => destruct c end;
    rewrite ?LineDown_eq; try reflexivity;
    apply LineUp_roomy; try assumption; unfold int_max in *; lia.
Qed.

End viewportFacts.

Create HintDb offset.
#[local] Hint Resolve viewportFacts.GotoTop_nonneg viewportFacts.GotoBottom_nonneg
  viewportFacts.SetContent_nonneg viewportFacts.LineUp_nonneg
  viewportFacts.LineDown_nonneg viewportFacts.Update_nonneg
  viewportFacts.GotoTop_int viewportFacts.GotoBottom_int
  viewportFacts.SetContent_int viewportFacts.LineUp_int
  viewportFacts.LineDown_int viewportFacts.Update_int : offset.
#[local] Hint Extern 2 (0 <= _) => (cbn; lia) : offset.
#[local] Hint Extern 2 (_ <= int_max) => (cbn; unfold int_max; lia) : offset.

(* ------------------------------------------------------------------ *)
(** ** The invariant of the navigation model *)

Lemma index_some {A} (l : list A) i : 0 <= i < len l -> exists x, index l i = Some x.
Proof.
  intros [H0 H1]. unfold index, len in *.
  destruct (i <? 0) eqn:E; [lia|].
  destruct (nth_error l (Z.to_nat i)) eqn:N; [eauto|].
  apply nth_error_None in N. lia.
Qed.

Lemma len_pageNames : len pageNames = 5.
Proof. reflexivity. Qed.

Ltac branch :=
  match goal with
  | |- context [if ?c then _ else _] => destruct c eqn:?
  end.

Ltac bools :=
  repeat match goal with
  | H : _ && _ = true |- _ => apply andb_true_iff in H; destruct H
  | H : _ && _ = false |- _ => apply andb_false_iff in H; destruct H
  | H : _ || _ = true |- _ => apply orb_true_iff in H; destruct H
  | H : _ || _ = false |- _ => apply orb_false_iff in H; destruct H
  | H : negb _ = true |- _ => apply negb_true_iff in H
  | H : negb _ = false |- _ => apply negb_false_iff in H
  | H : (_ <? _) = true |- _ => apply Z.ltb_lt in H
  | H : (_ <? _) = false |- _ => apply Z.ltb_ge in H
  | H : (_ <=? _) = true |- _ => apply Z.leb_le in H
  | H : (_ <=? _) = false |- _ => apply Z.leb_gt in H
  | H : (_ =? _) = true |- _ => apply Z.eqb_eq in H
  | H : (_ =? _) = false |- _ => apply Z.eqb_neq in H
  end.

Ltac pages_as_numbers :=
  unfold HomePage, ProjectsPage, BlogPage, AboutPage, ContactPage in *.

(** The geometry of a viewport after the methods. *)
Lemma Roomy_GotoTop vp : Roomy vp -> Roomy (scrolled.GotoTop vp).
Proof. apply viewportFacts.sameFrame_Roomy, viewportFacts.GotoTop_frame. Qed.

Lemma Roomy_GotoBottom vp : Roomy vp -> Roomy (scrolled.GotoBottom vp).
Proof. apply viewportFacts.sameFrame_Roomy, viewportFacts.GotoBottom_frame. Qed.

Lemma Roomy_SetContent vp s : Roomy vp -> Roomy (scrolled.SetContent vp s).
Proof. apply viewportFacts.sameFrame_Roomy, viewportFacts.SetContent_frame. Qed.

Lemma Roomy_LineDown vp n : Roomy vp -> Roomy (scrolled.LineDown vp n).
Proof. apply viewportFacts.sameFrame_Roomy, viewportFacts.LineDown_frame. Qed.

Lemma Roomy_LineUp vp n : Roomy vp -> Roomy (scrolled.LineUp vp n).
Proof. apply viewportFacts.sameFrame_Roomy, viewportFacts.LineUp_frame. Qed.

Lemma Roomy_Update vp msg : Roomy vp -> Roomy (scrolled.Update vp msg).
Proof. apply viewportFacts.sameFrame_Roomy, viewportFacts.Update_frame. Qed.

Lemma frame_GotoTop vp :
  viewport.StyleFrame (scrolled.GotoTop vp) = viewport.StyleFrame vp.
Proof. apply viewportFacts.GotoTop_frame. Qed.

Lemma frame_GotoBottom vp :
  viewport.StyleFrame (scrolled.GotoBottom vp) = viewport.StyleFrame vp.
Proof. apply viewportFacts.GotoBottom_frame. Qed.

Lemma frame_SetContent vp s :
  viewport.StyleFrame (scrolled.SetContent vp s) = viewport.StyleFrame vp.
Proof. apply viewportFacts.SetContent_frame. Qed.

Lemma frame_LineDown vp n :
  viewport.StyleFrame (scrolled.LineDown vp n) = viewport.StyleFrame vp.
Proof. apply viewportFacts.LineDown_frame. Qed.

Lemma frame_LineUp vp n :
  viewport.StyleFrame (scrolled.LineUp vp n) = viewport.StyleFrame vp.
Proof. apply viewportFacts.LineUp_frame. Qed.

Lemma frame_Update vp msg :
  viewport.StyleFrame (scrolled.Update vp msg) = viewport.StyleFrame vp.
Proof. apply viewportFacts.Update_frame. Qed.

Create HintDb roomy.
#[local] Hint Resolve Roomy_GotoTop Roomy_GotoBottom Roomy_SetContent Roomy_LineDown
  Roomy_LineUp Roomy_Update : roomy.

Section ContentReload.
Context {rd : Renderers}.

Lemma getBlogEntryContent_some m :
  0 <= selectedBlogEntry m -> exists c, getBlogEntryContent m = Some c.
Proof.
  intros H. unfold getBlogEntryContent.
  destruct (len (blogEntries m) <=? selectedBlogEntry m) eqn:E; [eauto|].
  destruct (index_some (blogEntries m) (selectedBlogEntry m)) as [e He]; [lia|].
  rewrite He. cbn. eauto.
Qed.

Lemma getPageContent_some m :
  0 <= selectedBlogEntry m -> exists c, getPageContent m = Some c.
Proof.
  intros H. unfold getPageContent.
  repeat branch; eauto.
  apply getBlogEntryContent_some, H.
Qed.

(** Outside the detail view no slice is indexed. *)
Lemma getPageContent_list m :
  viewingBlogEntry m = false -> exists c, getPageContent m = Some c.
Proof.
  intros H. unfold getPageContent. rewrite H.
  repeat branch; eauto.
Qed.

(** A reload that returns leaves the viewport with the content of the page,
    at its top. *)
Lemma updateViewportContent_inv m m' :
  updateViewportContent m = Some m' ->
  exists c, getPageContent m = Some c
    /\ m' = set_viewport m (scrolled.GotoTop (scrolled.SetContent (viewport m) c)).
Proof.
  unfold updateViewportContent.
  destruct (getPageContent m) as [c|]; [|discriminate]. cbn [bind].
  destruct (viewport.SetContent (viewport m) c) as [vp|] eqn:E; [|discriminate].
  apply viewportFacts.SetContent_inv in E. subst vp. cbn [bind].
  rewrite viewportFacts.GotoTop_eq. cbn [bind]. intros H. injection H as <-.
  exists c. split; reflexivity.
Qed.

(** It returns when the viewport is roomy, and when it is at its top. *)
Lemma updateViewportContent_eq m c :
  getPageContent m = Some c ->
  Roomy (viewport m) \/ viewport.YOffset (viewport m) <= 0 ->
  updateViewportContent m
  = Some (set_viewport m (scrolled.GotoTop (scrolled.SetContent (viewport m) c))).
Proof.
  intros Hc H. unfold updateViewportContent. rewrite Hc. cbn [bind].
  assert (E : viewport.SetContent (viewport m) c
              = Some (scrolled.SetContent (viewport m) c)).
  { destruct H; [apply viewportFacts.SetContent_roomy|apply viewportFacts.SetContent_top];
      assumption. }
  rewrite E. cbn [bind]. rewrite viewportFacts.GotoTop_eq. reflexivity.
Qed.

Lemma updateViewportContent_some m :
  0 <= selectedBlogEntry m ->
  Roomy (viewport m) \/ viewport.YOffset (viewport m) <= 0 ->
  exists c, getPageContent m = Some c /\
    updateViewportContent m =
      Some (set_viewport m (scrolled.GotoTop (scrolled.SetContent (viewport m) c))).
Proof.
  intros H HR. destruct (getPageContent_some m H) as [c Hc].
  exists c. split; [exact Hc|]. apply updateViewportContent_eq; assumption.
Qed.

(** The message handed to the viewport. *)
Lemma delegate_inv m msg m' cmd :
  delegate m msg = Some (m', cmd) ->
  m' = set_viewport m (scrolled.Update (viewport m) msg) /\ cmd = tea.nil.
Proof.
  unfold delegate.
  destruct (viewport.Update (viewport m) msg) as [vp|] eqn:E; [|discriminate].
  apply viewportFacts.Update_inv in E. subst vp. cbn [bind].
  intros H. injection H as <- <-. split; reflexivity.
Qed.

Lemma delegate_eq m msg :
  Roomy (viewport m) -> viewport.YOffset (viewport m) <= int_max ->
  delegate m msg = Some (set_viewport m (scrolled.Update (viewport m) msg), tea.nil).
Proof.
  intros HR Hy. unfold delegate.
  rewrite viewportFacts.Update_roomy by assumption. reflexivity.
Qed.

End ContentReload.

#[local] Arguments updateViewportContent : simpl never.
#[local] Arguments getPageContent : simpl never.
#[local] Arguments delegate : simpl never.
#[local] Arguments viewport.Update : simpl never.
#[local] Arguments viewport.GotoTop : simpl never.
#[local] Arguments viewport.GotoBottom : simpl never.
#[local] Arguments viewport.SetContent : simpl never.
#[local] Arguments viewport.LineUp : simpl never.
#[local] Arguments viewport.LineDown : simpl never.
#[local] Arguments scrolled.Update : simpl never.
#[local] Arguments scrolled.GotoTop : simpl never.
#[local] Arguments scrolled.GotoBottom : simpl never.
#[local] Arguments scrolled.SetContent : simpl never.
#[local] Arguments scrolled.LineUp : simpl never.
#[local] Arguments scrolled.LineDown : simpl never.
#[local] Arguments len : simpl never.
#[local] Arguments int_sub : simpl never.
#[local] Arguments int_max : simpl never.

(** Takes the next call that may panic in the goal apart: the state it
    leaves where it returns, nothing to prove where it does not. *)
Ltac returned :=
  match goal with
  | |- context [viewport.GotoTop ?v] => rewrite (viewportFacts.GotoTop_eq v)
  | |- context [viewport.LineDown ?v ?n] => rewrite (viewportFacts.LineDown_eq v n)
  | |- context [updateViewportContent ?x] =>
      let m1 := fresh "m" in let E := fresh "E" in
      let c := fresh "c" in let Hc := fresh "Hc" in
      destruct (updateViewportContent x) as [m1|] eqn:E;
      [ apply updateViewportContent_inv in E; destruct E as (c & Hc & E); subst m1
      | ]
  | |- context [delegate ?x ?msg] =>
      let r := fresh "r" in let E := fresh "E" in
      let m1 := fresh "m" in let cmd := fresh "cmd" in
      destruct (delegate x msg) as [[m1 cmd]|] eqn:E;
      [ apply delegate_inv in E; destruct E as (E & ?); subst m1 cmd
      | ]
  | |- context [viewport.GotoBottom ?v] =>
      let vp := fresh "vp" in let E := fresh "E" in
      destruct (viewport.GotoBottom v) as [vp|] eqn:E;
      [ apply viewportFacts.GotoBottom_inv in E; subst vp | ]
  | |- context [viewport.SetContent ?v ?c] =>
      let vp := fresh "vp" in let E := fresh "E" in
      destruct (viewport.SetContent v c) as [vp|] eqn:E;
      [ apply viewportFacts.SetContent_inv in E; subst vp | ]
  | |- context [viewport.LineUp ?v ?n] =>
      let vp := fresh "vp" in let E := fresh "E" in
      destruct (viewport.LineUp v n) as [vp|] eqn:E;
      [ apply viewportFacts.LineUp_inv in E; subst vp | ]
  | |- context [getPageContent ?x] =>
      let c := fresh "c" in let Hc := fresh "Hc" in
      destruct (getPageContent x) as [c|] eqn:Hc
  end.

(** Replaces a call by its result where it returns: a content reload at a
    state whose selection is not negative and whose viewport is roomy, a
    method of a roomy viewport. *)
Ltac refresh :=
  match goal with
  | |- context [viewport.GotoTop ?v] => rewrite (viewportFacts.GotoTop_eq v)
  | |- context [viewport.LineDown ?v ?n] => rewrite (viewportFacts.LineDown_eq v n)
  | |- context [updateViewportContent ?x] =>
      let c := fresh "c" in let Hc := fresh "Hc" in let H := fresh "H" in
      destruct (updateViewportContent_some x) as (c & Hc & H);
      [ cbn; lia | left; cbn; auto 6 with roomy | rewrite H; clear H; cbn ]
  | |- context [delegate ?x ?msg] =>
      rewrite (delegate_eq x msg) by (cbn; auto 6 with roomy offset)
  | |- context [viewport.GotoBottom ?v] =>
      rewrite (viewportFacts.GotoBottom_roomy v) by (cbn; auto 6 with roomy)
  | |- context [viewport.SetContent ?v ?c] =>
      rewrite (viewportFacts.SetContent_roomy v c) by (cbn; auto 6 with roomy)
  | |- context [viewport.LineUp ?v ?n] =>
      rewrite (viewportFacts.LineUp_roomy v n)
        by (cbn; auto 6 with roomy offset; unfold int_max; lia)
  | |- context [getPageContent ?x] =>
      let c := fresh "c" in let Hc := fresh "Hc" in
      destruct (getPageContent_some x) as (c & Hc);
      [ cbn; lia | rewrite Hc; cbn ]
  end.

Ltac close_Inv :=
  constructor; cbn;
  repeat first [ rewrite frame_GotoTop | rewrite frame_SetContent
               | rewrite frame_GotoBottom | rewrite frame_LineDown
               | rewrite frame_LineUp | rewrite frame_Update ];
  pages_as_numbers; auto 8 with offset; try lia; try congruence.

Section NavigationFacts.
Context {rd : Renderers}.

(** [Update] keeps the invariant wherever it returns. *)
Lemma Update_Inv m msg m' cmd :
  Inv m -> Update m msg = Some (m', cmd) -> Inv m'.
Proof.
  intros [Hp Hc Hs Hd Ho Hi Hf].
  unfold Update, onBlogIndex, newViewport.
  destruct msg as [w h|k| | |]; cbv zeta.
  - repeat (first [branch | returned]; cbn).
    all: intros Eq; try discriminate; injection Eq as <- <-.
    all: close_Inv.
  - repeat (first [branch | returned]; cbn).
    all: intros Eq; try discriminate; injection Eq as <- <-.
    all: rewrite ?Hp, ?len_pageNames in *; pages_as_numbers; bools.
    all: close_Inv.
  - returned; cbn; intros Eq; try discriminate; injection Eq as <- <-; close_Inv.
  - returned; cbn; intros Eq; try discriminate; injection Eq as <- <-; close_Inv.
  - returned; cbn; intros Eq; try discriminate; injection Eq as <- <-; close_Inv.
Qed.

(** In a roomy viewport [Update] returns, on a state of the invariant and a
    message that fits, and the viewport it leaves is roomy. *)
Lemma Update_returns m msg :
  Inv m -> Roomy (viewport m) -> fits msg ->
  exists m' cmd, Update m msg = Some (m', cmd) /\ Roomy (viewport m').
Proof.
  intros [Hp Hc Hs Hd Ho Hi Hf] HR Hfit.
  unfold Update, onBlogIndex, newViewport.
  destruct msg as [w h|k| | |]; cbv zeta.
  - assert (Hnew : Roomy (viewport.set_StyleFrame (viewport.New w (int_sub h 4))
                            hiddenBorderFrame)).
    { unfold Roomy, fits, tallEnough in *. cbn.
      pose proof (wrap_range (h - 4)). unfold int_sub in *. lia. }
    assert (Hold : Roomy (viewport.set_Height (viewport.set_Width (viewport m) w)
                            (int_sub h 4))).
    { unfold Roomy, fits, tallEnough in *. cbn. rewrite Hf.
      pose proof (wrap_range (h - 4)). unfold int_sub in *. lia. }
    repeat (first [branch | refresh]; cbn).
    all: do 2 eexists; (split; [reflexivity|]); cbn; auto 8 with roomy.
  - repeat (first [branch | refresh]; cbn).
    all: do 2 eexists; (split; [reflexivity|]); cbn; auto 8 with roomy.
  - refresh. do 2 eexists; (split; [reflexivity|]); cbn; auto 8 with roomy.
  - refresh. do 2 eexists; (split; [reflexivity|]); cbn; auto 8 with roomy.
  - refresh. do 2 eexists; (split; [reflexivity|]); cbn; auto 8 with roomy.
Qed.

(** A key never changes [ready], the geometry or the posts. *)
Lemma Update_key_frame m k m' cmd :
  Update m (tea.Key k) = Some (m', cmd) ->
  ready m' = ready m /\ blogEntries m' = blogEntries m /\ width m' = width m
  /\ sameFrame (viewport m') (viewport m).
Proof.
  unfold Update, onBlogIndex. cbv zeta.
  repeat (first [branch | returned]; cbn).
  all: intros Eq; try discriminate; injection Eq as <- <-; cbn.
  all: repeat split; cbn;
    repeat first [ rewrite (proj1 (viewportFacts.GotoTop_frame _))
                 | rewrite (proj1 (viewportFacts.SetContent_frame _ _))
                 | rewrite (proj1 (viewportFacts.GotoBottom_frame _))
                 | rewrite (proj1 (viewportFacts.LineDown_frame _ _))
                 | rewrite (proj1 (viewportFacts.LineUp_frame _ _))
                 | rewrite (proj1 (viewportFacts.Update_frame _ _))
                 | rewrite (proj1 (proj2 (viewportFacts.GotoTop_frame _)))
                 | rewrite (proj1 (proj2 (viewportFacts.SetContent_frame _ _)))
                 | rewrite (proj1 (proj2 (viewportFacts.GotoBottom_frame _)))
                 | rewrite (proj1 (proj2 (viewportFacts.LineDown_frame _ _)))
                 | rewrite (proj1 (proj2 (viewportFacts.LineUp_frame _ _)))
                 | rewrite (proj1 (proj2 (viewportFacts.Update_frame _ _)))
                 | rewrite frame_GotoTop | rewrite frame_SetContent
                 | rewrite frame_GotoBottom | rewrite frame_LineDown
                 | rewrite frame_LineUp | rewrite frame_Update ];
    reflexivity.
Qed.

Lemma run_Inv m msgs m' : Inv m -> run m msgs = Some m' -> Inv m'.
Proof.
  revert m. induction msgs as [|msg rest IH]; intros m HI; cbn [run].
  - intros E. injection E as <-. exact HI.
  - destruct (Update m msg) as [[m1 [|]]|] eqn:E; try discriminate.
    + apply IH. eapply Update_Inv; eassumption.
    + intros E1. injection E1 as <-. eapply Update_Inv; eassumption.
Qed.

(** In a roomy viewport a run of messages that fit returns. *)
Lemma run_returns m msgs :
  Inv m -> Roomy (viewport m) -> Forall fits msgs ->
  exists m', run m msgs = Some m' /\ Inv m' /\ Roomy (viewport m').
Proof.
  revert m. induction msgs as [|msg rest IH]; intros m HI HR HF; cbn [run].
  - eauto.
  - inversion HF as [|? ? Hfit HF']; subst.
    destruct (Update_returns m msg HI HR Hfit) as (m1 & cmd & E & HR1). rewrite E.
    pose proof (Update_Inv m msg m1 cmd HI E) as HI1.
    destruct cmd; eauto.
Qed.

Context {env : Env}.

Lemma GetBlogPosts_nonempty : 0 < len GetBlogPosts.
Proof.
  unfold GetBlogPosts.
  destruct Getwd as [pwd|]; [|reflexivity].
  cbv zeta. destruct (Stat_IsNotExist _); [reflexivity|].
  destruct (ReadDir _) as [files|]; [|reflexivity].
  destruct (len _ =? 0) eqn:E; [reflexivity|].
  apply Z.eqb_neq in E.
  match goal with |- 0 < len ?l => pose proof (len_nonneg l) end. lia.
Qed.

Lemma NewModel_Inv width height : Inv (NewModel width height).
Proof.
  pose proof GetBlogPosts_nonempty.
  constructor; cbn; pages_as_numbers; try lia; try congruence; try reflexivity.
  unfold int_max. lia.
Qed.

Lemma NewModel_roomy width height :
  tallEnough height -> Roomy (viewport (NewModel width height)).
Proof.
  intros H. unfold Roomy, tallEnough in *. cbn.
  pose proof (wrap_range (height - 4)). unfold int_sub in *. lia.
Qed.

Lemma Reachable_Inv m : Reachable m -> Inv m.
Proof.
  induction 1 as [w h|m msg m' cmd _ IH E].
  - apply NewModel_Inv.
  - eapply Update_Inv; eassumption.
Qed.

Lemma Reachable_run m msgs m' : Reachable m -> run m msgs = Some m' -> Reachable m'.
Proof.
  revert m. induction msgs as [|msg rest IH]; intros m HR; cbn [run].
  - intros E. injection E as <-. exact HR.
  - destruct (Update m msg) as [[m1 [|]]|] eqn:E; try discriminate.
    + apply IH. eapply Reachable_step; eauto.
    + intros E1. injection E1 as <-. eapply Reachable_step; eauto.
Qed.

End NavigationFacts.

(* ------------------------------------------------------------------ *)
(** ** C1: keys before the first geometry report *)

Ltac fields :=
  cbv beta iota zeta delta
    [set_width set_height set_currentPage set_selectedBlogEntry set_viewingBlogEntry
     set_viewport set_ready set_lastKey
     width height currentPage pages blogEntries selectedBlogEntry viewingBlogEntry
     viewport ready lastKey fst snd option_map bind].

(** Case analysis on every test and every call that may panic in the goal. *)
Ltac cases :=
  repeat match goal with
  | |- context [if ?c then _ else _] => destruct c eqn:?; fields
  | |- context [getPageContent ?x] => destruct (getPageContent x); fields
  | |- context [viewport.SetContent ?v ?c] => destruct (viewport.SetContent v c); fields
  | |- context [viewport.GotoTop ?v] => destruct (viewport.GotoTop v); fields
  | |- context [viewport.GotoBottom ?v] => destruct (viewport.GotoBottom v); fields
  | |- context [viewport.LineUp ?v ?n] => destruct (viewport.LineUp v n); fields
  | |- context [viewport.LineDown ?v ?n] => destruct (viewport.LineDown v n); fields
  | |- context [viewport.Update ?v ?msg] => destruct (viewport.Update v msg); fields
  end.

Section BeforeGeometry.
Context {rd : Renderers} {env : Env}.

(** The key branch of [Update] does not read [ready]: the flag can be set
    before the key or after it. *)
Lemma Update_key_ignores_ready m k b :
  Update (set_ready m b) (tea.Key k)
  = option_map (fun r => (set_ready (fst r) b, snd r)) (Update m (tea.Key k)).
Proof.
  destruct m as [w h cp pg be sel v vp r lk].
  unfold Update, delegate, onBlogIndex, updateViewportContent. fields.
  repeat match goal with
  | |- context [getPageContent (Build_Model ?w' ?h' ?cp' ?pg' ?be' ?sel' ?v' ?vp' b ?lk')] =>
      change (getPageContent (Build_Model w' h' cp' pg' be' sel' v' vp' b lk'))
        with (getPageContent (Build_Model w' h' cp' pg' be' sel' v' vp' r lk'))
  | |- context [if ?c then _ else _] => destruct c eqn:?; fields
  | |- context [getPageContent ?x] => destruct (getPageContent x); fields
  | |- context [viewport.SetContent ?v ?c] => destruct (viewport.SetContent v c); fields
  | |- context [viewport.GotoTop ?v] => destruct (viewport.GotoTop v); fields
  | |- context [viewport.GotoBottom ?v] => destruct (viewport.GotoBottom v); fields
  | |- context [viewport.LineUp ?v ?n] => destruct (viewport.LineUp v n); fields
  | |- context [viewport.LineDown ?v ?n] => destruct (viewport.LineDown v n); fields
  | |- context [viewport.Update ?v ?msg] => destruct (viewport.Update v msg); fields
  end; reflexivity.
Qed.

(** Keys leave [ready] as it is, wherever the run returns. *)
Lemma keys_keep_ready (keys : list tea.KeyMsg) : forall m m',
  run m (map tea.Key keys) = Some m' -> ready m' = ready m.
Proof.
  induction keys as [|k rest IH]; intros m m'; cbn [run map].
  - intros E. injection E as <-. reflexivity.
  - destruct (Update m (tea.Key k)) as [[m1 cmd]|] eqn:E; [|discriminate].
    destruct (Update_key_frame m k m1 cmd E) as (Hr & _).
    destruct cmd.
    + intros Hrun. rewrite (IH m1 m' Hrun). exact Hr.
    + intros E1. injection E1 as <-. exact Hr.
Qed.

(** Move-right on a list page that is not the last one, whatever [ready]
    is: the page advances.  (The viewport is roomy or at its top.) *)
Lemma move_right_advances m msg :
  In msg moveRight ->
  viewingBlogEntry m = false -> currentPage m < len (pages m) - 1 ->
  Roomy (viewport m) \/ viewport.YOffset (viewport m) <= 0 ->
  exists vp,
    Update m msg
    = Some (set_viewport (set_lastKey (set_currentPage m (currentPage m + 1)) "") vp, tea.nil).
Proof.
  intros Hin Hv Hc HR. apply Z.ltb_lt in Hc.
  destruct (getPageContent_list (set_currentPage m (currentPage m + 1)) Hv) as [c Hcont].
  pose proof (updateViewportContent_eq (set_currentPage m (currentPage m + 1)) c Hcont HR) as E.
  destruct Hin as [<-|[<-|[]]]; unfold Update, named, letter; cbn; rewrite Hv, Hc; cbn;
    rewrite E; cbn; unfold delegate, viewport.Update; cbn; eexists; reflexivity.
Qed.

(** C1, as the code has it.  Keys that arrive before the first geometry
    report leave [ready] false wherever [Update] returns, so [View] keeps
    returning the placeholder; in a terminal tall enough for the viewport
    (six rows under the hidden border) no sequence of keys makes [Update]
    panic.  The keys are not held back, though: [Update] handles a key in
    the same way whatever [ready] is, and move-right on the new model leads
    to the Projects page. *)
Theorem C1_keys_before_geometry (width height : Z) (keys : list tea.KeyMsg) :
  (forall m, run (NewModel width height) (map tea.Key keys) = Some m ->
     ready m = false /\ forall st, View st m = "Loading...")
  /\ (tallEnough height ->
      exists m, run (NewModel width height) (map tea.Key keys) = Some m)
  /\ (forall m k b,
        Update (set_ready m b) (tea.Key k)
        = option_map (fun r => (set_ready (fst r) b, snd r)) (Update m (tea.Key k)))
  /\ Forall (fun msg =>
               exists m, Update (NewModel width height) msg = Some (m, tea.nil)
                         /\ ready m = false
                         /\ currentPage m = ProjectsPage)
            moveRight.
Proof.
  split; [|split; [|split]].
  - intros m Hrun. pose proof (keys_keep_ready keys _ _ Hrun) as Hr. cbn in Hr.
    split; [exact Hr|]. intros st. unfold View. rewrite Hr. reflexivity.
  - intros Htall.
    destruct (run_returns (NewModel width height) (map tea.Key keys)
                (NewModel_Inv width height) (NewModel_roomy width height Htall))
      as (m & Hrun & _).
    + apply Forall_forall. intros msg Hin. apply in_map_iff in Hin.
      destruct Hin as (k & <- & _). exact I.
    + exists m. exact Hrun.
  - apply Update_key_ignores_ready.
  - apply Forall_forall. intros msg Hin.
    destruct (move_right_advances (NewModel width height) msg Hin) as [vp E];
      [reflexivity | reflexivity | right; cbn; lia |].
    rewrite E. eexists. split; [reflexivity|]. split; reflexivity.
Qed.

End BeforeGeometry.

(** C1 in a terminal of 80 by 24: move-right and go-to-bottom twice before
    any geometry report are processed, and the frame is still the
    placeholder. *)
Lemma C1_witness :
  let m0 := NewModel (rd := Sample.plain) (env := Sample.nowhere) 80 24 in
  let keys := [ {| tea.KeyString := "right"; tea.Runes := [] |};
                {| tea.KeyString := "G"; tea.Runes := [71] |};
                {| tea.KeyString := "G"; tea.Runes := [71] |} ] in
  exists m, run (rd := Sample.plain) m0 (map tea.Key keys) = Some m
            /\ ready m = false
            /\ View (rd := Sample.plain) {| navbarWidth := 80; footerWidth := 80 |} m
               = "Loading...".
Proof.
  intros m0 keys.
  destruct (C1_keys_before_geometry (rd := Sample.plain) (env := Sample.nowhere) 80 24 keys)
    as (Hstay & Hrun & _).
  destruct Hrun as [m Hm].
  - unfold tallEnough. vm_compute. split; discriminate.
  - exists m. split; [exact Hm|].
    destruct (Hstay m Hm) as (Hr & Hview). split; [exact Hr|apply Hview].
Defined.

(** C1 as stated fails: on a new model (no geometry reported yet) move-right
    changes [currentPage] to Projects, and two move-rights followed by
    move-down leave the Blog index with the second post selected.  Nor is a
    crash excluded: in a terminal of five rows go-to-bottom pressed twice
    makes the viewport slice its lines out of range. *)
Lemma C1_counterexample :
  let m0 := NewModel (rd := Sample.plain) (env := Sample.nowhere) 80 24 in
  option_map (fun m => (ready m, currentPage m, selectedBlogEntry m))
             (run (rd := Sample.plain) m0 [named "right"])
  = Some (false, ProjectsPage, 0)
  /\ option_map (fun m => (ready m, currentPage m, selectedBlogEntry m))
                (run (rd := Sample.plain) m0 [named "right"; named "right"; named "down"])
     = Some (false, BlogPage, 1)
  /\ run (rd := Sample.plain)
         (NewModel (rd := Sample.plain) (env := Sample.nowhere) 80 5)
         [goToBottom; goToBottom]
     = None.
Proof. repeat split; vm_compute; reflexivity. Qed.
(* ------------------------------------------------------------------ *)
(** ** C2: a pending chord and the next key *)

Section Chord.
Context {rd : Renderers}.

(** Every action of [otherActions] leaves no chord pending where it
    returns, and it returns in a roomy viewport. *)
Lemma other_actions_clear_chord m msg :
  Inv m -> In msg otherActions ->
  (forall m' cmd, Update m msg = Some (m', cmd) -> lastKey m' = "" /\ cmd = tea.nil)
  /\ (Roomy (viewport m) -> exists m', Update m msg = Some (m', tea.nil)).
Proof.
  intros [Hp Hc Hs Hd Ho Hi Hf] Hin.
  unfold otherActions, moveLeft, moveRight, moveUp, moveDown in Hin. cbn in Hin.
  split.
  - intros m' cmd.
    repeat (destruct Hin as [<-|Hin]; [|]); try contradiction.
    all: unfold Update, onBlogIndex, confirm, back, halfPageUp, halfPageDown, named, letter; cbn.
    all: repeat (first [branch | returned]; cbn).
    all: intros Eq; try discriminate; injection Eq as <- <-; split; reflexivity.
  - intros HR.
    repeat (destruct Hin as [<-|Hin]; [|]); try contradiction.
    all: unfold Update, onBlogIndex, confirm, back, halfPageUp, halfPageDown, named, letter; cbn.
    all: repeat (first [branch | refresh]; cbn).
    all: eexists; reflexivity.
Qed.

Lemma pending_chord_changes_nothing_fields w h cp pg be sel v vp r lk msg :
  In msg otherActions ->
  Update (Build_Model w h cp pg be sel v vp r lk) msg
  = Update (Build_Model w h cp pg be sel v vp r "") msg.
Proof.
  intros Hin.
  unfold otherActions, moveLeft, moveRight, moveUp, moveDown in Hin. cbn in Hin.
  repeat (destruct Hin as [<-|Hin]; [|]); try contradiction;
  unfold Update, delegate, onBlogIndex, updateViewportContent,
    confirm, back, halfPageUp, halfPageDown, named, letter; cbn; fields;
  repeat match goal with
  | |- context [getPageContent (Build_Model ?w' ?h' ?cp' ?pg' ?be' ?sel' ?v' ?vp' ?r' lk)] =>
      change (getPageContent (Build_Model w' h' cp' pg' be' sel' v' vp' r' lk))
        with (getPageContent (Build_Model w' h' cp' pg' be' sel' v' vp' r' ""))
  | |- context [if ?c then _ else _] => destruct c eqn:?; fields
  | |- context [getPageContent ?x] => destruct (getPageContent x); fields
  | |- context [viewport.SetContent ?v ?c] => destruct (viewport.SetContent v c); fields
  | |- context [viewport.GotoTop ?v] => destruct (viewport.GotoTop v); fields
  | |- context [viewport.LineUp ?v ?n] => destruct (viewport.LineUp v n); fields
  | |- context [viewport.LineDown ?v ?n] => destruct (viewport.LineDown v n); fields
  | |- context [viewport.Update ?v ?msg] => destruct (viewport.Update v msg); fields
  end; reflexivity.
Qed.

(** A pending chord does not alter what these actions do: the result is
    the one from the same state with no chord pending. *)
Lemma pending_chord_changes_nothing m msg :
  In msg otherActions -> Update m msg = Update (set_lastKey m "") msg.
Proof. destruct m. apply pending_chord_changes_nothing_fields. Qed.

(** Go-to-bottom returns before the line that clears [lastKey]: the chord
    stays as it was. *)
Lemma go_to_bottom_keeps_chord m :
  Inv m ->
  (forall m' cmd, Update m goToBottom = Some (m', cmd) ->
     lastKey m' = lastKey m /\ cmd = tea.nil)
  /\ (Roomy (viewport m) -> exists m', Update m goToBottom = Some (m', tea.nil)).
Proof.
  intros [Hp Hc Hs Hd Ho Hi Hf].
  split.
  - intros m' cmd.
    unfold Update, onBlogIndex, goToBottom, letter; cbn.
    repeat (first [branch | returned]; cbn).
    all: intros Eq; try discriminate; injection Eq as <- <-; split; reflexivity.
  - intros HR.
    unfold Update, onBlogIndex, goToBottom, letter; cbn.
    repeat (first [branch | refresh]; cbn).
    all: eexists; reflexivity.
Qed.

End Chord.

(** C2 fails on go-to-bottom.  On the Blog index of a ready session with
    two posts the chord key leaves [lastKey = "g"]; go-to-bottom is then
    carried out (the last post is selected) but [lastKey] is still ["g"],
    and one more press of the chord key completes the chord and jumps back
    to the first post. *)
Theorem C2_go_to_bottom_leaves_chord_pending :
  let observe :=
    option_map (fun m => (ready m, currentPage m, selectedBlogEntry m, lastKey m)) in
  observe (run (rd := Sample.plain) onBlog [chordKey])
  = Some (true, BlogPage, 0, "g")
  /\ observe (run (rd := Sample.plain) onBlog [chordKey; goToBottom])
     = Some (true, BlogPage, 1, "g")
  /\ observe (run (rd := Sample.plain) onBlog [chordKey; goToBottom; chordKey])
     = Some (true, BlogPage, 0, "").
Proof. repeat split; vm_compute; reflexivity. Qed.
(* ------------------------------------------------------------------ *)
(** ** C4: the page stays between Home and Contact *)

Section Pages.
Context {rd : Renderers} {env : Env}.

Lemma move_left_at_first m msg :
  In msg moveLeft -> currentPage m = HomePage ->
  Update m msg = Some (set_lastKey m "", tea.nil).
Proof.
  intros Hin Hc.
  destruct Hin as [<-|[<-|[]]]; unfold Update, delegate, named, letter; cbn;
    rewrite Hc, andb_false_r; cbn;
    unfold delegate, viewport.Update, viewport.Matches; cbn;
    destruct m; reflexivity.
Qed.

Lemma move_right_at_last m msg :
  In msg moveRight -> pages m = pageNames -> currentPage m = ContactPage ->
  Update m msg = Some (set_lastKey m "", tea.nil).
Proof.
  intros Hin Hp Hc.
  destruct Hin as [<-|[<-|[]]]; unfold Update, delegate, named, letter; cbn;
    rewrite Hc, Hp, andb_false_r; cbn;
    unfold delegate, viewport.Update, viewport.Matches; cbn;
    destruct m; reflexivity.
Qed.

Lemma set_lastKey_same m : lastKey m = "" -> set_lastKey m "" = m.
Proof. destruct m; cbn. intros ->. reflexivity. Qed.

Lemma keys_fit (msgs : list tea.Msg) (keys : list tea.Msg) :
  Forall (fun msg => exists k, msg = tea.Key k) keys ->
  Forall (fun msg => In msg keys) msgs -> Forall fits msgs.
Proof.
  intros Hkeys HF. eapply Forall_impl; [|exact HF].
  intros msg Hin. rewrite Forall_forall in Hkeys.
  destruct (Hkeys msg Hin) as [k ->]. exact I.
Qed.

(** C4.  From a reachable state, every sequence of move-left and move-right
    keys ends on a page between Home and Contact, wherever the run returns;
    it does return when the viewport is roomy (a terminal of six rows or
    more under the hidden border).  Move-left on the first page and
    move-right on the last are no-ops in any geometry: the state is returned
    as it is when no chord is pending, and with nothing but the pending
    chord cleared when one is (any key other than the chord key clears
    it). *)
Theorem C4_page_stays_in_range (m : Model) :
  Reachable m ->
  (forall msgs, Forall (fun msg => In msg (moveLeft ++ moveRight)) msgs ->
     (forall m', run m msgs = Some m' -> HomePage <= currentPage m' <= ContactPage)
     /\ (Roomy (viewport m) ->
         exists m', run m msgs = Some m'
                    /\ HomePage <= currentPage m' <= ContactPage))
  /\ (forall msg,
        (currentPage m = HomePage /\ In msg moveLeft)
        \/ (currentPage m = ContactPage /\ In msg moveRight) ->
        Update m msg = Some (set_lastKey m "", tea.nil)
        /\ (lastKey m = "" -> Update m msg = Some (m, tea.nil))).
Proof.
  intros HR. pose proof (Reachable_Inv m HR) as HI.
  split.
  - intros msgs HF. split.
    + intros m' E. apply (run_Inv m msgs m' HI E).
    + intros Hroomy.
      destruct (run_returns m msgs HI Hroomy) as (m' & E & HI' & _).
      * eapply keys_fit; [|exact HF].
        repeat constructor; eexists; reflexivity.
      * exists m'. split; [exact E|]. apply HI'.
  - intros msg Hedge.
    assert (E : Update m msg = Some (set_lastKey m "", tea.nil)).
    { destruct Hedge as [[Hc Hin]|[Hc Hin]].
      - apply move_left_at_first; assumption.
      - apply move_right_at_last; [assumption| apply HI |assumption]. }
    split; [exact E|]. intros Hk. rewrite E, set_lastKey_same by exact Hk. reflexivity.
Qed.

End Pages.

(** C4 at work: from the new model, move-left changes nothing, four
    move-rights reach Contact and a fifth one stays there. *)
Lemma C4_witness :
  let env := Sample.nowhere in
  let m0 := NewModel (rd := Sample.plain) (env := env) 80 24 in
  Reachable (rd := Sample.plain) (env := env) m0
  /\ (exists m', run (rd := Sample.plain) m0
                   [named "left"; named "right"; letter "l"; named "right";
                    named "right"; named "right"] = Some m'
                 /\ HomePage <= currentPage m' <= ContactPage)
  /\ Update (rd := Sample.plain) m0 (named "left") = Some (m0, tea.nil).
Proof.
  intros env m0.
  assert (HR : Reachable (rd := Sample.plain) (env := env) m0) by apply Reachable_new.
  destruct (C4_page_stays_in_range (rd := Sample.plain) (env := env) m0 HR) as (Hrun & Hedge).
  split; [exact HR|]. split.
  - apply Hrun.
    + repeat (apply Forall_cons; [cbn; tauto|]); apply Forall_nil.
    + unfold Roomy. vm_compute. repeat split; discriminate.
  - apply (Hedge (named "left")); [left; split; [reflexivity | left; reflexivity] | reflexivity].
Defined.
(* ------------------------------------------------------------------ *)
(** ** C5: the selection stays inside the post list *)

Section Selection.
Context {rd : Renderers}.

(** On the Blog index a reload shows the cards, whatever the selection. *)
Lemma reload_blog_index m :
  currentPage m = BlogPage -> viewingBlogEntry m = false ->
  Roomy (viewport m) \/ viewport.YOffset (viewport m) <= 0 ->
  updateViewportContent m
  = Some (set_viewport m
            (scrolled.GotoTop (scrolled.SetContent (viewport m) (getBlogContent m)))).
Proof.
  intros Hc Hv HR. apply updateViewportContent_eq; [|exact HR].
  unfold getPageContent. rewrite Hc, Hv. reflexivity.
Qed.

(** What a reload leaves of the geometry. *)
Lemma reload_frame vp c :
  sameFrame (scrolled.GotoTop (scrolled.SetContent vp c)) vp.
Proof.
  destruct (viewportFacts.GotoTop_frame (scrolled.SetContent vp c)) as (H1 & H2 & H3).
  destruct (viewportFacts.SetContent_frame vp c) as (G1 & G2 & G3).
  repeat split; congruence.
Qed.

Lemma move_up_on_index m msg :
  In msg moveUp -> currentPage m = BlogPage -> viewingBlogEntry m = false ->
  (forall m' cmd, Update m msg = Some (m', cmd) ->
     cmd = tea.nil
     /\ currentPage m' = BlogPage /\ viewingBlogEntry m' = false
     /\ blogEntries m' = blogEntries m
     /\ selectedBlogEntry m'
        = (if 0 <? selectedBlogEntry m then selectedBlogEntry m - 1 else selectedBlogEntry m)
     /\ sameFrame (viewport m') (viewport m))
  /\ (selectedBlogEntry m <= 0 -> Update m msg = Some (set_lastKey m "", tea.nil))
  /\ (Roomy (viewport m) -> exists m', Update m msg = Some (m', tea.nil)).
Proof.
  intros Hin Hc Hv.
  destruct Hin as [<-|[<-|[]]]; unfold Update, onBlogIndex, named, letter; cbn;
    rewrite Hc, Hv; cbn;
    (destruct (0 <? selectedBlogEntry m) eqn:E; bools;
     [ split; [|split];
       [ intros m' cmd; returned; cbn; intros Eq; try discriminate;
         injection Eq as <- <-; cbn; repeat split; try assumption; apply reload_frame
       | intros; lia
       | intros HR; rewrite reload_blog_index by (cbn; auto); cbn; eexists; reflexivity ]
     | split; [|split];
       [ intros m' cmd Eq; injection Eq as <- <-; cbn; repeat split; assumption
       | reflexivity
       | intros _; eexists; reflexivity ] ]).
Qed.

Lemma move_down_on_index m msg :
  In msg moveDown -> currentPage m = BlogPage -> viewingBlogEntry m = false ->
  (forall m' cmd, Update m msg = Some (m', cmd) ->
     cmd = tea.nil
     /\ currentPage m' = BlogPage /\ viewingBlogEntry m' = false
     /\ blogEntries m' = blogEntries m
     /\ selectedBlogEntry m'
        = (if selectedBlogEntry m <? len (blogEntries m) - 1
           then selectedBlogEntry m + 1 else selectedBlogEntry m)
     /\ sameFrame (viewport m') (viewport m))
  /\ (len (blogEntries m) - 1 <= selectedBlogEntry m ->
      Update m msg = Some (set_lastKey m "", tea.nil))
  /\ (Roomy (viewport m) -> exists m', Update m msg = Some (m', tea.nil)).
Proof.
  intros Hin Hc Hv.
  destruct Hin as [<-|[<-|[]]]; unfold Update, onBlogIndex, named, letter; cbn;
    rewrite Hc, Hv; cbn;
    (destruct (selectedBlogEntry m <? len (blogEntries m) - 1) eqn:E; bools;
     [ split; [|split];
       [ intros m' cmd; returned; cbn; intros Eq; try discriminate;
         injection Eq as <- <-; cbn; repeat split; try assumption; apply reload_frame
       | intros; lia
       | intros HR; rewrite reload_blog_index by (cbn; auto); cbn; eexists; reflexivity ]
     | split; [|split];
       [ intros m' cmd Eq; injection Eq as <- <-; cbn; repeat split; assumption
       | reflexivity
       | intros _; eexists; reflexivity ] ]).
Qed.

(** One vertical key on the Blog index. *)
Lemma vertical_move_on_index m msg :
  In msg (moveUp ++ moveDown) ->
  currentPage m = BlogPage -> viewingBlogEntry m = false ->
  0 <= selectedBlogEntry m <= len (blogEntries m) - 1 ->
  (forall m1 cmd, Update m msg = Some (m1, cmd) ->
     cmd = tea.nil
     /\ currentPage m1 = BlogPage /\ viewingBlogEntry m1 = false
     /\ blogEntries m1 = blogEntries m
     /\ 0 <= selectedBlogEntry m1 <= len (blogEntries m) - 1
     /\ sameFrame (viewport m1) (viewport m))
  /\ (Roomy (viewport m) -> exists m1, Update m msg = Some (m1, tea.nil)).
Proof.
  intros Hin Hc Hv Hs. apply in_app_or in Hin. destruct Hin as [Hin|Hin].
  - destruct (move_up_on_index m msg Hin Hc Hv) as (Hpart & _ & Htot).
    split; [|exact Htot]. intros m1 cmd E.
    destruct (Hpart m1 cmd E) as (H0 & H1 & H2 & H3 & H4 & H5).
    split; [exact H0|]. split; [exact H1|]. split; [exact H2|]. split; [exact H3|].
    split; [|exact H5].
    destruct (0 <? selectedBlogEntry m) eqn:L; bools; lia.
  - destruct (move_down_on_index m msg Hin Hc Hv) as (Hpart & _ & Htot).
    split; [|exact Htot]. intros m1 cmd E.
    destruct (Hpart m1 cmd E) as (H0 & H1 & H2 & H3 & H4 & H5).
    split; [exact H0|]. split; [exact H1|]. split; [exact H2|]. split; [exact H3|].
    split; [|exact H5].
    destruct (selectedBlogEntry m <? len (blogEntries m) - 1) eqn:L; bools; lia.
Qed.

Lemma vertical_moves_stay_in_range msgs : forall m,
  Forall (fun msg => In msg (moveUp ++ moveDown)) msgs ->
  currentPage m = BlogPage -> viewingBlogEntry m = false ->
  0 <= selectedBlogEntry m <= len (blogEntries m) - 1 ->
  (forall m', run m msgs = Some m' ->
     currentPage m' = BlogPage /\ viewingBlogEntry m' = false
     /\ blogEntries m' = blogEntries m
     /\ 0 <= selectedBlogEntry m' <= len (blogEntries m) - 1)
  /\ (Roomy (viewport m) -> exists m', run m msgs = Some m').
Proof.
  induction msgs as [|msg rest IH]; intros m HF Hc Hv Hs; cbn [run].
  - split; [|eauto]. intros m' E. injection E as <-. auto.
  - inversion HF as [|? ? Hin HF']; subst.
    destruct (vertical_move_on_index m msg Hin Hc Hv Hs) as (Hpart & Htot).
    split.
    + intros m'. destruct (Update m msg) as [[m1 cmd]|] eqn:E; [|discriminate].
      destruct (Hpart m1 cmd eq_refl) as (-> & H1 & H2 & H3 & H4 & _).
      intros Hrun.
      destruct (IH m1 HF' H1 H2) as (IHpart & _); [rewrite H3; exact H4|].
      destruct (IHpart m' Hrun) as (G1 & G2 & G3 & G4).
      rewrite H3 in G3, G4. auto.
    + intros HR. destruct (Htot HR) as (m1 & E). rewrite E.
      destruct (Hpart m1 tea.nil E) as (_ & H1 & H2 & H3 & H4 & H5).
      destruct (IH m1 HF' H1 H2) as (_ & IHtot); [rewrite H3; exact H4|].
      apply IHtot. eapply viewportFacts.sameFrame_Roomy; eassumption.
Qed.

(** C5.  On the Blog index with a selection inside a non-empty post list,
    every sequence of move-up and move-down keys stays on the Blog index and
    leaves [selectedBlogEntry] between [0] and [len(posts) - 1], wherever
    the run returns; it does return when the viewport is roomy (a terminal
    of six rows or more under the hidden border).  Move-up on the first post
    and move-down on the last leave the selection (and all of the state but
    the cleared chord) as it is, in any geometry. *)
Theorem C5_selection_stays_in_range (m : Model) :
  currentPage m = BlogPage -> viewingBlogEntry m = false ->
  0 <= selectedBlogEntry m <= len (blogEntries m) - 1 ->
  (forall msgs, Forall (fun msg => In msg (moveUp ++ moveDown)) msgs ->
     (forall m', run m msgs = Some m' ->
        currentPage m' = BlogPage /\ viewingBlogEntry m' = false
        /\ 0 <= selectedBlogEntry m' <= len (blogEntries m') - 1)
     /\ (Roomy (viewport m) ->
         exists m', run m msgs = Some m'
           /\ currentPage m' = BlogPage /\ viewingBlogEntry m' = false
           /\ 0 <= selectedBlogEntry m' <= len (blogEntries m') - 1))
  /\ (selectedBlogEntry m = 0 ->
      forall msg, In msg moveUp -> Update m msg = Some (set_lastKey m "", tea.nil))
  /\ (selectedBlogEntry m = len (blogEntries m) - 1 ->
      forall msg, In msg moveDown -> Update m msg = Some (set_lastKey m "", tea.nil)).
Proof.
  intros Hc Hv Hs. split; [|split].
  - intros msgs HF.
    destruct (vertical_moves_stay_in_range msgs m HF Hc Hv Hs) as (Hpart & Htot).
    assert (Hres : forall m', run m msgs = Some m' ->
              currentPage m' = BlogPage /\ viewingBlogEntry m' = false
              /\ 0 <= selectedBlogEntry m' <= len (blogEntries m') - 1).
    { intros m' E. destruct (Hpart m' E) as (H1 & H2 & H3 & H4). rewrite H3. auto. }
    split; [exact Hres|].
    intros HR. destruct (Htot HR) as (m' & E). exists m'. split; [exact E|]. apply Hres, E.
  - intros H0 msg Hin.
    destruct (move_up_on_index m msg Hin Hc Hv) as (_ & Hb & _). apply Hb. lia.
  - intros H0 msg Hin.
    destruct (move_down_on_index m msg Hin Hc Hv) as (_ & Hb & _). apply Hb. lia.
Qed.

End Selection.

(** C5 on the two posts: down, down, up, up, up never leaves the list, and
    move-up on the first post changes nothing. *)
Lemma C5_witness :
  (exists m', run (rd := Sample.plain) onBlog
                [named "down"; letter "j"; named "up"; letter "k"; named "up"] = Some m'
     /\ currentPage m' = BlogPage /\ viewingBlogEntry m' = false
     /\ 0 <= selectedBlogEntry m' <= len (blogEntries m') - 1)
  /\ Update (rd := Sample.plain) onBlog (named "up") = Some (set_lastKey onBlog "", tea.nil).
Proof.
  destruct (C5_selection_stays_in_range (rd := Sample.plain) onBlog) as (Hrun & Hup & _).
  - vm_compute. reflexivity.
  - vm_compute. reflexivity.
  - vm_compute. split; discriminate.
  - split.
    + apply Hrun.
      * repeat (apply Forall_cons; [cbn; tauto|]); apply Forall_nil.
      * unfold Roomy. vm_compute. repeat split; discriminate.
    + apply Hup; [vm_compute; reflexivity | left; reflexivity].
Defined.
(* ------------------------------------------------------------------ *)
(** ** C6: into a post and back *)

Section Detail.
Context {rd : Renderers}.

Lemma confirm_enters_detail m :
  currentPage m = BlogPage -> viewingBlogEntry m = false ->
  0 <= selectedBlogEntry m ->
  Roomy (viewport m) \/ viewport.YOffset (viewport m) <= 0 ->
  exists c, getBlogEntryContent m = Some c
    /\ Update m confirm
       = Some (set_viewport (set_viewingBlogEntry (set_lastKey m "") true)
                 (scrolled.GotoTop (scrolled.SetContent (viewport m) c)),
               tea.nil).
Proof.
  intros Hc Hv Hs HR.
  destruct (getBlogEntryContent_some m Hs) as [c E]. exists c. split; [exact E|].
  unfold Update, onBlogIndex, confirm, named; cbn. rewrite Hc, Hv; cbn.
  rewrite (updateViewportContent_eq _ c); [reflexivity| |exact HR].
  unfold getPageContent; cbn. rewrite Hc; cbn. exact E.
Qed.




End Detail.


(* ------------------------------------------------------------------ *)
(** ** C7: go-to-top twice *)

Section GoToTop.
Context {rd : Renderers}.

Lemma chord_starts m :
  (lastKey m == "g") = false ->
  Update m chordKey = Some (set_lastKey m "g", tea.nil).
Proof.
  intros H. unfold Update, chordKey, letter; cbn. rewrite H. reflexivity.
Qed.

Lemma chord_completes m :
  (lastKey m == "g") = true -> 0 <= selectedBlogEntry m ->
  0 <= viewport.YOffset (viewport m) ->
  exists c, getPageContent (atTop m) = Some c
    /\ Update m chordKey = Some (completed m c, tea.nil).
Proof.
  intros H Hs Ho.
  assert (Hs' : 0 <= selectedBlogEntry (atTop m)).
  { unfold atTop. cbv zeta. destruct (onBlogIndex _); cbn; lia. }
  assert (Ho' : viewport.YOffset (viewport (atTop m)) <= 0).
  { unfold atTop. cbv zeta. destruct (onBlogIndex _); cbn;
      rewrite viewportFacts.GotoTop_offset by exact Ho; lia. }
  destruct (getPageContent_some (atTop m) Hs') as [c Hc]. exists c. split; [exact Hc|].
  unfold Update, chordKey, letter; cbn. rewrite H.
  rewrite viewportFacts.GotoTop_eq. cbn [bind].
  fold (atTop m).
  rewrite (updateViewportContent_eq (atTop m) c Hc (or_intror Ho')). reflexivity.
Qed.

(** A viewport that has just been loaded with [c] and sent to its top is
    not changed by doing both again. *)
Lemma reload_twice vp c :
  0 <= viewport.YOffset vp ->
  let vp1 := scrolled.GotoTop (scrolled.SetContent vp c) in
  scrolled.GotoTop (scrolled.SetContent (scrolled.GotoTop vp1) c) = vp1.
Proof.
  intros H vp1.
  assert (H1 : viewport.YOffset vp1 = 0)
    by (apply viewportFacts.GotoTop_offset, viewportFacts.SetContent_nonneg, H).
  assert (Hl : viewport.lines vp1
               = strings.Split (strings.ReplaceAll c (strings.CR ++ strings.LF) strings.LF)
                               strings.LF).
  { unfold vp1, scrolled.GotoTop, scrolled.SetContent, scrolled.GotoBottom,
      viewport.SetYOffset. cbv zeta.
    repeat match goal with |- context [if ?b then _ else _] => destruct b end; reflexivity. }
  assert (Hn : 1 <= len (viewport.lines vp1)).
  { unfold vp1, scrolled.GotoTop.
    pose proof (viewportFacts.SetContent_lines vp c).
    destruct (viewport.AtTop _); [assumption|]. exact H0. }
  rewrite (viewportFacts.GotoTop_at_top vp1 H1).
  assert (E : scrolled.SetContent vp1 c = vp1).
  { unfold scrolled.SetContent. cbv zeta. rewrite <- Hl.
    cbn [viewport.lines viewport.set_lines viewport.YOffset]. rewrite H1.
    destruct (len (viewport.lines vp1) - 1 <? 0) eqn:L; [apply Z.ltb_lt in L; lia|].
    destruct vp1; reflexivity. }
  rewrite E. apply viewportFacts.GotoTop_at_top, H1.
Qed.

Lemma completed_again m c k :
  0 <= viewport.YOffset (viewport m) ->
  getPageContent (atTop m) = Some c ->
  getPageContent (atTop (set_lastKey (completed m c) k)) = Some c
  /\ completed (set_lastKey (completed m c) k) c = completed m c.
Proof.
  intros Ho Hc.
  assert (Hv : scrolled.GotoTop
                 (scrolled.SetContent
                    (scrolled.GotoTop
                       (scrolled.GotoTop
                          (scrolled.SetContent (scrolled.GotoTop (viewport m)) c))) c)
               = scrolled.GotoTop (scrolled.SetContent (scrolled.GotoTop (viewport m)) c)).
  { apply reload_twice. apply viewportFacts.GotoTop_nonneg, Ho. }
  unfold completed, atTop in *. cbv zeta in *. unfold onBlogIndex in *.
  destruct m as [w h cp pg be sel v vp r lk]. cbn in *.
  destruct ((cp =? BlogPage) && negb v) eqn:E; cbn in *; rewrite ?E; cbn.
  - rewrite Hv. split; [exact Hc | reflexivity].
  - rewrite Hv. split; [exact Hc | reflexivity].
Qed.

(** C7.  The go-to-top chord (the chord key twice) is idempotent: from a
    state whose selection and offset are not negative (every reachable
    state), the chord is processed without a panic and leaves a state that a
    second chord maps to itself; the viewport offset is [0] and, on the Blog
    index, the first post is selected. *)
Theorem C7_go_to_top_twice (m : Model) :
  0 <= selectedBlogEntry m -> 0 <= viewport.YOffset (viewport m) ->
  exists m1,
    run m [chordKey; chordKey] = Some m1
    /\ run m1 [chordKey; chordKey] = Some m1
    /\ viewport.YOffset (viewport m1) = 0
    /\ (onBlogIndex m = true -> selectedBlogEntry m1 = 0).
Proof.
  intros Hs Ho. cbn [run].
  destruct (lastKey m == "g") eqn:Hk.
  - (* the first press completes a pending chord, the second starts one *)
    destruct (chord_completes m Hk Hs Ho) as (c & Hc & E). rewrite E.
    rewrite chord_starts by reflexivity.
    destruct (completed_again m c "g" Ho Hc) as (Hc' & Hfix).
    exists (set_lastKey (completed m c) "g"). split; [reflexivity|].
    assert (Hs1 : 0 <= selectedBlogEntry (set_lastKey (completed m c) "g")).
    { unfold completed, atTop. cbv zeta. destruct (onBlogIndex _); cbn; lia. }
    assert (Ho1 : 0 <= viewport.YOffset (viewport (set_lastKey (completed m c) "g"))).
    { cbn. apply viewportFacts.GotoTop_nonneg, viewportFacts.SetContent_nonneg.
      unfold atTop. cbv zeta. destruct (onBlogIndex _); cbn;
        apply viewportFacts.GotoTop_nonneg, Ho. }
    destruct (chord_completes (set_lastKey (completed m c) "g") eq_refl Hs1 Ho1)
      as (c1 & Hc1 & E1).
    rewrite E1. assert (c1 = c) by congruence. subst c1. rewrite Hfix.
    rewrite chord_starts by reflexivity.
    split; [reflexivity|]. split.
    + cbn. apply viewportFacts.GotoTop_offset, viewportFacts.SetContent_nonneg.
      unfold atTop. cbv zeta. destruct (onBlogIndex _); cbn;
        apply viewportFacts.GotoTop_nonneg, Ho.
    + intros Hb. unfold completed, atTop. cbv zeta.
      change (onBlogIndex (set_viewport m (scrolled.GotoTop (viewport m))))
        with (onBlogIndex m). rewrite Hb. reflexivity.
  - (* the first press starts the chord, the second completes it *)
    rewrite chord_starts by exact Hk.
    destruct (chord_completes (set_lastKey m "g") eq_refl Hs Ho) as (c & Hc & E). rewrite E.
    exists (completed (set_lastKey m "g") c). split; [reflexivity|].
    rewrite chord_starts by reflexivity.
    destruct (completed_again (set_lastKey m "g") c "g" Ho Hc) as (Hc' & Hfix).
    assert (Hs1 : 0 <= selectedBlogEntry (set_lastKey (completed (set_lastKey m "g") c) "g")).
    { unfold completed, atTop. cbv zeta. destruct (onBlogIndex _); cbn; lia. }
    assert (Ho1 : 0 <= viewport.YOffset
                        (viewport (set_lastKey (completed (set_lastKey m "g") c) "g"))).
    { cbn. apply viewportFacts.GotoTop_nonneg, viewportFacts.SetContent_nonneg.
      unfold atTop. cbv zeta. destruct (onBlogIndex _); cbn;
        apply viewportFacts.GotoTop_nonneg, Ho. }
    destruct (chord_completes (set_lastKey (completed (set_lastKey m "g") c) "g")
                eq_refl Hs1 Ho1)
      as (c1 & Hc1 & E1).
    rewrite E1. assert (c1 = c) by congruence. subst c1. rewrite Hfix.
    split; [reflexivity|]. split.
    + cbn. apply viewportFacts.GotoTop_offset, viewportFacts.SetContent_nonneg.
      unfold atTop. cbv zeta. destruct (onBlogIndex _); cbn;
        apply viewportFacts.GotoTop_nonneg, Ho.
    + intros Hb. unfold completed, atTop. cbv zeta.
      change (onBlogIndex (set_viewport (set_lastKey m "g")
                             (scrolled.GotoTop (viewport (set_lastKey m "g")))))
        with (onBlogIndex m). rewrite Hb. reflexivity.
Qed.

End GoToTop.

(** C7 on the two posts, from the last post of the Blog index. *)
Lemma C7_witness :
  let m := session (rd := Sample.plain) onBlog [named "down"] in
  selectedBlogEntry m = 1
  /\ exists m1,
       run (rd := Sample.plain) m [chordKey; chordKey] = Some m1
       /\ run (rd := Sample.plain) m1 [chordKey; chordKey] = Some m1
       /\ viewport.YOffset (viewport m1) = 0
       /\ (onBlogIndex m = true -> selectedBlogEntry m1 = 0).
Proof.
  intros m. split; [vm_compute; reflexivity|].
  apply (C7_go_to_top_twice (rd := Sample.plain) m).
  - vm_compute. discriminate.
  - vm_compute. discriminate.
Defined.

(* ------------------------------------------------------------------ *)
(** ** C9: the floor of the display width *)

Section Width.
Context {rd : Renderers}.

(** C9.  For every [int] width the display width is the width minus the
    padding of 8, replaced by the floor 40 when that falls below 40; it is
    never below the floor, so the renderer is asked to wrap at a column that
    is at least 36.  (For the eight smallest values of [int] the subtraction
    wraps around to a large positive width, which is above the floor too.) *)
Theorem C9_display_width_floor (content : string) (width : Z) :
  is_int width ->
  (int_min + 8 <= width -> width - 8 < 40 -> displayWidth width = 40)
  /\ (40 <= width - 8 -> displayWidth width = width - 8)
  /\ 40 <= displayWidth width <= int_max
  /\ renderMarkdownForDisplay content width
     = match NewTermRenderer (displayWidth width - 4) with
       | None => content
       | Some r =>
           match Render r content with
           | None => content
           | Some rendered => rendered
           end
       end
  /\ 36 <= displayWidth width - 4.
Proof.
  intros Hw. unfold is_int in Hw.
  assert (Hd : 40 <= displayWidth width <= int_max).
  { unfold displayWidth. cbv zeta. pose proof (wrap_range (width - 8)) as Hr.
    unfold int_sub. destruct (wrap (width - 8) <? 40) eqn:E; bools;
      unfold int_min, int_max in *; lia. }
  split; [|split; [|split; [exact Hd|split]]].
  - intros H1 H2. unfold displayWidth, int_sub. cbv zeta.
    rewrite wrap_small by (unfold int_min, int_max in *; lia).
    destruct (width - 8 <? 40) eqn:E; bools; lia.
  - intros H1. unfold displayWidth, int_sub. cbv zeta.
    rewrite wrap_small by (unfold int_min, int_max in *; lia).
    destruct (width - 8 <? 40) eqn:E; bools; lia.
  - unfold renderMarkdownForDisplay, renderMarkdown, int_sub.
    rewrite wrap_small by (unfold int_min, int_max in *; lia). reflexivity.
  - lia.
Qed.

End Width.

(** C9 at width 10: the display width is the floor 40 and glamour wraps at
    column 36. *)
Lemma C9_witness :
  is_int 10
  /\ displayWidth 10 = 40
  /\ 36 <= displayWidth 10 - 4
  /\ renderMarkdownForDisplay (rd := Sample.plain) "# Title" 10 = "# Title".
Proof.
  assert (H : is_int 10) by (unfold is_int, int_min, int_max; lia).
  destruct (C9_display_width_floor (rd := Sample.plain) "# Title" 10 H)
    as (Hfloor & _ & _ & _ & Hwrap).
  split; [exact H|]. split; [|split; [exact Hwrap|reflexivity]].
  apply Hfloor; unfold int_min; lia.
Defined.

(* ------------------------------------------------------------------ *)
(** ** C10: the detail view never indexes outside the post list *)

Section DetailContent.
Context {rd : Renderers} {env : Env}.

(** C10.  In every state of a session that shows a post, the selection is
    an index of the post list, [getBlogEntryContent] does not panic and
    returns the header and the rendered body of the selected post.  The
    guard in front of the access returns the placeholder whenever the
    selection is at or beyond the end of the list, in any state. *)
Theorem C10_detail_content_in_bounds (m : Model) :
  Reachable m -> viewingBlogEntry m = true ->
  (forall m', len (blogEntries m') <= selectedBlogEntry m' ->
     getBlogEntryContent m' = Some (contentStyle_Render "Blog entry not found"))
  /\ 0 <= selectedBlogEntry m < len (blogEntries m)
  /\ exists entry,
       index (blogEntries m) (selectedBlogEntry m) = Some entry
       /\ getBlogEntryContent m
          = Some (contentStyle_Render
                    (("📝 " ++ Title entry ++ strings.LF ++ "📅 " ++ Date entry
                      ++ strings.LF ++ strings.LF)
                     ++ renderMarkdownForDisplay (Content entry) (width m))).
Proof.
  intros HR Hv. pose proof (Reachable_Inv m HR) as [_ _ Hs _ _ _ _].
  split; [|split; [exact Hs|]].
  - intros m' H. unfold getBlogEntryContent.
    apply Z.leb_le in H. rewrite H. reflexivity.
  - destruct (index_some (blogEntries m) (selectedBlogEntry m) Hs) as [entry He].
    exists entry. split; [exact He|].
    unfold getBlogEntryContent.
    destruct (len (blogEntries m) <=? selectedBlogEntry m) eqn:E; bools; [lia|].
    rewrite He. reflexivity.
Qed.

End DetailContent.

(** C10 on the two posts, with B open. *)
Lemma C10_witness :
  let m := session (rd := Sample.plain) onBlog [named "down"; confirm] in
  viewingBlogEntry m = true
  /\ 0 <= selectedBlogEntry m < len (blogEntries m)
  /\ exists entry,
       index (blogEntries m) (selectedBlogEntry m) = Some entry
       /\ getBlogEntryContent (rd := Sample.plain) m
          = Some (contentStyle_Render (Renderers := Sample.plain)
                    (("📝 " ++ Title entry ++ strings.LF ++ "📅 " ++ Date entry
                      ++ strings.LF ++ strings.LF)
                     ++ renderMarkdownForDisplay (rd := Sample.plain) (Content entry) (width m))).
Proof.
  intros m.
  assert (HR : Reachable (rd := Sample.plain) (env := twoPosts) m).
  { eapply Reachable_run; [apply Reachable_new|].
    instantiate (1 := (toBlogIndex ++ [named "down"; confirm])%list).
    instantiate (1 := 24). instantiate (1 := 80). vm_compute. reflexivity. }
  assert (Hv : viewingBlogEntry m = true) by (vm_compute; reflexivity).
  destruct (C10_detail_content_in_bounds (rd := Sample.plain) (env := twoPosts) m HR Hv)
    as (_ & Hs & Hentry).
  split; [exact Hv|]. split; [exact Hs|exact Hentry].
Defined.

(* ------------------------------------------------------------------ *)
(** ** C3 and C8: the post listing *)


Module sortFacts.
Import sort.

Section Sorting.
Context {A : Type} (less : A -> A -> bool).




(** The elements that satisfy [keep], in their order, when no element that
    satisfies it is less than another one that does. *)
Section Ties.
Variable keep : A -> bool.
Hypothesis apart : forall a b, keep a = true -> keep b = true -> less a b = false.





End Ties.

Hypothesis asym : forall a b, less a b = true -> less b a = false.
Hypothesis negtrans :
  forall a b c, less a b = false -> less b c = false -> less a c = false.





End Sorting.



End sortFacts.

Section Listing.
Context {env : Env}.

(** The posts the loop collects are those of the entries that are regular
    files named [*.md], load without error and are published. *)
Lemma loadPosts_spec blogDir files : forall i post,
  In post (loadPosts blogDir i files) <->
  exists j file,
    nth_error files j = Some file
    /\ IsDir file = false
    /\ strings.HasSuffix (Name file) ".md" = true
    /\ readMarkdownFile (time_Now (i + j)%nat) (filepath_Join [blogDir; Name file]) = Some post
    /\ BlogPost.Published post = true.
Proof.
  induction files as [|file rest IH]; intros i post; cbn [loadPosts].
  - split; [intros []|]. intros (j & f & H & _). destruct j; discriminate.
  - assert (Hrest : In post (loadPosts blogDir (S i) rest) <->
              exists j f, nth_error (file :: rest) (S j) = Some f
                /\ IsDir f = false /\ strings.HasSuffix (Name f) ".md" = true
                /\ readMarkdownFile (time_Now (i + S j)%nat) (filepath_Join [blogDir; Name f])
                   = Some post
                /\ BlogPost.Published post = true).
    { rewrite IH. split; intros (j & f & H); exists j, f;
        [replace (i + S j)%nat with (S i + j)%nat by lia
        |replace (S i + j)%nat with (i + S j)%nat by lia]; exact H. }
    assert (Hsplit : (exists j f, nth_error (file :: rest) j = Some f
                /\ IsDir f = false /\ strings.HasSuffix (Name f) ".md" = true
                /\ readMarkdownFile (time_Now (i + j)%nat) (filepath_Join [blogDir; Name f])
                   = Some post
                /\ BlogPost.Published post = true)
              <-> ((IsDir file = false /\ strings.HasSuffix (Name file) ".md" = true
                    /\ readMarkdownFile (time_Now i) (filepath_Join [blogDir; Name file])
                       = Some post
                    /\ BlogPost.Published post = true)
                   \/ In post (loadPosts blogDir (S i) rest))).
    { rewrite Hrest. split.
      - intros (j & f & H). destruct j as [|j].
        + left. cbn in H. destruct H as (E & H). injection E as <-.
          rewrite Nat.add_0_r in H. exact H.
        + right. exists j, f. exact H.
      - intros [H|(j & f & H)].
        + exists O, file. rewrite Nat.add_0_r. split; [reflexivity|exact H].
        + exists (S j), f. exact H. }
    rewrite Hsplit. clear Hsplit Hrest IH.
    destruct (IsDir file) eqn:Ed.
    { split; [tauto|]. intros [(H & _)|H]; [discriminate|exact H]. }
    destruct (strings.HasSuffix (Name file) ".md") eqn:Es.
    2:{ split; [tauto|]. intros [(_ & H & _)|H]; [discriminate|exact H]. }
    destruct (readMarkdownFile (time_Now i) (filepath_Join [blogDir; Name file]))
      as [p|] eqn:Er.
    2:{ split; [tauto|]. intros [(_ & _ & H & _)|H]; [discriminate|exact H]. }
    destruct (BlogPost.Published p) eqn:Ep.
    + cbn [In]. split.
      * intros [<-|H]; [left; auto|right; exact H].
      * intros [(_ & _ & E & _)|H]; [left; congruence|right; exact H].
    + split; [tauto|]. intros [(_ & _ & E & Hp)|H]; [|exact H].
      injection E as <-. congruence.
Qed.





End Listing.



Section Fallback.
Context {rd : Renderers} {env : Env}.

(** C8, as the code has it.  The listing always returns, and never an empty
    list.  It is the fixed fallback of three posts when the working
    directory is unknown, when the blog directory does not exist or cannot
    be read, and when no published post is left after loading; a file that
    cannot be read or parsed is skipped and does not by itself bring the
    fallback: whenever a post is left, the listing is the posts left.  On
    the fallback posts, confirm on the Blog index opens the selected post,
    in a roomy viewport (a terminal of six rows or more under the hidden
    border) or with the index shown from its top. *)
Theorem C8_listing_never_empty :
  0 < len GetBlogPosts
  /\ len getFallbackBlogPosts = 3
  /\ (Getwd = None -> GetBlogPosts = getFallbackBlogPosts)
  /\ (forall pwd, Getwd = Some pwd -> Stat_IsNotExist (blogDirOf pwd) = true ->
        GetBlogPosts = getFallbackBlogPosts)
  /\ (forall pwd, Getwd = Some pwd -> ReadDir (blogDirOf pwd) = None ->
        GetBlogPosts = getFallbackBlogPosts)
  /\ (forall pwd files, Getwd = Some pwd -> ReadDir (blogDirOf pwd) = Some files ->
        SortContract sort_Slice -> loadPosts (blogDirOf pwd) O files = [] ->
        GetBlogPosts = getFallbackBlogPosts)
  /\ (forall pwd files, Getwd = Some pwd -> Stat_IsNotExist (blogDirOf pwd) = false ->
        ReadDir (blogDirOf pwd) = Some files ->
        sortedPosts (blogDirOf pwd) files <> [] ->
        GetBlogPosts = map toEntry (sortedPosts (blogDirOf pwd) files))
  /\ (forall m, blogEntries m = getFallbackBlogPosts ->
        currentPage m = BlogPage -> viewingBlogEntry m = false ->
        0 <= selectedBlogEntry m < 3 ->
        Roomy (viewport m) \/ viewport.YOffset (viewport m) <= 0 ->
        exists entry,
          index getFallbackBlogPosts (selectedBlogEntry m) = Some entry
          /\ Update m confirm
             = Some (set_viewport (set_viewingBlogEntry (set_lastKey m "") true)
                       (scrolled.GotoTop
                          (scrolled.SetContent (viewport m)
                             (contentStyle_Render
                                (("📝 " ++ Title entry ++ strings.LF ++ "📅 " ++ Date entry
                                  ++ strings.LF ++ strings.LF)
                                 ++ renderMarkdownForDisplay (Content entry) (width m))))),
                     tea.nil)).
Proof.
  split; [apply GetBlogPosts_nonempty|]. split; [reflexivity|].
  split; [|split; [|split; [|split; [|split]]]].
  - intros H. unfold GetBlogPosts. rewrite H. reflexivity.
  - intros pwd H1 H2. unfold GetBlogPosts. rewrite H1. fold (blogDirOf pwd). cbv zeta.
    rewrite H2. reflexivity.
  - intros pwd H1 H2. unfold GetBlogPosts. rewrite H1. fold (blogDirOf pwd). cbv zeta.
    rewrite H2. destruct (Stat_IsNotExist _); reflexivity.
  - intros pwd files H1 H2 Hsort H3. unfold GetBlogPosts. rewrite H1.
    fold (blogDirOf pwd). cbv zeta. rewrite H2.
    destruct (Stat_IsNotExist _); [reflexivity|].
    destruct (Hsort BlogPost.t newer (loadPosts (blogDirOf pwd) O files)) as [Hperm _].
    rewrite H3 in Hperm. apply Permutation_nil in Hperm.
    unfold sortedPosts. rewrite H3, Hperm. reflexivity.
  - intros pwd files H1 H2 H3 H4. unfold GetBlogPosts. rewrite H1.
    fold (blogDirOf pwd). cbv zeta. rewrite H2, H3.
    destruct (sortedPosts (blogDirOf pwd) files); [contradiction|reflexivity].
  - intros m He Hc Hv Hs HR.
    assert (Hs' : 0 <= selectedBlogEntry m < len (blogEntries m)) by (rewrite He; exact Hs).
    destruct (index_some _ _ Hs') as [entry Hentry].
    exists entry. split; [rewrite <- He; exact Hentry|].
    destruct (confirm_enters_detail m Hc Hv (proj1 Hs) HR) as (c & Hcontent & E).
    rewrite E. unfold getBlogEntryContent in Hcontent.
    destruct (len (blogEntries m) <=? selectedBlogEntry m) eqn:L; bools; [lia|].
    rewrite Hentry in Hcontent. cbn in Hcontent. injection Hcontent as <-. reflexivity.
Qed.

End Fallback.

(** C8 without a working directory: the listing is the fallback, and
    confirm on the Blog index of a session on it opens the first post. *)
Lemma C8_witness :
  let env := Sample.nowhere in
  let m := session (rd := Sample.plain)
             (NewModel (rd := Sample.plain) (env := env) 80 24)
             [tea.WindowSizeMsg 80 24; named "right"; named "right"] in
  GetBlogPosts = getFallbackBlogPosts
  /\ option_map (fun r => (viewingBlogEntry (fst r), selectedBlogEntry (fst r),
                           hd "" (viewport.lines (viewport (fst r)))))
                (Update (rd := Sample.plain) m confirm)
     = Some (true, 0, "📝 Building Terminal UIs with Bubble Tea").
Proof.
  intros env m.
  destruct (C8_listing_never_empty (rd := Sample.plain) (env := env))
    as (_ & _ & Hwd & _ & _ & _ & _ & Hconfirm).
  split; [apply Hwd; reflexivity|].
  destruct (Hconfirm m) as (entry & Hentry & E);
    [vm_compute; reflexivity | vm_compute; reflexivity | vm_compute; reflexivity
    | vm_compute; split; [discriminate|reflexivity]
    | left; unfold Roomy; vm_compute; repeat split; discriminate |].
  rewrite E. clear E. vm_compute in Hentry. injection Hentry as <-. vm_compute. reflexivity.
Defined.

(** C8 as stated fails: a parse failure does not bring the fallback.  With a
    file whose front matter is never closed beside a published post, the
    listing is that post. *)
Lemma C8_counterexample :
  let broken := "---" ++ strings.LF ++ "title: Broken" ++ strings.LF in
  let env := Sample.directory sort.insertionSort
               [("broken.md", broken);
                ("good.md", Sample.post "Good" "2024-01-01" "true")] in
  snd (parseFrontMatter broken) = Some "invalid frontmatter format"
  /\ readMarkdownFile 0 "/app/content/blog/broken.md" = None
  /\ map (fun e => (Title e, Date e)) GetBlogPosts = [("Good", "2024-01-01")]
  /\ map Title getFallbackBlogPosts
     = ["Building Terminal UIs with Bubble Tea"; "Modern Web Development Trends";
        "Go vs Rust: A Developer's Perspective"].
Proof. repeat split; vm_compute; reflexivity. Qed.

(* ================================================================== *)
(** * Further properties of the code *)

(* ------------------------------------------------------------------ *)
(** ** The session as a whole *)

Section SessionSafety.
Context {rd : Renderers} {env : Env}.

(** In a session, whatever messages arrive (keys, geometry reports, mouse
    wheel, anything else), every state [Update] returns has a page between
    Home and Contact, a selection that is an index of the post list, the
    detail view only on the Blog page and a viewport offset that is not
    negative.  When the viewport is roomy and every geometry report that
    follows keeps it so (terminals of six rows or more under the hidden
    border), [Update] never panics. *)
Theorem roomy_session_never_panics (m : Model) (msgs : list tea.Msg) :
  Reachable m ->
  (forall m', run m msgs = Some m' ->
     HomePage <= currentPage m' <= ContactPage
     /\ 0 <= selectedBlogEntry m' < len (blogEntries m')
     /\ (viewingBlogEntry m' = true -> currentPage m' = BlogPage)
     /\ 0 <= viewport.YOffset (viewport m'))
  /\ (Roomy (viewport m) -> Forall fits msgs ->
      exists m', run m msgs = Some m' /\ Roomy (viewport m')).
Proof.
  intros HR. pose proof (Reachable_Inv m HR) as HI. split.
  - intros m' E. destruct (run_Inv m msgs m' HI E) as [_ Hp Hs Hd Ho _ _]. auto.
  - intros Hroomy HF.
    destruct (run_returns m msgs HI Hroomy HF) as (m' & E & _ & HR').
    exists m'. auto.
Qed.

End SessionSafety.

Lemma roomy_session_never_panics_witness :
  exists m',
    run (rd := Sample.plain) onBlog
      [named "down"; confirm; tea.MouseWheelDown; tea.WindowSizeMsg 100 6; goToBottom;
       named "ctrl+u"; tea.MouseWheelUp; letter "b"; back; letter "x"; chordKey; chordKey;
       named "left"] = Some m'
    /\ Roomy (viewport m').
Proof.
  destruct (roomy_session_never_panics (rd := Sample.plain) (env := twoPosts) onBlog
              [named "down"; confirm; tea.MouseWheelDown; tea.WindowSizeMsg 100 6;
               goToBottom; named "ctrl+u"; tea.MouseWheelUp; letter "b"; back; letter "x";
               chordKey; chordKey; named "left"]) as (_ & H).
  - eapply Reachable_run; [apply (Reachable_new 80 24)|].
    instantiate (1 := toBlogIndex). vm_compute. reflexivity.
  - apply H.
    + unfold Roomy. vm_compute. repeat split; discriminate.
    + repeat (apply Forall_cons;
                [first [exact I | unfold fits, tallEnough; vm_compute; split; discriminate]|]).
      apply Forall_nil.
Defined.

Section Immutable.
Context {rd : Renderers}.

Lemma Update_keeps_posts_fields w h cp pg be sel v vp r lk msg m' cmd :
  Update (Build_Model w h cp pg be sel v vp r lk) msg = Some (m', cmd) ->
  blogEntries m' = be /\ pages m' = pg.
Proof.
  unfold Update, delegate, onBlogIndex, updateViewportContent, newViewport.
  destruct msg as [mw mh|k| | |]; fields; cases;
  intros E; try discriminate; injection E as <- <-; split; reflexivity.
Qed.

(** [Update] never changes the posts of a session, nor its pages: both are
    what [NewModel] loaded. *)
Theorem Update_keeps_posts (m : Model) (msg : tea.Msg) (m' : Model) (cmd : tea.Cmd) :
  Update m msg = Some (m', cmd) ->
  blogEntries m' = blogEntries m /\ pages m' = pages m.
Proof. destruct m. apply Update_keeps_posts_fields. Qed.

End Immutable.

Lemma Update_keeps_posts_witness :
  exists m', Update (rd := Sample.plain) onBlog goToBottom = Some (m', tea.nil)
    /\ blogEntries m' = blogEntries onBlog /\ pages m' = pages onBlog.
Proof.
  destruct (Update (rd := Sample.plain) onBlog goToBottom) as [[m' [|]]|] eqn:E;
    try (vm_compute in E; discriminate).
  exists m'. split; [reflexivity|].
  exact (Update_keeps_posts (rd := Sample.plain) onBlog goToBottom m' tea.nil E).
Defined.
(* ------------------------------------------------------------------ *)
(** ** Geometry reports *)

Section Geometry.
Context {rd : Renderers} {env : Env}.


End Geometry.

(* ------------------------------------------------------------------ *)
(** ** Page changes, inert keys and quit *)

Section PageChanges.
Context {rd : Renderers} {env : Env}.

Lemma reload_list_page m :
  viewingBlogEntry m = false ->
  Roomy (viewport m) \/ viewport.YOffset (viewport m) <= 0 ->
  exists c, getPageContent m = Some c
    /\ updateViewportContent m
       = Some (set_viewport m (scrolled.GotoTop (scrolled.SetContent (viewport m) c))).
Proof.
  intros Hv HR. destruct (getPageContent_list m Hv) as [c Hc]. exists c. split; [exact Hc|].
  apply updateViewportContent_eq; assumption.
Qed.

Lemma move_right_result m msg :
  In msg moveRight -> viewingBlogEntry m = false -> currentPage m < len (pages m) - 1 ->
  Roomy (viewport m) \/ viewport.YOffset (viewport m) <= 0 ->
  exists c,
    Update m msg
    = Some (set_viewport (set_lastKey (set_currentPage m (currentPage m + 1)) "")
              (scrolled.GotoTop (scrolled.SetContent (viewport m) c)), tea.nil).
Proof.
  intros Hin Hv Hc HR. apply Z.ltb_lt in Hc.
  destruct (reload_list_page (set_currentPage m (currentPage m + 1)) Hv HR) as (c & _ & E).
  exists c.
  destruct Hin as [<-|[<-|[]]]; unfold Update, named, letter; cbn;
    rewrite Hv, Hc; cbn; rewrite E; cbn;
    unfold delegate, viewport.Update, viewport.Matches; cbn; reflexivity.
Qed.

Lemma move_left_result m msg :
  In msg moveLeft -> viewingBlogEntry m = false -> 0 < currentPage m ->
  Roomy (viewport m) \/ viewport.YOffset (viewport m) <= 0 ->
  exists c,
    Update m msg
    = Some (set_viewport (set_lastKey (set_currentPage m (currentPage m - 1)) "")
              (scrolled.GotoTop (scrolled.SetContent (viewport m) c)), tea.nil).
Proof.
  intros Hin Hv Hc HR. apply Z.ltb_lt in Hc.
  destruct (reload_list_page (set_currentPage m (currentPage m - 1)) Hv HR) as (c & _ & E).
  exists c.
  destruct Hin as [<-|[<-|[]]]; unfold Update, named, letter; cbn;
    rewrite Hv, Hc; cbn; rewrite E; cbn;
    unfold delegate, viewport.Update, viewport.Matches; cbn; reflexivity.
Qed.

(** Move-right followed by move-left, from a page that is not the last one
    and outside the detail view, comes back to the same page with the same
    post selected: the selection on the Blog index survives a visit to
    another page.  Both steps reload the content, so the viewport ends at
    its top.  (The viewport is roomy, or the page is shown from its top.) *)
Theorem right_then_left_returns (m : Model) (r l : tea.Msg) :
  Reachable m -> In r moveRight -> In l moveLeft ->
  viewingBlogEntry m = false -> currentPage m < ContactPage ->
  Roomy (viewport m) \/ viewport.YOffset (viewport m) <= 0 ->
  exists m',
    run m [r; l] = Some m'
    /\ currentPage m' = currentPage m
    /\ selectedBlogEntry m' = selectedBlogEntry m
    /\ viewingBlogEntry m' = false
    /\ lastKey m' = ""
    /\ viewport.YOffset (viewport m') = 0.
Proof.
  intros HR Hr Hl Hv Hc Hroom. destruct (Reachable_Inv m HR) as [Hp Hpage _ _ Ho _ _].
  destruct (move_right_result m r Hr Hv) as (c1 & E1);
    [rewrite Hp, len_pageNames; unfold ContactPage in Hc; lia | exact Hroom |].
  assert (Ho1 : viewport.YOffset (scrolled.GotoTop (scrolled.SetContent (viewport m) c1)) = 0)
    by (apply viewportFacts.GotoTop_offset, viewportFacts.SetContent_nonneg, Ho).
  match type of E1 with _ = Some (?m1, _) =>
    destruct (move_left_result m1 l Hl) as (c2 & E2);
      [exact Hv | cbn; unfold HomePage in Hpage; lia | right; cbn; lia |] end.
  cbn [run]. rewrite E1, E2. eexists. split; [reflexivity|]. cbn.
  repeat split; try lia; try exact Hv.
  apply viewportFacts.GotoTop_offset, viewportFacts.SetContent_nonneg,
    viewportFacts.GotoTop_nonneg, viewportFacts.SetContent_nonneg, Ho.
Qed.

End PageChanges.

Lemma right_then_left_returns_witness :
  let m := session (rd := Sample.plain) onBlog [named "down"] in
  (currentPage m, selectedBlogEntry m) = (BlogPage, 1)
  /\ exists m',
       run (rd := Sample.plain) m [named "right"; letter "h"] = Some m'
       /\ currentPage m' = currentPage m
       /\ selectedBlogEntry m' = selectedBlogEntry m
       /\ viewingBlogEntry m' = false
       /\ lastKey m' = ""
       /\ viewport.YOffset (viewport m') = 0.
Proof.
  intros m. split; [vm_compute; reflexivity|].
  apply (right_then_left_returns (rd := Sample.plain) (env := twoPosts)).
  - eapply Reachable_run; [apply (Reachable_new 80 24)|].
    instantiate (1 := (toBlogIndex ++ [named "down"])%list). vm_compute. reflexivity.
  - left. reflexivity.
  - right. left. reflexivity.
  - vm_compute. reflexivity.
  - vm_compute. reflexivity.
  - left. unfold Roomy. vm_compute. repeat split; discriminate.
Defined.

Section InertKeys.
Context {rd : Renderers}.

(** Keys that have no effect where they are pressed.  While a post is
    open, move-left, move-right and confirm change nothing; outside the
    detail view back changes nothing; away from the Blog page confirm
    changes nothing.  "Nothing" is everything but a pending chord, which the
    key cancels. *)
Theorem keys_without_effect (m : Model) (msg : tea.Msg) :
  (viewingBlogEntry m = true /\ In msg (moveLeft ++ moveRight ++ [confirm]))
  \/ (viewingBlogEntry m = false /\ msg = back)
  \/ (currentPage m <> BlogPage /\ msg = confirm) ->
  Update m msg = Some (set_lastKey m "", tea.nil).
Proof.
  intros [[Hv Hin]|[[Hv ->]|[Hc ->]]].
  - unfold moveLeft, moveRight in Hin. cbn in Hin.
    repeat (destruct Hin as [<-|Hin]; [|]); try contradiction;
      unfold Update, delegate, onBlogIndex, confirm, named, letter; cbn;
      rewrite Hv; cbn; rewrite ?andb_false_r;
      unfold delegate, viewport.Update, viewport.Matches; cbn; destruct m; reflexivity.
  - unfold Update, back, named; cbn. rewrite Hv. reflexivity.
  - apply Z.eqb_neq in Hc.
    unfold Update, onBlogIndex, confirm, named; cbn. rewrite Hc. reflexivity.
Qed.

(** The quit keys end the session from every state, with the state as it
    was, and nothing else does: [Update] returns [tea.Quit] exactly on
    ["q"] and ["ctrl+c"]. *)
Theorem quit_only_on_quit_keys (m : Model) (msg : tea.Msg) :
  (forall k, tea.KeyString k = "q" \/ tea.KeyString k = "ctrl+c" ->
     Update m (tea.Key k) = Some (m, tea.QuitCmd))
  /\ (forall m', Update m msg = Some (m', tea.QuitCmd) ->
        m' = m
        /\ exists k, msg = tea.Key k
             /\ (tea.KeyString k = "q" \/ tea.KeyString k = "ctrl+c")).
Proof.
  split.
  - intros k [H|H]; unfold Update; cbv zeta; rewrite H; reflexivity.
  - intros m'.
    unfold Update, delegate, onBlogIndex, updateViewportContent, newViewport.
    destruct msg as [mw mh|k| | |]; cbv zeta;
    repeat match goal with
    | |- context [if ?c then _ else _] => destruct c eqn:?; cbn [bind]
    | |- context [getPageContent ?x] => destruct (getPageContent x); cbn [bind]
    | |- context [viewport.SetContent ?v ?c] => destruct (viewport.SetContent v c); cbn [bind]
    | |- context [viewport.GotoTop ?v] => destruct (viewport.GotoTop v); cbn [bind]
    | |- context [viewport.GotoBottom ?v] => destruct (viewport.GotoBottom v); cbn [bind]
    | |- context [viewport.LineUp ?v ?n] => destruct (viewport.LineUp v n); cbn [bind]
    | |- context [viewport.LineDown ?v ?n] => destruct (viewport.LineDown v n); cbn [bind]
    | |- context [viewport.Update ?v ?msg] => destruct (viewport.Update v msg); cbn [bind]
    end;
    intros E; try discriminate.
    injection E as <-. split; [reflexivity|]. exists k. split; [reflexivity|].
    apply orb_true_iff in Heqb. destruct Heqb as [H|H]; apply String.eqb_eq in H; auto.
Qed.

End InertKeys.

Lemma keys_without_effect_witness :
  let m := session (rd := Sample.plain) onBlog [confirm] in
  viewingBlogEntry m = true
  /\ Update (rd := Sample.plain) m (named "right") = Some (set_lastKey m "", tea.nil)
  /\ Update (rd := Sample.plain) onBlog back = Some (set_lastKey onBlog "", tea.nil).
Proof.
  intros m. split; [vm_compute; reflexivity|]. split.
  - apply (keys_without_effect (rd := Sample.plain)). left.
    split; [vm_compute; reflexivity|]. cbn. tauto.
  - apply (keys_without_effect (rd := Sample.plain)). right. left.
    split; [vm_compute; reflexivity|reflexivity].
Defined.

Lemma quit_only_on_quit_keys_witness :
  Update (rd := Sample.plain) onBlog (letter "q") = Some (onBlog, tea.QuitCmd)
  /\ run (rd := Sample.plain) onBlog [letter "q"; named "right"] = Some onBlog.
Proof.
  destruct (quit_only_on_quit_keys (rd := Sample.plain) onBlog (letter "q")) as [H _].
  assert (E : Update (rd := Sample.plain) onBlog (letter "q") = Some (onBlog, tea.QuitCmd))
    by (apply H; left; reflexivity).
  split; [exact E|]. cbn [run]. rewrite E. reflexivity.
Defined.

(* ------------------------------------------------------------------ *)
(** ** Scrolling *)

Module viewportScroll.
Import viewport.

Lemma LineDown_offset m n :
  0 <= YOffset m <= maxYOffset m -> 0 < len (lines m) ->
  0 < n -> maxYOffset m + n <= int_max ->
  YOffset (scrolled.LineDown m n) = Z.min (YOffset m + n) (maxYOffset m)
  /\ lines (scrolled.LineDown m n) = lines m.
Proof.
  intros Hy Hl Hn Hmax. unfold scrolled.LineDown, AtBottom.
  destruct (maxYOffset m <=? YOffset m) eqn:E1; bools; cbn [orb].
  - split; [lia|reflexivity].
  - destruct (n =? 0) eqn:E2; bools; [lia|].
    destruct (len (lines m) =? 0) eqn:E3; bools; [lia|]. cbn [orb].
    split; [|reflexivity].
    unfold SetYOffset. cbn [YOffset set_YOffset]. unfold int_add, clamp.
    rewrite wrap_small by (unfold int_min, int_max in *; lia).
    destruct (maxYOffset m <? 0) eqn:E4; bools; lia.
Qed.

Lemma LineUp_offset m n :
  0 <= YOffset m <= maxYOffset m -> 0 < len (lines m) ->
  0 < n <= int_max ->
  YOffset (scrolled.LineUp m n) = Z.max (YOffset m - n) 0
  /\ lines (scrolled.LineUp m n) = lines m.
Proof.
  intros Hy Hl Hn. pose proof (viewportFacts.maxYOffset_int m) as Hm.
  unfold scrolled.LineUp, AtTop.
  destruct (YOffset m <=? 0) eqn:E1; bools; cbn [orb].
  - split; [lia|reflexivity].
  - destruct (n =? 0) eqn:E2; bools; [lia|].
    destruct (len (lines m) =? 0) eqn:E3; bools; [lia|]. cbn [orb].
    split; [|reflexivity].
    unfold SetYOffset. cbn [YOffset set_YOffset]. unfold int_sub, clamp.
    rewrite wrap_small by (unfold int_min, int_max in *; lia).
    destruct (maxYOffset m <? 0) eqn:E4; bools; lia.
Qed.

End viewportScroll.

Section Scrolling.
Context {rd : Renderers}.


(** Away from the Blog index (on the other pages and while a post is open)
    move-up and move-down scroll the viewport by one line, stopping at the
    top and at the bottom; the selection, the page and the detail flag stay
    as they are.  Move-down returns in any geometry, move-up in a roomy
    viewport. *)
Theorem vertical_keys_scroll_off_index (m : Model) :
  onBlogIndex m = false ->
  0 <= viewport.YOffset (viewport m) <= viewport.maxYOffset (viewport m) ->
  0 < len (viewport.lines (viewport m)) ->
  viewport.maxYOffset (viewport m) + 1 <= int_max ->
  (Roomy (viewport m) ->
   forall msg, In msg moveUp ->
     exists vp,
       Update m msg = Some (set_viewport (set_lastKey m "") vp, tea.nil)
       /\ viewport.lines vp = viewport.lines (viewport m)
       /\ viewport.YOffset vp = Z.max (viewport.YOffset (viewport m) - 1) 0)
  /\ (forall msg, In msg moveDown ->
        exists vp,
          Update m msg = Some (set_viewport (set_lastKey m "") vp, tea.nil)
          /\ viewport.lines vp = viewport.lines (viewport m)
          /\ viewport.YOffset vp
             = Z.min (viewport.YOffset (viewport m) + 1) (viewport.maxYOffset (viewport m))).
Proof.
  intros Hi Hy Hl Hmax.
  destruct (viewportScroll.LineDown_offset (viewport m) 1 Hy Hl ltac:(lia) Hmax) as [Hdo Hdl].
  destruct (viewportScroll.LineUp_offset (viewport m) 1 Hy Hl ltac:(unfold int_max; lia))
    as [Huo Hul].
  assert (Hint : viewport.YOffset (viewport m) <= int_max)
    by (pose proof (viewportFacts.maxYOffset_int (viewport m)); lia).
  unfold onBlogIndex in Hi.
  split; [intros HR|]; intros msg Hin; (destruct Hin as [<-|[<-|[]]]);
    unfold Update, delegate, onBlogIndex, named, letter; cbn;
    destruct (viewingBlogEntry m), (currentPage m =? BlogPage); cbn in *; try discriminate;
    unfold viewport.Update, viewport.Matches; cbn;
    rewrite ?viewportFacts.LineDown_eq;
    rewrite ?(viewportFacts.LineUp_roomy (viewport m) 1) by
      (first [assumption | unfold int_max; lia]);
    cbn; eexists; (split; [reflexivity|]); split; assumption.
Qed.

End Scrolling.


Lemma vertical_keys_scroll_off_index_witness :
  let msgs := [tea.WindowSizeMsg 80 6; named "right"; named "right"; confirm;
               letter "j"; letter "j"] in
  let m := session (rd := Sample.plain)
             (NewModel (rd := Sample.plain) (env := twoPosts) 80 6) msgs in
  viewport.YOffset (viewport m) = 2
  /\ (exists vp,
        Update (rd := Sample.plain) m (letter "k")
        = Some (set_viewport (set_lastKey m "") vp, tea.nil)
        /\ viewport.lines vp = viewport.lines (viewport m)
        /\ viewport.YOffset vp = Z.max (viewport.YOffset (viewport m) - 1) 0)
  /\ (exists vp,
        Update (rd := Sample.plain) m (letter "j")
        = Some (set_viewport (set_lastKey m "") vp, tea.nil)
        /\ viewport.lines vp = viewport.lines (viewport m)
        /\ viewport.YOffset vp
           = Z.min (viewport.YOffset (viewport m) + 1) (viewport.maxYOffset (viewport m))).
Proof.
  intros msgs m. split; [vm_compute; reflexivity|].
  destruct (vertical_keys_scroll_off_index (rd := Sample.plain) m) as (Hup & Hdown).
  - vm_compute. reflexivity.
  - vm_compute. split; discriminate.
  - vm_compute. reflexivity.
  - vm_compute. discriminate.
  - split.
    + apply Hup; [unfold Roomy; vm_compute; repeat split; discriminate|].
      right. left. reflexivity.
    + apply Hdown. right. left. reflexivity.
Defined.
(* ------------------------------------------------------------------ *)
(** ** The viewport shows the current page *)

Module viewportLines.
Import viewport.

Lemma SetContent_contentLines m s : lines (scrolled.SetContent m s) = contentLines s.
Proof.
  unfold scrolled.SetContent, scrolled.GotoBottom, contentLines. cbv zeta.
  match goal with |- context [if ?c then _ else _] => destruct c end; reflexivity.
Qed.

Lemma GotoTop_lines m : lines (scrolled.GotoTop m) = lines m.
Proof. unfold scrolled.GotoTop. destruct (AtTop m); reflexivity. Qed.

Lemma GotoBottom_lines m : lines (scrolled.GotoBottom m) = lines m.
Proof. reflexivity. Qed.

Lemma LineDown_lines m n : lines (scrolled.LineDown m n) = lines m.
Proof.
  unfold scrolled.LineDown.
  match goal with |- context [if ?c then _ else _] => destruct c end; reflexivity.
Qed.

Lemma LineUp_lines m n : lines (scrolled.LineUp m n) = lines m.
Proof.
  unfold scrolled.LineUp.
  match goal with |- context [if ?c then _ else _] => destruct c end; reflexivity.
Qed.

Lemma Update_lines m msg : lines (scrolled.Update m msg) = lines m.
Proof.
  unfold scrolled.Update, scrolled.ViewDown, scrolled.ViewUp,
    scrolled.HalfViewDown, scrolled.HalfViewUp.
  destruct msg; auto using LineDown_lines, LineUp_lines.
  repeat match goal with |- context [if ?c then _ else _] => destruct c end;
    auto using LineDown_lines, LineUp_lines.
Qed.

End viewportLines.

Section ContentInSync.
Context {rd : Renderers}.

Ltac sync_lines :=
  rewrite ?viewportLines.Update_lines, ?viewportLines.LineUp_lines,
    ?viewportLines.LineDown_lines, ?viewportLines.GotoTop_lines,
    ?viewportLines.GotoBottom_lines, ?viewportLines.SetContent_contentLines.

Lemma Update_InSync m msg m' cmd :
  Inv m -> (ready m = true -> InSync m) ->
  Update m msg = Some (m', cmd) ->
  ready m' = true -> InSync m'.
Proof.
  intros [Hp Hc Hs Hd Ho Hi Hf] Hsync.
  unfold Update, onBlogIndex, newViewport.
  destruct msg as [w h|k| | |]; cbv zeta.
  - repeat (first [branch | returned]; cbn);
      intros Eq; try discriminate; injection Eq as <- <-; intros _;
      eexists; (split; [eassumption|]); cbn; sync_lines; reflexivity.
  - repeat (first [branch | returned]; cbn);
      intros Eq; try discriminate; injection Eq as <- <-; cbn; intros Hr;
      try (eexists; (split; [eassumption|]); cbn; sync_lines; reflexivity);
      destruct (Hsync Hr) as (c0 & Hc0 & Hl0);
      exists c0; (split; [exact Hc0|]); cbn; sync_lines; exact Hl0.
  - returned; cbn; intros Eq; try discriminate; injection Eq as <- <-; cbn; intros Hr.
    destruct (Hsync Hr) as (c0 & Hc0 & Hl0).
    exists c0. split; [exact Hc0|]. cbn. sync_lines. exact Hl0.
  - returned; cbn; intros Eq; try discriminate; injection Eq as <- <-; cbn; intros Hr.
    destruct (Hsync Hr) as (c0 & Hc0 & Hl0).
    exists c0. split; [exact Hc0|]. cbn. sync_lines. exact Hl0.
  - returned; cbn; intros Eq; try discriminate; injection Eq as <- <-; cbn; intros Hr.
    destruct (Hsync Hr) as (c0 & Hc0 & Hl0).
    exists c0. split; [exact Hc0|]. cbn. sync_lines. exact Hl0.
Qed.

Context {env : Env}.

Lemma Reachable_InSync m : Reachable m -> ready m = true -> InSync m.
Proof.
  induction 1 as [w h|m msg m' cmd HR IH E].
  - cbn. discriminate.
  - eapply Update_InSync; eauto. apply Reachable_Inv, HR.
Qed.

(** Once the geometry is known, the viewport never shows stale content: in
    every state of a ready session its lines are the lines of the content of
    the current page, for the current selection, detail flag and width. *)
Theorem viewport_shows_current_page (m : Model) :
  Reachable m -> ready m = true ->
  exists c,
    getPageContent m = Some c
    /\ viewport.lines (viewport m) = contentLines c.
Proof. exact (Reachable_InSync m). Qed.

End ContentInSync.

Lemma viewport_shows_current_page_witness :
  let m := session (rd := Sample.plain) onBlog [named "down"; confirm; named "down"] in
  exists c,
    getPageContent (rd := Sample.plain) m = Some c
    /\ viewport.lines (viewport m) = contentLines c.
Proof.
  intros m.
  apply (viewport_shows_current_page (rd := Sample.plain) (env := twoPosts)).
  - eapply Reachable_run; [apply (Reachable_new 80 24)|].
    instantiate (1 := (toBlogIndex ++ [named "down"; confirm; named "down"])%list).
    vm_compute. reflexivity.
  - vm_compute. reflexivity.
Defined.

(* ------------------------------------------------------------------ *)
(** ** Go-to-bottom *)

Section GoToBottom.
Context {rd : Renderers} {env : Env}.

(** Go-to-bottom on the Blog index selects the last post; anywhere else it
    leaves the selection alone.  It never changes the page or the detail
    flag, and the viewport it leaves holds the content for the new
    selection.  It returns when the viewport is roomy (a terminal of six
    rows or more under the hidden border). *)
Theorem go_to_bottom_selects_last (m : Model) :
  Reachable m ->
  (forall m' cmd, Update m goToBottom = Some (m', cmd) ->
     cmd = tea.nil
     /\ currentPage m' = currentPage m
     /\ viewingBlogEntry m' = viewingBlogEntry m
     /\ selectedBlogEntry m'
        = (if onBlogIndex m then len (blogEntries m) - 1 else selectedBlogEntry m)
     /\ blogEntries m' = blogEntries m
     /\ exists c, getPageContent m' = Some c
                  /\ viewport.lines (viewport m') = contentLines c)
  /\ (Roomy (viewport m) -> exists m', Update m goToBottom = Some (m', tea.nil)).
Proof.
  intros HR. destruct (Reachable_Inv m HR) as [Hp Hc Hs Hd Ho Hi Hf].
  split.
  - intros m' cmd.
    match goal with |- _ -> ?G => set (Claim := G) end.
    unfold Update, goToBottom, letter. cbn.
    destruct (onBlogIndex m) eqn:Hon; repeat (returned; cbn);
      intros Eq; try discriminate; injection Eq as Em Ec; subst m' cmd;
      unfold Claim; cbn;
      repeat (split; [reflexivity|]);
      match goal with
      | H : getPageContent _ = Some ?c |- _ => exists c; split; [exact H|]
      end;
      apply viewportLines.SetContent_contentLines.
  - intros Hroom. unfold Update, goToBottom, letter. cbn.
    destruct (onBlogIndex m) eqn:Hon; repeat (refresh; cbn); eexists; reflexivity.
Qed.

(** In a viewport lower than its frame (a terminal of five rows or fewer
    under the hidden border) go-to-bottom panics as soon as the viewport
    holds content, on every page: the library sets the offset beyond the
    last line and slices the lines from there.  (Height and frame are
    [int]s and the sum of the lines and the frame fits an [int].) *)
Theorem go_to_bottom_panics_below_frame (m : Model) :
  0 < len (viewport.lines (viewport m)) ->
  viewport.Height (viewport m) < viewport.StyleFrame (viewport m) ->
  0 <= viewport.StyleFrame (viewport m) ->
  int_min <= viewport.Height (viewport m) <= int_max ->
  len (viewport.lines (viewport m)) - viewport.Height (viewport m)
    + viewport.StyleFrame (viewport m) <= int_max ->
  Update m goToBottom = None.
Proof.
  intros Hl Hlow Hf Hh Hfit.
  pose proof (viewportFacts.GotoBottom_none (viewport m) Hl Hlow Hf Hh Hfit) as E.
  unfold Update, goToBottom, letter. cbn.
  destruct (onBlogIndex m); cbn; rewrite E; reflexivity.
Qed.

End GoToBottom.

Lemma go_to_bottom_selects_last_witness :
  exists m',
    Update (rd := Sample.plain) onBlog goToBottom = Some (m', tea.nil)
    /\ currentPage m' = currentPage onBlog
    /\ viewingBlogEntry m' = viewingBlogEntry onBlog
    /\ selectedBlogEntry m' = len (blogEntries onBlog) - 1
    /\ blogEntries m' = blogEntries onBlog
    /\ exists c, getPageContent (rd := Sample.plain) m' = Some c
                 /\ viewport.lines (viewport m') = contentLines c.
Proof.
  destruct (go_to_bottom_selects_last (rd := Sample.plain) (env := twoPosts) onBlog)
    as (Hpart & Htot).
  - eapply Reachable_run; [apply (Reachable_new 80 24)|].
    instantiate (1 := toBlogIndex). vm_compute. reflexivity.
  - destruct Htot as (m' & E);
      [unfold Roomy; vm_compute; repeat split; discriminate|].
    exists m'. split; [exact E|].
    destruct (Hpart m' tea.nil E) as (_ & H1 & H2 & H3 & H4 & H5).
    assert (Hon : onBlogIndex onBlog = true) by (vm_compute; reflexivity).
    rewrite Hon in H3.
    split; [exact H1|]. split; [exact H2|]. split; [exact H3|]. split; [exact H4|exact H5].
Defined.

Lemma go_to_bottom_panics_below_frame_witness :
  let m0 := NewModel (rd := Sample.plain) (env := twoPosts) 80 5 in
  exists m,
    run (rd := Sample.plain) m0 [tea.WindowSizeMsg 80 5; named "right"] = Some m
    /\ (viewport.Height (viewport m), viewport.StyleFrame (viewport m)) = (1, 2)
    /\ Update (rd := Sample.plain) m goToBottom = None.
Proof.
  intros m0.
  exists (session (rd := Sample.plain) m0 [tea.WindowSizeMsg 80 5; named "right"]).
  split; [vm_compute; reflexivity|].
  split; [vm_compute; reflexivity|].
  apply (go_to_bottom_panics_below_frame (rd := Sample.plain)).
  - vm_compute. reflexivity.
  - vm_compute. reflexivity.
  - vm_compute. discriminate.
  - vm_compute. split; discriminate.
  - vm_compute. discriminate.
Defined.
(* ------------------------------------------------------------------ *)
(** ** What is highlighted *)

Lemma mapi_from_plain {A B} (f g : A -> B) (k : Z) (l : list A) : forall i,
  k < i \/ i + len l <= k ->
  mapi_from i (fun j x => if j =? k then f x else g x) l = map g l.
Proof.
  induction l as [|x rest IH]; intros i H; cbn [mapi_from map]; [reflexivity|].
  unfold len in H. cbn [List.length] in H.
  destruct (i =? k) eqn:E; bools; [lia|].
  f_equal. apply IH. unfold len. lia.
Qed.

Lemma mapi_from_highlight {A B} (f g : A -> B) (k : Z) (l : list A) :
  forall (n : nat) (i : Z) (x : A),
  k = i + Z.of_nat n -> nth_error l n = Some x ->
  mapi_from i (fun j y => if j =? k then f y else g y) l
  = (map g (firstn n l) ++ f x :: map g (skipn (S n) l))%list.
Proof.
  induction l as [|y rest IH]; intros n i x Hk H; [destruct n; discriminate|].
  destruct n as [|n]; cbn [mapi_from nth_error firstn skipn map app] in *.
  - injection H as ->. replace (i =? k) with true by (symmetry; apply Z.eqb_eq; lia).
    f_equal. apply mapi_from_plain. left. lia.
  - destruct (i =? k) eqn:E; bools; [lia|]. f_equal.
    apply IH; [lia|exact H].
Qed.

Lemma index_nth {A} (l : list A) (i : Z) (x : A) :
  index l i = Some x -> 0 <= i /\ nth_error l (Z.to_nat i) = Some x.
Proof. unfold index. destruct (i <? 0) eqn:E; bools; [discriminate|]. auto. Qed.

Section Highlight.
Context {rd : Renderers}.

(** The navigation bar shows every page name in order and highlights
    exactly one of them, the current page; with a page number outside the
    list none is highlighted. *)
Theorem navbar_highlights_current_page (st : Styles) (m : Model) :
  (forall name, index (pages m) (currentPage m) = Some name ->
     let n := Z.to_nat (currentPage m) in
     renderNavbar st m
     = navbarStyle_Render (navbarWidth st)
         ("📍 Arpan's Portfolio  |  "
          ++ strings.Join
               (map inactiveNavStyle_Render (firstn n (pages m))
                ++ activeNavStyle_Render name
                   :: map inactiveNavStyle_Render (skipn (S n) (pages m)))%list
               " "))
  /\ (currentPage m < 0 \/ len (pages m) <= currentPage m ->
      renderNavbar st m
      = navbarStyle_Render (navbarWidth st)
          ("📍 Arpan's Portfolio  |  "
           ++ strings.Join (map inactiveNavStyle_Render (pages m)) " ")).
Proof.
  split.
  - intros name H n. apply index_nth in H. destruct H as [H0 H].
    unfold renderNavbar, mapi. cbv zeta.
    rewrite (mapi_from_highlight activeNavStyle_Render inactiveNavStyle_Render
               (currentPage m) (pages m) n 0 name) by (unfold n; lia || exact H).
    reflexivity.
  - intros H. unfold renderNavbar, mapi. cbv zeta.
    rewrite mapi_from_plain by lia. reflexivity.
Qed.

(** The Blog index shows one card per post, in the order of the listing,
    and exactly the selected post's card is in the selected style. *)
Theorem blog_index_highlights_selection (m : Model) (entry : BlogEntry) :
  index (blogEntries m) (selectedBlogEntry m) = Some entry ->
  let n := Z.to_nat (selectedBlogEntry m) in
  getBlogContent m
  = contentStyle_Render
      ("📚 Blog Posts" ++ strings.LF ++ strings.LF
       ++ "Use ↑/↓ to navigate posts, Enter to read, scroll within posts" ++ strings.LF)
    ++ strings.LF
    ++ strings.Join
         (map (fun e => cardStyle_Render (cardContent e)) (firstn n (blogEntries m))
          ++ selectedCardStyle_Render (cardContent entry)
             :: map (fun e => cardStyle_Render (cardContent e))
                  (skipn (S n) (blogEntries m)))%list
         strings.LF.
Proof.
  intros H n. apply index_nth in H. destruct H as [H0 H].
  unfold getBlogContent, mapi. cbv zeta.
  rewrite (mapi_from_highlight (fun e => selectedCardStyle_Render (cardContent e))
             (fun e => cardStyle_Render (cardContent e))
             (selectedBlogEntry m) (blogEntries m) n 0 entry) by (unfold n; lia || exact H).
  reflexivity.
Qed.

(** When glamour cannot render a text (the renderer is not created, or its
    [Render] returns an error) the markdown itself is displayed: no page
    content is lost. *)
Theorem raw_markdown_when_renderer_fails (content : string) (width : Z) :
  (forall r, NewTermRenderer (displayWidth width - 4) = Some r -> Render r content = None) ->
  renderMarkdownForDisplay content width = content.
Proof.
  intros H. unfold renderMarkdownForDisplay, renderMarkdown.
  assert (Hd : 40 <= displayWidth width <= int_max).
  { unfold displayWidth. cbv zeta. pose proof (wrap_range (width - 8)) as Hr.
    unfold int_sub. destruct (wrap (width - 8) <? 40) eqn:E; bools;
      unfold int_min, int_max in *; lia. }
  unfold int_sub. rewrite wrap_small by (unfold int_min, int_max in *; lia).
  destruct (NewTermRenderer (displayWidth width - 4)) as [r|] eqn:E; [|reflexivity].
  rewrite (H r eq_refl). reflexivity.
Qed.

End Highlight.

Lemma navbar_highlights_current_page_witness :
  renderNavbar (rd := Sample.plain) initialStyles onBlog
  = "📍 Arpan's Portfolio  |  Home Projects [Blog] About Contact".
Proof.
  destruct (navbar_highlights_current_page (rd := Sample.plain) initialStyles onBlog) as [H _].
  rewrite (H "Blog"); [|vm_compute; reflexivity]. vm_compute. reflexivity.
Defined.

Lemma blog_index_highlights_selection_witness :
  let m := session (rd := Sample.plain) onBlog [named "down"] in
  getBlogContent (rd := Sample.plain) m
  = "📚 Blog Posts" ++ strings.LF ++ strings.LF
    ++ "Use ↑/↓ to navigate posts, Enter to read, scroll within posts" ++ strings.LF
    ++ strings.LF
    ++ "📝 A" ++ strings.LF ++ strings.LF ++ "About A" ++ strings.LF ++ strings.LF
    ++ "📅 2024-02-01" ++ strings.LF
    ++ "> 📝 B" ++ strings.LF ++ strings.LF ++ "About B" ++ strings.LF ++ strings.LF
    ++ "📅 2024-01-01".
Proof.
  intros m.
  rewrite (blog_index_highlights_selection (rd := Sample.plain) m
             {| Title := "B"; Summary := "About B"; Content := strings.LF ++ "# B" ++ strings.LF;
                Date := "2024-01-01" |}); [|vm_compute; reflexivity].
  vm_compute. reflexivity.
Defined.

Lemma raw_markdown_when_renderer_fails_witness :
  renderMarkdownForDisplay (rd := noGlamour) "# Title" 80 = "# Title".
Proof.
  apply (raw_markdown_when_renderer_fails (rd := noGlamour)). intros r H. reflexivity.
Defined.

(* ------------------------------------------------------------------ *)
(** ** Front matter *)

Module stringsFacts.
Import strings.

Lemma append_empty s : s ++ "" = s.
Proof. induction s as [|c s IH]; cbn; [reflexivity|]. rewrite IH. reflexivity. Qed.

Lemma append_assoc a b c : (a ++ b) ++ c = a ++ b ++ c.
Proof. induction a as [|x a IH]; cbn; [reflexivity|]. rewrite IH. reflexivity. Qed.

Lemma dropPrefix_app p s : dropPrefix p (p ++ s) = Some s.
Proof.
  induction p as [|c p IH]; cbn; [reflexivity|]. rewrite Ascii.eqb_refl. exact IH.
Qed.

Lemma HasPrefix_app p s : HasPrefix (p ++ s) p = true.
Proof. unfold HasPrefix. rewrite dropPrefix_app. reflexivity. Qed.

Lemma splitFrom_skip sep limit t s :
  splitFrom sep limit (String.length t) (t ++ s) = splitFrom sep limit O s.
Proof. induction t as [|c t IH]; cbn [String.length append splitFrom]; auto. Qed.

Lemma splitFrom_spent sep s : splitFrom sep (Some O) O s = (s, []).
Proof.
  induction s as [|c s IH]; cbn [splitFrom]; [reflexivity|]. rewrite IH. reflexivity.
Qed.

Lemma splitFrom_free sep limit s :
  cutFree sep s "" = true -> splitFrom sep limit O s = (s, []).
Proof.
  induction s as [|c s IH]; cbn [splitFrom cutFree]; [reflexivity|].
  rewrite append_empty. intros H. apply andb_true_iff in H. destruct H as [H1 H2].
  apply negb_true_iff in H1. rewrite H1.
  replace (match limit with Some O => false | _ => false end) with false
    by (destruct limit as [[|]|]; reflexivity).
  rewrite (IH H2). reflexivity.
Qed.

(** The first cut falls where the separator first starts. *)
Lemma splitFrom_first sep n h rest :
  sep <> "" -> cutFree sep h (sep ++ rest) = true ->
  splitFrom sep (Some (S n)) O (h ++ sep ++ rest)
  = (h, let '(p, ps) := splitFrom sep (Some n) O rest in p :: ps).
Proof.
  intros Hsep. induction h as [|c h IH]; cbn [append cutFree]; intros H.
  - destruct sep as [|c sep']; [congruence|].
    change ((String c sep') ++ rest) with (String c (sep' ++ rest)).
    cbn [splitFrom].
    change (String c (sep' ++ rest)) with ((String c sep') ++ rest).
    rewrite HasPrefix_app. cbn [String.length Nat.pred].
    rewrite splitFrom_skip. destruct (splitFrom (String c sep') (Some n) O rest). reflexivity.
  - apply andb_true_iff in H. destruct H as [H1 H2]. apply negb_true_iff in H1.
    cbn [splitFrom]. rewrite H1. rewrite (IH H2). reflexivity.
Qed.

End stringsFacts.

Section FrontMatterShape.

(** A document whose header is closed: the front matter is read from the
    header lines, and the body is everything after the second delimiter,
    untouched, further [---] lines included. *)
Theorem parseFrontMatter_splits_at_second_delimiter (header body : string) :
  cutFree delimiter header (delimiter ++ body) = true ->
  parseFrontMatter (delimiter ++ header ++ delimiter ++ body)
  = (fold_left parseLine (strings.Split header strings.LF) FrontMatter.zero, body, None).
Proof.
  intros H. unfold parseFrontMatter. cbv zeta. fold delimiter.
  rewrite stringsFacts.HasPrefix_app. cbn [negb].
  unfold strings.SplitN.
  change (3 =? 0) with false. change (3 <? 0) with false. cbv iota.
  change (Z.to_nat (3 - 1)) with 2%nat.
  change (delimiter ++ header ++ delimiter ++ body)
    with ("" ++ delimiter ++ header ++ delimiter ++ body).
  rewrite (stringsFacts.splitFrom_first delimiter 1 "" (header ++ delimiter ++ body))
    by (reflexivity || discriminate).
  rewrite (stringsFacts.splitFrom_first delimiter 0 header body)
    by (exact H || discriminate).
  rewrite stringsFacts.splitFrom_spent. reflexivity.
Qed.

(** Documents without a complete header.  A text that does not begin with
    the delimiter line is all body, with an empty front matter and no error.
    A text that begins with it and never closes the header is an error. *)
Theorem parseFrontMatter_without_header (content : string) :
  (strings.HasPrefix content delimiter = false ->
     parseFrontMatter content = (FrontMatter.zero, content, None))
  /\ (forall rest, content = delimiter ++ rest -> cutFree delimiter rest "" = true ->
        parseFrontMatter content
        = (FrontMatter.zero, content, Some "invalid frontmatter format")).
Proof.
  split.
  - intros H. unfold parseFrontMatter. cbv zeta. fold delimiter. rewrite H. reflexivity.
  - intros rest -> H. unfold parseFrontMatter. cbv zeta. fold delimiter.
    rewrite stringsFacts.HasPrefix_app. cbn [negb].
    unfold strings.SplitN.
    change (3 =? 0) with false. change (3 <? 0) with false. cbv iota.
    change (Z.to_nat (3 - 1)) with 2%nat.
    change (delimiter ++ rest) with ("" ++ delimiter ++ rest) at 1.
    rewrite (stringsFacts.splitFrom_first delimiter 1 "" rest)
      by (reflexivity || discriminate).
    rewrite (stringsFacts.splitFrom_free delimiter (Some 1%nat) rest H). reflexivity.
Qed.

End FrontMatterShape.

Lemma parseFrontMatter_splits_at_second_delimiter_witness :
  let header := "title: Rules" ++ strings.LF ++ "published: true" ++ strings.LF in
  let body := "Above" ++ strings.LF ++ delimiter ++ "Below" ++ strings.LF in
  let r := parseFrontMatter (delimiter ++ header ++ delimiter ++ body) in
  (FrontMatter.Title (fst (fst r)), FrontMatter.Published (fst (fst r)), snd (fst r), snd r)
  = ("Rules", true, body, None).
Proof.
  intros header body r. unfold r.
  rewrite (parseFrontMatter_splits_at_second_delimiter header body);
    vm_compute; reflexivity.
Defined.

Lemma parseFrontMatter_without_header_witness :
  parseFrontMatter "# Blog Posts"
  = (FrontMatter.zero, "# Blog Posts", None)
  /\ parseFrontMatter (delimiter ++ "title: x")
     = (FrontMatter.zero, delimiter ++ "title: x", Some "invalid frontmatter format").
Proof.
  split.
  - apply (proj1 (parseFrontMatter_without_header "# Blog Posts")). vm_compute. reflexivity.
  - apply (proj2 (parseFrontMatter_without_header (delimiter ++ "title: x")) "title: x");
      [reflexivity | vm_compute; reflexivity].
Defined.

(* ------------------------------------------------------------------ *)
(** ** Header lines *)

Module trimFacts.
Import strings.

Lemma rev_onto_app s acc : rev_onto s acc = rev s ++ acc.
Proof.
  unfold rev. revert acc. induction s as [|c s IH]; intros acc; cbn [rev_onto]; [reflexivity|].
  rewrite IH, (IH (String c "")), stringsFacts.append_assoc. reflexivity.
Qed.

Lemma rev_cons c s : rev (String c s) = rev s ++ String c "".
Proof. unfold rev at 1. cbn [rev_onto]. apply rev_onto_app. Qed.

Lemma rev_app a b : rev (a ++ b) = rev b ++ rev a.
Proof.
  induction a as [|c a IH]; cbn [append].
  - change (rev "") with "". rewrite stringsFacts.append_empty. reflexivity.
  - rewrite !rev_cons, IH, stringsFacts.append_assoc. reflexivity.
Qed.

Lemma rev_involutive s : rev (rev s) = s.
Proof.
  induction s as [|c s IH]; [reflexivity|].
  rewrite rev_cons, rev_app, IH. reflexivity.
Qed.

Lemma trimLeftPats_keep pats s : matchLen pats s = O -> trimLeftPats pats O s = s.
Proof. destruct s as [|c s]; cbn [trimLeftPats]; [reflexivity|]. intros ->. reflexivity. Qed.

Lemma trimPats_keep pats s :
  matchLen pats s = O -> matchLen (map rev pats) (rev s) = O -> trimPats pats s = s.
Proof.
  intros H1 H2. unfold trimPats.
  rewrite (trimLeftPats_keep pats s H1), (trimLeftPats_keep _ _ H2). apply rev_involutive.
Qed.

Lemma matchLen_quote s : matchLen [quoteMark] s = if HasPrefix s quoteMark then 1%nat else O.
Proof. reflexivity. Qed.

(** A quoted text behind one blank: [TrimSpace] takes the blank away. *)
Lemma TrimSpace_quoted v :
  TrimSpace (String " " (String quote (v ++ quoteMark))) = String quote (v ++ quoteMark).
Proof.
  unfold TrimSpace, trimPats.
  change (trimLeftPats spaces O (String " " (String quote (v ++ quoteMark))))
    with (String quote (v ++ quoteMark)).
  assert (E : rev (String quote (v ++ quoteMark)) = String quote (rev v ++ quoteMark)).
  { rewrite rev_cons, rev_app. reflexivity. }
  rewrite E.
  change (trimLeftPats (map rev spaces) O (String quote (rev v ++ quoteMark)))
    with (String quote (rev v ++ quoteMark)).
  rewrite rev_cons, rev_app, rev_involutive. reflexivity.
Qed.

(** The quotes around a text that neither starts nor ends with one. *)
Lemma Trim_quoted v :
  HasPrefix v quoteMark = false -> HasSuffix v quoteMark = false ->
  Trim (String quote (v ++ quoteMark)) quoteMark = v.
Proof.
  intros Hp Hs. unfold Trim, trimPats.
  change (map (fun c => String c "") (list_ascii_of_string quoteMark)) with [quoteMark].
  change (map rev [quoteMark]) with [quoteMark].
  assert (Hs' : HasPrefix (rev v) quoteMark = false) by exact Hs.
  destruct v as [|c v].
  - reflexivity.
  - assert (E1 : trimLeftPats [quoteMark] O (String quote (String c v ++ quoteMark)) = String c v ++ quoteMark).
    { cbn [trimLeftPats]. rewrite matchLen_quote.
      change (HasPrefix (String quote (String c v ++ quoteMark)) quoteMark) with true. cbv iota.
      apply trimLeftPats_keep. rewrite matchLen_quote.
      unfold HasPrefix in Hp |- *. unfold quoteMark in Hp |- *. cbn [dropPrefix append] in Hp |- *.
      destruct (Ascii.eqb quote c); [discriminate Hp|reflexivity]. }
    rewrite E1, rev_app. change (rev quoteMark) with quoteMark.
    assert (E2 : trimLeftPats [quoteMark] O (quoteMark ++ rev (String c v)) = rev (String c v)).
    { change (quoteMark ++ rev (String c v)) with (String quote (rev (String c v))).
      cbn [trimLeftPats]. rewrite matchLen_quote.
      change (HasPrefix (String quote (rev (String c v))) quoteMark) with true. cbv iota.
      apply trimLeftPats_keep. rewrite matchLen_quote, Hs'. reflexivity. }
    rewrite E2. apply rev_involutive.
Qed.

End trimFacts.

Section HeaderLines.

(** A header line with no colon in it (a blank line among them) is passed
    over. *)
Theorem parseLine_skips_lines_without_colon (fm : FrontMatter.t) (line : string) :
  cutFree ":" (strings.TrimSpace line) "" = true -> parseLine fm line = fm.
Proof.
  intros H. unfold parseLine. cbv zeta.
  destruct (strings.TrimSpace line == "") eqn:E; [reflexivity|].
  unfold strings.SplitN. change (2 =? 0) with false. change (2 <? 0) with false. cbv iota.
  change (Z.to_nat (2 - 1)) with 1%nat.
  rewrite (stringsFacts.splitFrom_free ":" (Some 1%nat) _ H). reflexivity.
Qed.

Lemma quotedLine_trimmed key v :
  strings.matchLen strings.spaces (quotedLine key v) = O ->
  strings.TrimSpace (quotedLine key v) = quotedLine key v.
Proof.
  intros Hl. apply trimFacts.trimPats_keep; [exact Hl|].
  unfold quotedLine.
  rewrite trimFacts.rev_app, trimFacts.rev_app.
  rewrite (trimFacts.rev_cons strings.quote), trimFacts.rev_app.
  reflexivity.
Qed.

Lemma quotedLine_parts key v :
  cutFree ":" key (":" ++ String " " (String strings.quote (v ++ quoteMark))) = true ->
  strings.SplitN (quotedLine key v) ":" 2
  = [key; String " " (String strings.quote (v ++ quoteMark))].
Proof.
  intros Hcut.
  unfold strings.SplitN. change (2 =? 0) with false. change (2 <? 0) with false. cbv iota.
  change (Z.to_nat (2 - 1)) with 1%nat.
  unfold quotedLine.
  change (key ++ ": " ++ String strings.quote (v ++ quoteMark))
    with (key ++ ":" ++ String " " (String strings.quote (v ++ quoteMark))).
  rewrite (stringsFacts.splitFrom_first ":" 0 key _ ltac:(discriminate) Hcut).
  rewrite stringsFacts.splitFrom_spent. reflexivity.
Qed.

Lemma quotedLine_value key v :
  strings.HasPrefix v quoteMark = false -> strings.HasSuffix v quoteMark = false ->
  cutFree ":" key (":" ++ String " " (String strings.quote (v ++ quoteMark))) = true ->
  strings.matchLen strings.spaces (quotedLine key v) = O ->
  (quotedLine key v == "") = false ->
  strings.TrimSpace key = key ->
  forall fm,
  parseLine fm (quotedLine key v)
  = (let '(FrontMatter.Build_t title summary date tags readTime author published) := fm in
     if key == "title" then
       FrontMatter.Build_t v summary date tags readTime author published
     else if key == "summary" then
       FrontMatter.Build_t title v date tags readTime author published
     else if key == "date" then
       FrontMatter.Build_t title summary v tags readTime author published
     else if key == "readTime" then
       FrontMatter.Build_t title summary date tags v author published
     else if key == "author" then
       FrontMatter.Build_t title summary date tags readTime v published
     else if key == "published" then
       FrontMatter.Build_t title summary date tags readTime author (v == "true")
     else if key == "tags" then
       let value := strings.Trim v "[]" in
       if negb (value == "") then
         let tags' :=
           map (fun tag => strings.Trim (strings.TrimSpace tag) (String strings.quote ""))
               (strings.Split value ",") in
         FrontMatter.Build_t title summary date tags' readTime author published
       else fm
     else fm).
Proof.
  intros Hp Hs Hcut Hl Hne Hk fm.
  unfold parseLine. cbv zeta.
  rewrite (quotedLine_trimmed key v Hl), Hne, (quotedLine_parts key v Hcut), Hk.
  rewrite trimFacts.TrimSpace_quoted.
  change (String strings.quote "") with quoteMark.
  rewrite (trimFacts.Trim_quoted v Hp Hs).
  reflexivity.
Qed.

(** A header line [key: "value"] stores the text between the quotes as it
    stands, colons and blanks included, when that text neither starts nor
    ends with a quote; the other fields are kept. *)
Theorem quoted_header_values_are_verbatim (fm : FrontMatter.t) (v : string) :
  strings.HasPrefix v quoteMark = false ->
  strings.HasSuffix v quoteMark = false ->
  parseLine fm (quotedLine "title" v)
  = {| FrontMatter.Title := v; FrontMatter.Summary := FrontMatter.Summary fm;
       FrontMatter.Date := FrontMatter.Date fm; FrontMatter.Tags := FrontMatter.Tags fm;
       FrontMatter.ReadTime := FrontMatter.ReadTime fm;
       FrontMatter.Author := FrontMatter.Author fm;
       FrontMatter.Published := FrontMatter.Published fm |}
  /\ parseLine fm (quotedLine "summary" v)
  = {| FrontMatter.Title := FrontMatter.Title fm; FrontMatter.Summary := v;
       FrontMatter.Date := FrontMatter.Date fm; FrontMatter.Tags := FrontMatter.Tags fm;
       FrontMatter.ReadTime := FrontMatter.ReadTime fm;
       FrontMatter.Author := FrontMatter.Author fm;
       FrontMatter.Published := FrontMatter.Published fm |}
  /\ parseLine fm (quotedLine "date" v)
  = {| FrontMatter.Title := FrontMatter.Title fm; FrontMatter.Summary := FrontMatter.Summary fm;
       FrontMatter.Date := v; FrontMatter.Tags := FrontMatter.Tags fm;
       FrontMatter.ReadTime := FrontMatter.ReadTime fm;
       FrontMatter.Author := FrontMatter.Author fm;
       FrontMatter.Published := FrontMatter.Published fm |}
  /\ parseLine fm (quotedLine "readTime" v)
  = {| FrontMatter.Title := FrontMatter.Title fm; FrontMatter.Summary := FrontMatter.Summary fm;
       FrontMatter.Date := FrontMatter.Date fm; FrontMatter.Tags := FrontMatter.Tags fm;
       FrontMatter.ReadTime := v;
       FrontMatter.Author := FrontMatter.Author fm;
       FrontMatter.Published := FrontMatter.Published fm |}
  /\ parseLine fm (quotedLine "author" v)
  = {| FrontMatter.Title := FrontMatter.Title fm; FrontMatter.Summary := FrontMatter.Summary fm;
       FrontMatter.Date := FrontMatter.Date fm; FrontMatter.Tags := FrontMatter.Tags fm;
       FrontMatter.ReadTime := FrontMatter.ReadTime fm;
       FrontMatter.Author := v;
       FrontMatter.Published := FrontMatter.Published fm |}.
Proof.
  intros Hp Hs.
  repeat split.
  - rewrite (quotedLine_value "title" v Hp Hs eq_refl eq_refl eq_refl eq_refl fm).
    destruct fm; reflexivity.
  - rewrite (quotedLine_value "summary" v Hp Hs eq_refl eq_refl eq_refl eq_refl fm).
    destruct fm; reflexivity.
  - rewrite (quotedLine_value "date" v Hp Hs eq_refl eq_refl eq_refl eq_refl fm).
    destruct fm; reflexivity.
  - rewrite (quotedLine_value "readTime" v Hp Hs eq_refl eq_refl eq_refl eq_refl fm).
    destruct fm; reflexivity.
  - rewrite (quotedLine_value "author" v Hp Hs eq_refl eq_refl eq_refl eq_refl fm).
    destruct fm; reflexivity.
Qed.

End HeaderLines.

Lemma quoted_header_values_are_verbatim_witness :
  FrontMatter.Title (parseLine FrontMatter.zero (quotedLine "title" "Go: a tour"))
  = "Go: a tour".
Proof.
  rewrite (proj1 (quoted_header_values_are_verbatim FrontMatter.zero "Go: a tour"
                    eq_refl eq_refl)).
  reflexivity.
Defined.

Lemma parseLine_skips_lines_without_colon_witness :
  parseLine FrontMatter.zero "  no colon here " = FrontMatter.zero.
Proof. apply parseLine_skips_lines_without_colon. reflexivity. Defined.

(* ------------------------------------------------------------------ *)
(** ** What the directory loop lists *)

Section Listed.
Context {env : Env}.

(** Every post the loop of [GetBlogPosts] collects comes from a regular
    file [*.md] of the directory whose text opens with the delimiter line
    and whose header sets [published: true]; the post carries the text
    after the header.  A file without a header is never listed. *)
Theorem listed_posts_have_a_published_header
  (blogDir : string) (i : nat) (files : list FileInfo) (post : BlogPost.t) :
  In post (loadPosts blogDir i files) ->
  exists file content fm,
    In file files
    /\ IsDir file = false
    /\ strings.HasSuffix (Name file) ".md" = true
    /\ BlogPost.FilePath post = filepath_Join [blogDir; Name file]
    /\ ReadFile (BlogPost.FilePath post) = Some content
    /\ strings.HasPrefix content delimiter = true
    /\ parseFrontMatter content = (fm, BlogPost.Content post, None)
    /\ FrontMatter.Published fm = true
    /\ BlogPost.Title post = FrontMatter.Title fm
    /\ BlogPost.Summary post = FrontMatter.Summary fm.
Proof.
  intros Hin.
  apply loadPosts_spec in Hin.
  destruct Hin as (j & file & Hnth & Hdir & Hmd & Hread & Hpub).
  unfold readMarkdownFile in Hread.
  destruct (ReadFile (filepath_Join [blogDir; Name file])) as [content|] eqn:Hfile;
    [|discriminate].
  destruct (parseFrontMatter content) as [[fm md] [e|]] eqn:Hparse; [discriminate|].
  injection Hread as <-. cbn in Hpub |- *.
  exists file, content, fm.
  repeat split; try assumption; try reflexivity.
  - eapply nth_error_In, Hnth.
  - change (strings.HasPrefix content delimiter = true).
    unfold parseFrontMatter in Hparse. cbv zeta in Hparse.
    fold delimiter in Hparse.
    destruct (strings.HasPrefix content delimiter); [reflexivity|].
    cbn in Hparse. injection Hparse as <- _. discriminate Hpub.
Qed.

End Listed.

Lemma listed_posts_have_a_published_header_witness :
  let env := Sample.directory sort.insertionSort
               [("notes.md", "# Notes" ++ strings.LF);
                ("a.md", Sample.post "A" "2024-02-01" "true");
                ("draft.md", Sample.post "D" "2024-03-01" "false")] in
  let files := [ {| Name := "notes.md"; IsDir := false |};
                 {| Name := "a.md"; IsDir := false |};
                 {| Name := "draft.md"; IsDir := false |} ] in
  exists post,
    map BlogPost.Title (loadPosts "/app/content/blog" 0 files) = [BlogPost.Title post]
    /\ BlogPost.Title post = "A"
    /\ exists file content fm,
         In file files
         /\ IsDir file = false
         /\ strings.HasSuffix (Name file) ".md" = true
         /\ BlogPost.FilePath post = filepath_Join ["/app/content/blog"; Name file]
         /\ ReadFile (BlogPost.FilePath post) = Some content
         /\ strings.HasPrefix content delimiter = true
         /\ parseFrontMatter content = (fm, BlogPost.Content post, None)
         /\ FrontMatter.Published fm = true
         /\ BlogPost.Title post = FrontMatter.Title fm
         /\ BlogPost.Summary post = FrontMatter.Summary fm.
Proof.
  intros env files.
  exists (hd (BlogPost.Build_t "" "" "" "" 0 [] "" "" false "")
             (loadPosts "/app/content/blog" 0 files)).
  split; [vm_compute; reflexivity|].
  split; [vm_compute; reflexivity|].
  apply (listed_posts_have_a_published_header "/app/content/blog" 0 files).
  vm_compute. left. reflexivity.
Defined.

(* ------------------------------------------------------------------ *)
(** ** The status screen *)

Module statusFacts.
Import status.

Lemma run_app m a b : run m (a ++ b) = run (run m a) b.
Proof. apply fold_left_app. Qed.

Lemma run_term m msgs : term (run m msgs) = term m.
Proof.
  revert m. induction msgs as [|msg rest IH]; intros m; [reflexivity|].
  change (run m (msg :: rest)) with (run (fst (Update m msg)) rest). rewrite IH.
  destruct msg as [t|[w h|k| | |]]; try reflexivity.
  cbn. destruct (_ || _); reflexivity.
Qed.

Lemma run_size m msgs :
  forallb (fun msg => negb (isSizeReport msg)) msgs = true ->
  width (run m msgs) = width m /\ height (run m msgs) = height m.
Proof.
  revert m. induction msgs as [|msg rest IH]; intros m H; [split; reflexivity|].
  cbn [forallb] in H. apply andb_true_iff in H. destruct H as [Hm Hrest].
  change (run m (msg :: rest)) with (run (fst (Update m msg)) rest).
  destruct (IH (fst (Update m msg)) Hrest) as [-> ->].
  destruct msg as [t|[w h|k| | |]]; try (split; reflexivity); try discriminate Hm.
  cbn. destruct (_ || _); split; reflexivity.
Qed.

Lemma run_time m msgs :
  forallb (fun msg => negb (isTick msg)) msgs = true ->
  time (run m msgs) = time m.
Proof.
  revert m. induction msgs as [|msg rest IH]; intros m H; [reflexivity|].
  cbn [forallb] in H. apply andb_true_iff in H. destruct H as [Hm Hrest].
  change (run m (msg :: rest)) with (run (fst (Update m msg)) rest).
  rewrite (IH (fst (Update m msg)) Hrest).
  destruct msg as [t|[w h|k| | |]]; try reflexivity; try discriminate Hm.
  cbn. destruct (_ || _); reflexivity.
Qed.

End statusFacts.

(** After any messages the status screen holds the size of the last
    geometry report and the time of the last tick, whatever came before
    and whatever keys and other messages came after; the terminal's name
    is never changed. *)
Theorem status_holds_last_report
  (m : status.Model) (before after : list status.Msg) (w h : Z)
  (before' after' : list status.Msg) (t : Z) :
  forallb (fun msg => negb (status.isSizeReport msg)) after = true ->
  forallb (fun msg => negb (status.isTick msg)) after' = true ->
  (let m' := status.run m (before ++ status.Tea (tea.WindowSizeMsg w h) :: after) in
   status.width m' = w /\ status.height m' = h /\ status.term m' = status.term m)
  /\ (let m' := status.run m (before' ++ status.TimeMsg t :: after') in
      status.time m' = t /\ status.term m' = status.term m).
Proof.
  intros Hs Ht. split; cbv zeta.
  - rewrite statusFacts.run_term, statusFacts.run_app.
    change (status.run ?x (status.Tea (tea.WindowSizeMsg w h) :: after))
      with (status.run (fst (status.Update x (status.Tea (tea.WindowSizeMsg w h)))) after).
    destruct (statusFacts.run_size
                (fst (status.Update (status.run m before) (status.Tea (tea.WindowSizeMsg w h))))
                after Hs) as [-> ->].
    repeat split.
  - rewrite statusFacts.run_term, statusFacts.run_app.
    change (status.run ?x (status.TimeMsg t :: after'))
      with (status.run (fst (status.Update x (status.TimeMsg t))) after').
    rewrite (statusFacts.run_time _ after' Ht). repeat split.
Qed.

Lemma status_holds_last_report_witness :
  let m := status.NewModel 1767225600 "xterm" 80 24 in
  let key s := status.Tea (named s) in
  (let m' := status.run m ([key "j"; status.Tea (tea.WindowSizeMsg 100 30)]
                           ++ status.Tea (tea.WindowSizeMsg 120 40)
                           :: [status.TimeMsg 1767225601; key "q"]) in
   status.width m' = 120 /\ status.height m' = 40 /\ status.term m' = "xterm")
  /\ (let m' := status.run m ([status.TimeMsg 1767225601]
                              ++ status.TimeMsg 1767225602
                              :: [status.Tea (tea.WindowSizeMsg 120 40)]) in
      status.time m' = 1767225602 /\ status.term m' = "xterm").
Proof.
  intros m key.
  apply (status_holds_last_report m
           [key "j"; status.Tea (tea.WindowSizeMsg 100 30)]
           [status.TimeMsg 1767225601; key "q"] 120 40
           [status.TimeMsg 1767225601]
           [status.Tea (tea.WindowSizeMsg 120 40)] 1767225602);
    reflexivity.
Defined.

